(** * The provider adapters and the provider registry of obsidian-ollama

    A shallow embedding of [src/providers/*.ts] (the Ollama, OpenAI,
    Anthropic, Groq and Gemini adapters and [ProviderManager]) together with
    the part of the JavaScript host they rely on, and the properties of the
    streaming protocol layer proved about it.

    Conventions.
    - A JavaScript string is the list of its UTF-16 code units ([jsstring]).
    - A JavaScript number is an IEEE 754 binary64 value ([SpecFloat.spec_float],
      precision 53, maximal exponent 1024).
    - A response body is the sequence of outcomes of [reader.read()]; a chunk
      is given by the text [TextDecoder.decode(value, {stream: true})] returns
      for it.
    - The three callbacks only record their argument: a streaming call is
      described by the list of callback events it produces, in order.  The
      callbacks return normally, but for [onToken] of the chat view, which
      throws on a token that cannot be converted to a string; only the Gemini
      adapter can pass it such a token, and swallows the exception.
    - A request body is the JSON value that [JSON.stringify] writes for the
      object literal of the source: a property that is [undefined] is left
      out, and a number that is NaN or infinite is written as [null]. *)

From Stdlib Require Import List NArith ZArith Bool Lia String Ascii.
From Stdlib Require Import SpecFloat.
Import ListNotations.

Set Implicit Arguments.
Set Warnings "-register-all".

(* ================================================================== *)
(** ** Host strings *)

Module JS.

Definition jsstring := list N.

(** String literals of this development: a Rocq string read as code units,
  with the apostrophe standing for the double quote of the JavaScript
  text (JSON needs many of them). *)
Definition unit_of_ascii (a : ascii) : N :=
let n := N_of_ascii a in if N.eqb n 39 then 34%N else n.

Fixpoint txt (s : string) : jsstring :=
match s with
| EmptyString => []
| String a rest => unit_of_ascii a :: txt rest
end.

(** The line feed, written [\n] in the sources. *)
Definition LF : N := 10%N.
Definition nl : jsstring := [LF].

Fixpoint str_eqb (a b : jsstring) : bool :=
match a, b with
| [], [] => true
| x :: a', y :: b' => N.eqb x y && str_eqb a' b'
| _, _ => false
end.

(** [WhiteSpace] and [LineTerminator] code units, the ones [trim] removes. *)
Definition is_white_space (c : N) : bool :=
existsb (N.eqb c)
  [9; 10; 11; 12; 13; 32; 160; 5760; 8192; 8193; 8194; 8195; 8196; 8197;
   8198; 8199; 8200; 8201; 8202; 8232; 8233; 8239; 8287; 12288; 65279]%N.

Fixpoint trimStart (s : jsstring) : jsstring :=
match s with
| c :: rest => if is_white_space c then trimStart rest else s
| [] => []
end.

Definition trimEnd (s : jsstring) : jsstring := rev (trimStart (rev s)).

(** [s.trim()] *)
Definition trim (s : jsstring) : jsstring := trimEnd (trimStart s).

(** [s.startsWith(p)] *)
Fixpoint startsWith (p s : jsstring) : bool :=
match p, s with
| [], _ => true
| x :: p', y :: s' => N.eqb x y && startsWith p' s'
| _ :: _, [] => false
end.

(** [s.includes(p)] *)
Fixpoint includes (p s : jsstring) : bool :=
startsWith p s || match s with [] => false | _ :: s' => includes p s' end.

(** [s.replace(p, '')]: the first occurrence of the string [p] is removed. *)
Fixpoint remove_first (p s : jsstring) : jsstring :=
if startsWith p s then skipn (List.length p) s
else match s with
     | [] => []
     | c :: s' => c :: remove_first p s'
     end.

(** [s.slice(n)] for a non-negative [n]. *)
Definition slice (n : nat) (s : jsstring) : jsstring := skipn n s.

(** [s.split('\n')]: the segments between line feeds; never empty. *)
Fixpoint split_lines (s : jsstring) : list jsstring :=
match s with
| [] => [[]]
| c :: rest =>
    if N.eqb c LF then [] :: split_lines rest
    else match split_lines rest with
         | seg :: segs => (c :: seg) :: segs
         | [] => [[c]]
         end
end.

(** A string is truthy when it is not empty. *)
Definition string_truthy (s : jsstring) : bool :=
match s with [] => false | _ => true end.

(** Decimal digits of a natural number, as [String(n)] prints an integer. *)
Fixpoint digits_fuel (fuel : nat) (n : N) (acc : jsstring) : jsstring :=
match fuel with
| O => acc
| S fuel' =>
    let acc' := (48 + N.modulo n 10)%N :: acc in
    if N.ltb n 10 then acc' else digits_fuel fuel' (N.div n 10) acc'
end.

Definition decimal (n : N) : jsstring :=
digits_fuel (S (N.to_nat (N.log2 n))) n [].

(* ------------------------------------------------------------------ *)
(** ** Host numbers *)

Definition number := spec_float.

Definition prec : Z := 53.
Definition emax : Z := 1024.

(** The number nearest to [d * 10^e10] (ties to even), as a numeric literal
  and [JSON.parse] read a decimal numeral. *)
Definition number_of_decimal (neg : bool) (d : N) (e10 : Z) : number :=
match d with
| N0 => S754_zero neg
| Npos p =>
    match e10 with
    | Zneg k =>
        SFdiv prec emax (S754_finite neg p 0)
                        (S754_finite false (Pos.pow 10 k) 0)
    | _ => binary_round prec emax neg (p * Z.to_pos (10 ^ e10)) 0
    end
end.

(** [ToBoolean] of a number: zero and NaN are falsy. *)
Definition number_truthy (x : number) : bool :=
match x with
| S754_zero _ | S754_nan => false
| _ => true
end.

(** [10^n <= num / den] for positive [num], [den]. *)
Definition pow10_le (n : Z) (num den : Z) : bool :=
match n with
| Zneg k => Z.leb den (num * Zpos (Pos.pow 10 k))
| _ => Z.leb (10 ^ n * den) num
end.

(** The least [n], searching upwards from [n0], with [num / den < 10^n]. *)
Fixpoint decimal_exponent (fuel : nat) (n0 : Z) (num den : Z) : Z :=
match fuel with
| O => n0
| S fuel' =>
    if pow10_le n0 num den then decimal_exponent fuel' (n0 + 1) num den
    else n0
end.

(** The digits [s] (as an integer) and the exponent [n] of the shortest
  decimal [s * 10^(n-k)], [k] digits long, that reads back as the positive
  number [m * 2^e]; of two candidates of one length the nearer one. *)
Fixpoint shortest_digits (fuel : nat) (k : Z) (m : positive) (e : Z) (n : Z)
: Z * Z :=
let x := S754_finite false m e in
let num := (Zpos m * 2 ^ Z.max e 0 * 10 ^ Z.max (k - n) 0)%Z in
let den := (2 ^ Z.max (- e) 0 * 10 ^ Z.max (n - k) 0)%Z in
let lo := (num / den)%Z in
let hi := (lo + 1)%Z in
let back s := number_of_decimal false (Z.to_N s) (n - k) in
let ok s := match SFcompare (back s) x with Some Eq => true | _ => false end in
let lo_near := Z.leb (2 * (num - lo * den)) den in
let pick :=
  if ok lo && ok hi then Some (if lo_near then lo else hi)
  else if ok lo then Some lo
  else if ok hi then Some hi
  else None in
match pick, fuel with
| Some s, _ => if Z.eqb s (10 ^ k) then (10 ^ (k - 1), n + 1)%Z else (s, n)
| None, S fuel' => shortest_digits fuel' (k + 1) m e n
| None, O => (lo, n)
end.

Fixpoint strip_zeros (fuel : nat) (s : Z) : Z :=
match fuel with
| O => s
| S fuel' =>
    if Z.eqb s 0 then s
    else if Z.eqb (s mod 10) 0 then strip_zeros fuel' (s / 10) else s
end.

Definition zeros (n : Z) : jsstring := repeat 48%N (Z.to_nat n).

(** [Number::toString] in radix 10. *)
Definition number_to_string (x : number) : jsstring :=
match x with
| S754_nan => txt "NaN"
| S754_zero _ => txt "0"
| S754_infinity neg => (if neg then txt "-" else []) ++ txt "Infinity"
| S754_finite neg m e =>
    let bits := (Zpos (digits2_pos m) + e)%Z in
    let guess := (bits * 3 / 10 - 2)%Z in
    let n0 := decimal_exponent 8 guess (Zpos m * 2 ^ Z.max e 0)
                               (2 ^ Z.max (- e) 0) in
    let '(s0, n) := shortest_digits 17 1 m e n0 in
    let s := strip_zeros 20 s0 in
    let ds := decimal (Z.to_N s) in
    let k := Z.of_nat (List.length ds) in
    let body :=
      if Z.leb k n && Z.leb n 21 then ds ++ zeros (n - k)
      else if Z.ltb 0 n && Z.leb n 21 then
        firstn (Z.to_nat n) ds ++ txt "." ++ skipn (Z.to_nat n) ds
      else if Z.ltb (-6) n && Z.leb n 0 then
        txt "0." ++ zeros (- n) ++ ds
      else
        let ex := (n - 1)%Z in
        let sign := if Z.ltb ex 0 then txt "-" else txt "+" in
        let mant := match ds with
                    | [d] => [d]
                    | d :: more => d :: txt "." ++ more
                    | [] => []
                    end in
        mant ++ txt "e" ++ sign ++ decimal (Z.to_N (Z.abs ex)) in
    (if neg then txt "-" else []) ++ body
end.

(* ------------------------------------------------------------------ *)
(** ** JSON values and [JSON.parse] *)

(** The values [JSON.parse] produces.  An object keeps its members in source
  order, duplicates included; a property read takes the last one. *)
Inductive json :=
| JNull
| JBool (b : bool)
| JNumber (x : number)
| JString (s : jsstring)
| JArray (elems : list json)
| JObject (members : list (jsstring * json)).

(** A JavaScript value read out of parsed JSON: [None] is [undefined]. *)
Definition jsval := option json.
Definition undefined : jsval := None.

Inductive jtoken :=
| TLBrace | TRBrace | TLBracket | TRBracket | TColon | TComma
| TScalar (v : json).

Definition is_digit (c : N) : bool := N.leb 48 c && N.leb c 57.

Definition is_number_char (c : N) : bool :=
is_digit c || existsb (N.eqb c) [43; 45; 46; 69; 101]%N.

Definition is_json_space (c : N) : bool :=
existsb (N.eqb c) [9; 10; 13; 32]%N.

Definition hex_value (c : N) : option N :=
if is_digit c then Some (c - 48)%N
else if N.leb 65 c && N.leb c 70 then Some (c - 55)%N
else if N.leb 97 c && N.leb c 102 then Some (c - 87)%N
else None.

(** The leading digits of [s], as their value and count, and what follows. *)
Fixpoint take_digits (s : jsstring) (value : N) (count : nat)
: N * nat * jsstring :=
match s with
| c :: rest =>
    if is_digit c then take_digits rest (value * 10 + (c - 48))%N (S count)
    else (value, count, s)
| [] => (value, count, [])
end.

(** A JSON numeral read as a number: an optional minus sign; an integer
  part, [0] or digits without a leading zero; an optional fraction, a dot
  and at least one digit; an optional exponent, [e] or [E], an optional
  sign and at least one digit. *)
Definition number_of_lexeme (s : jsstring) : option number :=
let '(neg, s1) := match s with
                  | 45%N :: r => (true, r)
                  | _ => (false, s)
                  end in
let '(int_value, int_count, s2) := take_digits s1 0%N O in
let leading_zero := match s1 with
                    | 48%N :: _ => Nat.ltb 1 int_count
                    | _ => false
                    end in
if Nat.eqb int_count 0 || leading_zero then None else
let frac := match s2 with
            | 46%N :: r =>
                let '(v, n, s3) := take_digits r int_value O in
                if Nat.eqb n 0 then None else Some (v, n, s3)
            | _ => Some (int_value, O, s2)
            end in
match frac with
| None => None
| Some (digits, frac_count, s3) =>
    let expo := match s3 with
                | [] => Some 0%Z
                | c :: r =>
                    if N.eqb c 101 || N.eqb c 69 then
                      let '(eneg, r1) := match r with
                                         | 45%N :: r' => (true, r')
                                         | 43%N :: r' => (false, r')
                                         | _ => (false, r)
                                         end in
                      match take_digits r1 0%N O with
                      | (_, O, _) => None
                      | (v, _, []) =>
                          Some (if eneg then (- Z.of_N v)%Z else Z.of_N v)
                      | (_, _, _ :: _) => None
                      end
                    else None
                end in
    match expo with
    | None => None
    | Some e =>
        Some (number_of_decimal neg digits (e - Z.of_nat frac_count))
    end
end.

Inductive lex_mode :=
| LTop
| LString (acc : jsstring)
| LEscape (acc : jsstring)
| LHex (acc : jsstring) (remaining : nat) (value : N)
| LNumber (acc : jsstring)
| LLiteral (expected : jsstring) (v : json).

(** One code unit read between tokens. *)
Definition lex_top (c : N) (out : list jtoken)
: option (lex_mode * list jtoken) :=
if is_json_space c then Some (LTop, out)
else if N.eqb c 123 then Some (LTop, TLBrace :: out)
else if N.eqb c 125 then Some (LTop, TRBrace :: out)
else if N.eqb c 91 then Some (LTop, TLBracket :: out)
else if N.eqb c 93 then Some (LTop, TRBracket :: out)
else if N.eqb c 58 then Some (LTop, TColon :: out)
else if N.eqb c 44 then Some (LTop, TComma :: out)
else if N.eqb c 34 then Some (LString [], out)
else if N.eqb c 45 || is_digit c then Some (LNumber [c], out)
else if N.eqb c 116 then Some (LLiteral (txt "rue") (JBool true), out)
else if N.eqb c 102 then Some (LLiteral (txt "alse") (JBool false), out)
else if N.eqb c 110 then Some (LLiteral (txt "ull") JNull, out)
else None.

(** The tokens of a JSON text (accumulators are kept in reverse). *)
Fixpoint lex (mode : lex_mode) (input : jsstring) (out : list jtoken)
: option (list jtoken) :=
match input with
| [] =>
    match mode with
    | LTop => Some (rev out)
    | LNumber acc =>
        match number_of_lexeme (rev acc) with
        | Some x => Some (rev (TScalar (JNumber x) :: out))
        | None => None
        end
    | _ => None
    end
| c :: rest =>
    match mode with
    | LTop =>
        match lex_top c out with
        | Some (mode', out') => lex mode' rest out'
        | None => None
        end
    | LString acc =>
        if N.eqb c 34 then lex LTop rest (TScalar (JString (rev acc)) :: out)
        else if N.eqb c 92 then lex (LEscape acc) rest out
        else if N.ltb c 32 then None
        else lex (LString (c :: acc)) rest out
    | LEscape acc =>
        if N.eqb c 34 || N.eqb c 92 || N.eqb c 47
        then lex (LString (c :: acc)) rest out
        else if N.eqb c 98 then lex (LString (8%N :: acc)) rest out
        else if N.eqb c 102 then lex (LString (12%N :: acc)) rest out
        else if N.eqb c 110 then lex (LString (10%N :: acc)) rest out
        else if N.eqb c 114 then lex (LString (13%N :: acc)) rest out
        else if N.eqb c 116 then lex (LString (9%N :: acc)) rest out
        else if N.eqb c 117 then lex (LHex acc 3 0%N) rest out
        else None
    | LHex acc remaining value =>
        match hex_value c with
        | None => None
        | Some h =>
            let value' := (value * 16 + h)%N in
            match remaining with
            | O => lex (LString (value' :: acc)) rest out
            | S k => lex (LHex acc k value') rest out
            end
        end
    | LNumber acc =>
        if is_number_char c then lex (LNumber (c :: acc)) rest out
        else
          match number_of_lexeme (rev acc) with
          | None => None
          | Some x =>
              match lex_top c (TScalar (JNumber x) :: out) with
              | Some (mode', out') => lex mode' rest out'
              | None => None
              end
          end
    | LLiteral expected v =>
        match expected with
        | [] => None
        | e :: expected' =>
            if N.eqb c e then
              match expected' with
              | [] => lex LTop rest (TScalar v :: out)
              | _ => lex (LLiteral expected' v) rest out
              end
            else None
        end
    end
end.

(** A container under construction, waiting for the value being read. *)
Inductive frame :=
| FArr (acc : list json)
| FObj (acc : list (jsstring * json)) (key : jsstring).

Inductive parse_state :=
| ExpectValue (stack : list frame)
| ArrayStart (stack : list frame)
| ObjectStart (stack : list frame)
| ExpectKey (acc : list (jsstring * json)) (stack : list frame)
| ExpectColon (acc : list (jsstring * json)) (key : jsstring)
            (stack : list frame)
| InArray (acc : list json) (stack : list frame)
| InObject (acc : list (jsstring * json)) (stack : list frame)
| Finished (v : json).

Definition deliver (v : json) (stack : list frame) : parse_state :=
match stack with
| [] => Finished v
| FArr acc :: stack' => InArray (v :: acc) stack'
| FObj acc key :: stack' => InObject ((key, v) :: acc) stack'
end.

Definition start_value (t : jtoken) (stack : list frame)
: option parse_state :=
match t with
| TScalar v => Some (deliver v stack)
| TLBracket => Some (ArrayStart stack)
| TLBrace => Some (ObjectStart stack)
| _ => None
end.

Definition parse_step (st : parse_state) (t : jtoken) : option parse_state :=
match st, t with
| ExpectValue stack, _ => start_value t stack
| ArrayStart stack, TRBracket => Some (deliver (JArray []) stack)
| ArrayStart stack, _ => start_value t (FArr [] :: stack)
| ObjectStart stack, TRBrace => Some (deliver (JObject []) stack)
| ObjectStart stack, TScalar (JString k) => Some (ExpectColon [] k stack)
| ExpectKey acc stack, TScalar (JString k) => Some (ExpectColon acc k stack)
| ExpectColon acc k stack, TColon => Some (ExpectValue (FObj acc k :: stack))
| InArray acc stack, TComma => Some (ExpectValue (FArr acc :: stack))
| InArray acc stack, TRBracket => Some (deliver (JArray (rev acc)) stack)
| InObject acc stack, TComma => Some (ExpectKey acc stack)
| InObject acc stack, TRBrace => Some (deliver (JObject (rev acc)) stack)
| _, _ => None
end.

Fixpoint parse_tokens (st : parse_state) (ts : list jtoken) : option json :=
match ts with
| [] => match st with Finished v => Some v | _ => None end
| t :: ts' =>
    match parse_step st t with
    | Some st' => parse_tokens st' ts'
    | None => None
    end
end.

(** [JSON.parse(text)]; [None] when it throws a [SyntaxError]. *)
Definition JSON_parse (text : jsstring) : option json :=
match lex LTop text [] with
| Some ts => parse_tokens (ExpectValue []) ts
| None => None
end.

(* ------------------------------------------------------------------ *)
(** ** Operators on values *)

(** [ToBoolean] *)
Definition truthy (v : jsval) : bool :=
match v with
| None | Some JNull => false
| Some (JBool b) => b
| Some (JNumber x) => number_truthy x
| Some (JString s) => string_truthy s
| Some (JArray _) | Some (JObject _) => true
end.

Fixpoint lookup_last (key : jsstring) (members : list (jsstring * json))
: jsval :=
match members with
| [] => undefined
| (k, v) :: rest =>
    match lookup_last key rest with
    | Some later => Some later
    | None => if str_eqb k key then Some v else undefined
    end
end.

(** The property read [v.key] on a value that is neither [null] nor
  [undefined], for a key that no built-in prototype defines (every key the
  adapters read is such a data key): the member of an object, [undefined]
  on anything else. *)
Definition get (key : jsstring) (v : json) : jsval :=
match v with
| JObject members => lookup_last key members
| _ => undefined
end.

(** [v[0]] on a value that is neither [null] nor [undefined]. *)
Definition get0 (v : json) : jsval :=
match v with
| JArray elems => match elems with e :: _ => Some e | [] => undefined end
| JString s => match s with c :: _ => Some (JString [c]) | [] => undefined end
| JObject members => lookup_last (txt "0") members
| _ => undefined
end.

(** [join(',')] of strings. *)
Fixpoint join_comma (parts : list jsstring) : jsstring :=
match parts with
| [] => []
| [p] => p
| p :: rest => p ++ 44%N :: join_comma rest
end.

(** The strings of a list, unless one is missing. *)
Fixpoint all_strings (l : list (option jsstring)) : option (list jsstring) :=
match l with
| [] => Some []
| None :: _ => None
| Some s :: rest =>
    match all_strings rest with
    | Some ss => Some (s :: ss)
    | None => None
    end
end.

(** What [text += v] appends, or [None] when the statement throws.  The
  conversion of an object calls its [toString]: the one of
  [Object.prototype], unless the object has a member of that name, in which
  case the conversion throws a [TypeError], since a value read by
  [JSON.parse] is not callable (and [valueOf] gives no primitive either).
  An array is joined with commas, its elements converted in the same way,
  [null] to the empty string. *)
Fixpoint to_string (v : json) : option jsstring :=
match v with
| JNull => Some (txt "null")
| JBool true => Some (txt "true")
| JBool false => Some (txt "false")
| JNumber x => Some (number_to_string x)
| JString s => Some s
| JArray elems =>
    option_map join_comma
      (all_strings
         (map (fun e => match e with JNull => Some [] | _ => to_string e end)
              elems))
| JObject members =>
    match lookup_last (txt "toString") members with
    | Some _ => None
    | None => Some (txt "[object Object]")
    end
end.

(** Strict equality [v === 'literal']. *)
Definition is_string (lit : jsstring) (v : jsval) : bool :=
match v with
| Some (JString s) => str_eqb s lit
| _ => false
end.

End JS.

Import JS.

(* ================================================================== *)
(** ** Errors, the network and the abort handle *)

(** A thrown [Error] object, as far as the adapters look at it. *)
Record js_error := { error_name : jsstring; error_message : jsstring }.

(** [new Error(message)] *)
Definition Error (message : jsstring) : js_error :=
  {| error_name := txt "Error"; error_message := message |}.

(** The rejection of an aborted transfer. *)
Definition AbortError : js_error :=
  {| error_name := txt "AbortError";
     error_message := txt "The operation was aborted." |}.

(** The errors of the engine; their message, which differs between engines,
    is left empty. *)
Definition SyntaxError : js_error :=
  {| error_name := txt "SyntaxError"; error_message := [] |}.
Definition TypeError : js_error :=
  {| error_name := txt "TypeError"; error_message := [] |}.

(** The outcome of an expression that may throw. *)
Inductive result (A : Type) :=
| Ok (a : A)
| Throw (e : js_error).
Arguments Throw {A} e.

(** [try { body } catch { handler }] *)
Definition try_catch {A} (body : result A) (handler : js_error -> result A)
  : result A :=
  match body with
  | Ok a => Ok a
  | Throw e => handler e
  end.

(** The outcomes of the successive [await reader.read()] of a response
    body: chunks, then the end of the body or a rejection. *)
Inductive reader :=
| EndOfBody
| ReadFails (e : js_error)
| Chunk (text : jsstring) (rest : reader).

(** A [fetch] response: [resp_body] is [response.body] ([None] for [null]),
    [resp_json] the outcome of [await response.json()]. *)
Record Response := {
  resp_ok : bool;
  resp_status : N;
  resp_statusText : jsstring;
  resp_body : option reader;
  resp_json : result json
}.

(** The response of Obsidian's [requestUrl]. *)
Record RequestUrlResponse := { rr_status : N; rr_text : jsstring }.

Record Request := {
  req_url : jsstring;
  req_method : jsstring;
  req_headers : list (jsstring * jsstring);
  req_body : option json
}.

(** What the backend answers to a request. *)
Definition network := Request -> result Response.
Definition requestUrl_network := Request -> result RequestUrlResponse.

(** The handle a streaming call returns.  [aborted_at] says how the caller
    uses it: [Some k] when [abort()] is invoked while the call is suspended
    in its [k]-th [await] (the [fetch] is number 0, the [i]-th [read] number
    [i]), [None] when it is never invoked before the call ends. *)
Record AbortController := { aborted_at : option nat }.

(** A body whose transfer is aborted during the read numbered [S k]: the
    reads before it are served, that read rejects with an [AbortError]. A
    body that ends earlier is not affected. *)
Fixpoint abort_reader (k : nat) (r : reader) : reader :=
  match k with
  | O => ReadFails AbortError
  | S k' =>
      match r with
      | Chunk text rest => Chunk text (abort_reader k' rest)
      | _ => r
      end
  end.

(** [fetch(url, init)].  Only a transfer whose [init] carries the handle's
    [signal] is torn down by [abort()]. *)
Definition fetch (net : network) (req : Request)
                 (signal : option AbortController) : result Response :=
  match signal with
  | None => net req
  | Some controller =>
      match aborted_at controller with
      | None => net req
      | Some O => Throw AbortError
      | Some (S k) =>
          match net req with
          | Ok r =>
              Ok {| resp_ok := resp_ok r;
                    resp_status := resp_status r;
                    resp_statusText := resp_statusText r;
                    resp_body := option_map (abort_reader k) (resp_body r);
                    resp_json := resp_json r |}
          | Throw e => Throw e
          end
      end
  end.

(* ================================================================== *)
(** ** model/AIProvider.ts *)

Inductive Role := user | assistant | system.

Record AIMessage := {
  role : Role;
  content : jsstring;
  timestamp : option number
}.

Record GenerateOptions := {
  temperature : option number;
  maxTokens : option number;
  systemPrompt : option jsstring
}.

(** One call of a callback of [AIStreamCallbacks]. *)
Inductive event :=
| OnToken (token : json)
| OnComplete (fullResponse : jsstring)
| OnError (error : js_error).

Definition role_name (r : Role) : jsstring :=
  match r with
  | user => txt "user"
  | assistant => txt "assistant"
  | system => txt "system"
  end.

Definition is_system (m : AIMessage) : bool :=
  match role m with system => true | _ => false end.

(* ------------------------------------------------------------------ *)
(** ** Expressions the adapters share *)

(** An object literal handed to [JSON.stringify]: a property whose value is
    [undefined] is left out. *)
Fixpoint defined_fields (fields : list (jsstring * jsval))
  : list (jsstring * json) :=
  match fields with
  | [] => []
  | (k, Some v) :: rest => (k, v) :: defined_fields rest
  | (_, None) :: rest => defined_fields rest
  end.

Definition obj (fields : list (jsstring * jsval)) : json :=
  JObject (defined_fields fields).

Definition str (s : jsstring) : jsval := Some (JString s).
(** The value [JSON.stringify] writes for a number: [null] for NaN and
    the infinities, [0] for both zeros, the number itself otherwise. *)
Definition stringified (x : number) : json :=
  match x with
  | S754_nan | S754_infinity _ => JNull
  | S754_zero _ => JNumber (S754_zero false)
  | S754_finite _ _ _ => JNumber x
  end.

(** A number in a request body. *)
Definition num (x : number) : jsval := Some (stringified x).

(** [options?.temperature], [options?.maxTokens], [options?.systemPrompt] *)
Definition opt_temperature (options : option GenerateOptions)
  : option number :=
  match options with Some o => temperature o | None => None end.

Definition opt_maxTokens (options : option GenerateOptions) : option number :=
  match options with Some o => maxTokens o | None => None end.

Definition opt_systemPrompt (options : option GenerateOptions)
  : option jsstring :=
  match options with Some o => systemPrompt o | None => None end.

(** [x || d] on an optional number: [undefined], zero and NaN give [d]. *)
Definition or_number (x : option number) (d : number) : number :=
  match x with
  | Some v => if number_truthy v then v else d
  | None => d
  end.

(** [x ?? d]: only [undefined] gives [d]. *)
Definition nullish_number (x : option number) (d : number) : number :=
  match x with
  | Some v => v
  | None => d
  end.

(** [s || d] on an optional string: [undefined] and the empty string give
    [d]. *)
Definition or_string (s : option jsstring) (d : jsstring) : jsstring :=
  match s with
  | Some v => if string_truthy v then v else d
  | None => d
  end.

(** The truthy value of an optional string, if any. *)
Definition truthy_string (s : option jsstring) : option jsstring :=
  match s with
  | Some v => if string_truthy v then Some v else None
  | None => None
  end.

Definition number_0_7 : number := number_of_decimal false 7 (-1).
Definition number_2048 : number := number_of_decimal false 2048 0.
Definition number_4096 : number := number_of_decimal false 4096 0.

Definition message_json (m : AIMessage) : json :=
  obj [(txt "role", str (role_name (role m)));
       (txt "content", str (content m))].

(** [v.key] where [v] may be [null]: reading a property of [null] throws
    ([None]). *)
Definition member (key : jsstring) (v : json) : option jsval :=
  match v with
  | JNull => None
  | _ => Some (get key v)
  end.

(** [v?.key] *)
Definition opt_member (key : jsstring) (v : jsval) : jsval :=
  match v with
  | None | Some JNull => undefined
  | Some x => get key x
  end.

(** [v?.[0]] *)
Definition opt_index0 (v : jsval) : jsval :=
  match v with
  | None | Some JNull => undefined
  | Some x => get0 x
  end.

(** [if (token) { fullResponse += token; callbacks.onToken(token); }]:
    the callbacks made and the new accumulated text, or [None] when the
    conversion of the token throws, which it does before the callback is
    called. *)
Definition emit_token (token : jsval) (fullResponse : jsstring)
  : option (list event * jsstring) :=
  match token with
  | Some t =>
      if truthy token
      then match to_string t with
           | Some s => Some ([OnToken t], fullResponse ++ s)
           | None => None
           end
      else Some ([], fullResponse)
  | None => Some ([], fullResponse)
  end.

(** The [catch] clause of the streaming functions that accumulate text:
    [if (error.name === 'AbortError') callbacks.onComplete(fullResponse);
     else callbacks.onError(error);] *)
Definition on_catch (error : js_error) (fullResponse : jsstring)
  : list event :=
  if str_eqb (error_name error) (txt "AbortError")
  then [OnComplete fullResponse]
  else [OnError error].

(** The read loops of the Ollama, OpenAI, Anthropic and Groq adapters have
    one shape and differ in how a chunk is cut into lines and in what is done
    with a line.  A line handler returns the callbacks it made, the new
    accumulated text, and whether it returned from the streaming function. *)
Section ReadLoop.

Variable lines_of_chunk : jsstring -> list jsstring.
Variable handle_line : jsstring -> jsstring -> list event * jsstring * bool.

(** [for (const line of lines) { ... }] *)
Fixpoint for_lines (lines : list jsstring) (fullResponse : jsstring)
  : list event * jsstring * bool :=
  match lines with
  | [] => ([], fullResponse, false)
  | line :: rest =>
      let '(evs, full, returned) := handle_line line fullResponse in
      if returned then (evs, full, true)
      else
        let '(evs', full', returned') := for_lines rest full in
        (evs ++ evs', full', returned')
  end.

(** [while (true) { const { done, value } = await reader.read();
    if (done) break; ... }  callbacks.onComplete(fullResponse);]
    inside the [try] whose handler is [on_catch]. *)
Fixpoint read_loop (r : reader) (fullResponse : jsstring) : list event :=
  match r with
  | EndOfBody => [OnComplete fullResponse]
  | ReadFails e => on_catch e fullResponse
  | Chunk text rest =>
      let '(evs, full, returned) :=
        for_lines (lines_of_chunk text) fullResponse in
      if returned then evs else evs ++ read_loop rest full
  end.

(** From the [fetch] to the end of the function; [http_error] is the
    message thrown for a response that is not ok. *)
Definition stream_response (http_error : Response -> jsstring)
                           (response : result Response) : list event :=
  match response with
  | Throw e => on_catch e []
  | Ok r =>
      if negb (resp_ok r) then on_catch (Error (http_error r)) []
      else
        match resp_body r with
        | None => on_catch (Error (txt "No response body")) []
        | Some body => read_loop body []
        end
  end.

End ReadLoop.

Definition json_headers : list (jsstring * jsstring) :=
  [(txt "Content-Type", txt "application/json")].

Definition bearer_headers (apiKey : jsstring) : list (jsstring * jsstring) :=
  [(txt "Content-Type", txt "application/json");
   (txt "Authorization", txt "Bearer " ++ apiKey)].

Definition nonblank (line : jsstring) : bool := string_truthy (trim line).

(* ================================================================== *)
(** ** providers/OllamaProvider.ts *)

Module OllamaProvider.

Record t := { baseUrl : jsstring; defaultModel : jsstring }.

(** The constructor; an argument left out takes its default. *)
Definition new (baseUrl defaultModel : option jsstring) : t :=
  {| baseUrl := match baseUrl with
                | Some u => u
                | None => txt "http://localhost:11434"
                end;
     defaultModel := match defaultModel with
                     | Some m => m
                     | None => txt "llama2"
                     end |}.

Definition tags_request (p : t) : Request :=
  {| req_url := baseUrl p ++ txt "/api/tags";
     req_method := txt "GET";
     req_headers := [];
     req_body := None |}.

Definition isAvailable (p : t) (net : requestUrl_network) : result bool :=
  try_catch
    (match net (tags_request p) with
     | Ok response => Ok (N.eqb (rr_status response) 200)
     | Throw e => Throw e
     end)
    (fun _ => Ok false).

(** [models.map((m) => m.name)] on an array; reading [name] of a [null]
    element throws. *)
Fixpoint names (models : list json) : option (list jsval) :=
  match models with
  | [] => Some []
  | m :: rest =>
      match member (txt "name") m, names rest with
      | Some n, Some ns => Some (n :: ns)
      | _, _ => None
      end
  end.

(** [data.models?.map((m: any) => m.name) || []]; [None] when the
    expression throws a [TypeError]. *)
Definition model_names (data : json) : option (list jsval) :=
  match member (txt "models") data with
  | None => None
  | Some None | Some (Some JNull) => Some []
  | Some (Some (JArray models)) => names models
  | Some (Some _) => None
  end.

Definition getModels (p : t) (net : requestUrl_network)
  : result (list jsval) :=
  try_catch
    (match net (tags_request p) with
     | Throw e => Throw e
     | Ok response =>
         match JSON_parse (rr_text response) with
         | None => Throw SyntaxError
         | Some data =>
             match model_names data with
             | None => Throw TypeError
             | Some l => Ok l
             end
         end
     end)
    (fun _ => Ok [str (defaultModel p)]).

(** [options?.systemPrompt ? `${options.systemPrompt}\n\n${prompt}`
    : prompt] *)
Definition full_prompt (prompt : jsstring)
                       (options : option GenerateOptions) : jsstring :=
  match truthy_string (opt_systemPrompt options) with
  | Some sp => sp ++ nl ++ nl ++ prompt
  | None => prompt
  end.

Definition request_options (options : option GenerateOptions) : jsval :=
  Some (obj [(txt "temperature",
              num (or_number (opt_temperature options) number_0_7))]).

(** The request body of [generate] ([stream] false) and of
    [generateStream] ([stream] true). *)
Definition generate_body (p : t) (prompt : jsstring)
                         (model : option jsstring)
                         (options : option GenerateOptions)
                         (stream : bool) : json :=
  obj [(txt "model", str (or_string model (defaultModel p)));
       (txt "prompt", str (full_prompt prompt options));
       (txt "stream", Some (JBool stream));
       (txt "options", request_options options)].

Definition ollamaMessages (messages : list AIMessage)
                          (options : option GenerateOptions)
  : list AIMessage :=
  match truthy_string (opt_systemPrompt options) with
  | Some sp =>
      {| role := system; content := sp; timestamp := None |} :: messages
  | None => messages
  end.

Definition chat_body (p : t) (messages : list AIMessage)
                     (model : jsstring)
                     (options : option GenerateOptions) : json :=
  obj [(txt "model", str (or_string (Some model) (defaultModel p)));
       (txt "messages",
        Some (JArray (map message_json (ollamaMessages messages options))));
       (txt "stream", Some (JBool true));
       (txt "options", request_options options)].

(** [isChat ? json.message?.content : json.response] *)
Definition token_of (isChat : bool) (json : json) : option jsval :=
  if isChat
  then option_map (opt_member (txt "content")) (member (txt "message") json)
  else member (txt "response") json.

(** The body of the [for] loop: a line that does not parse, whose value
    is [null], or whose token cannot be appended to the text, is skipped by
    the [catch], the test of [done] included. *)
Definition handle_line (isChat : bool) (line fullResponse : jsstring)
  : list event * jsstring * bool :=
  match JSON_parse line with
  | None => ([], fullResponse, false)
  | Some json =>
      match token_of isChat json with
      | None => ([], fullResponse, false)
      | Some token =>
          match emit_token token fullResponse with
          | None => ([], fullResponse, false)
          | Some (evs, full) =>
              if truthy (get (txt "done") json)
              then (evs ++ [OnComplete full], full, true)
              else (evs, full, false)
          end
      end
  end.

(** [chunk.split('\n').filter(line => line.trim())] *)
Definition lines_of_chunk (chunk : jsstring) : list jsstring :=
  filter nonblank (split_lines chunk).

Definition http_error (r : Response) : jsstring :=
  txt "HTTP error! status: " ++ decimal (resp_status r).

Definition streamRequest (net : network) (url : jsstring) (body : json)
                         (abortController : AbortController)
                         (isChat : bool) : list event :=
  stream_response lines_of_chunk (handle_line isChat) http_error
    (fetch net {| req_url := url;
                  req_method := txt "POST";
                  req_headers := json_headers;
                  req_body := Some body |}
           (Some abortController)).

Definition generateStream (p : t) (net : network) (prompt model : jsstring)
                          (options : option GenerateOptions)
                          (abortController : AbortController)
  : list event :=
  streamRequest net (baseUrl p ++ txt "/api/generate")
    (generate_body p prompt (Some model) options true)
    abortController false.

Definition chat (p : t) (net : network) (messages : list AIMessage)
                (model : jsstring) (options : option GenerateOptions)
                (abortController : AbortController) : list event :=
  streamRequest net (baseUrl p ++ txt "/api/chat")
    (chat_body p messages model options)
    abortController true.

Definition generate_request (p : t) (prompt : jsstring)
                            (model : option jsstring)
                            (options : option GenerateOptions) : Request :=
  {| req_url := baseUrl p ++ txt "/api/generate";
     req_method := txt "POST";
     req_headers := [];
     req_body := Some (generate_body p prompt model options false) |}.

(** [generate]: the value of [data.response], whatever it is. The request
    goes through [requestUrl], which rejects by itself when the status is an
    error. *)
Definition generate (p : t) (net : requestUrl_network) (prompt : jsstring)
                    (model : option jsstring)
                    (options : option GenerateOptions) : result jsval :=
  match net (generate_request p prompt model options) with
  | Throw e => Throw e
  | Ok response =>
      match JSON_parse (rr_text response) with
      | None => Throw SyntaxError
      | Some data =>
          match member (txt "response") data with
          | None => Throw TypeError
          | Some v => Ok v
          end
      end
  end.

End OllamaProvider.

(* ================================================================== *)
(** ** providers/OpenAIProvider.ts *)

Module OpenAIProvider.

Record t := {
  apiKey : jsstring;
  defaultModel : jsstring;
  baseUrl : jsstring
}.

Definition new (apiKey defaultModel baseUrl : option jsstring) : t :=
  {| apiKey := match apiKey with Some k => k | None => [] end;
     defaultModel := match defaultModel with
                     | Some m => m
                     | None => txt "gpt-3.5-turbo"
                     end;
     baseUrl := match baseUrl with
                | Some u => u
                | None => txt "https://api.openai.com/v1"
                end |}.

(** [!!this.apiKey && this.apiKey.length > 0] *)
Definition isAvailable (p : t) : result bool :=
  Ok (string_truthy (apiKey p) && Nat.ltb 0 (List.length (apiKey p))).

(** [m.id.includes('gpt')]: [includes] exists on strings and on arrays
    only; [None] when the call throws. *)
Definition id_includes_gpt (m : json) : option bool :=
  match member (txt "id") m with
  | Some (Some (JString s)) => Some (includes (txt "gpt") s)
  | Some (Some (JArray elems)) =>
      Some (existsb (fun e => is_string (txt "gpt") (Some e)) elems)
  | _ => None
  end.

(** [.filter((m: any) => m.id.includes('gpt'))] on an array. *)
Fixpoint gpt_models (models : list json) : option (list json) :=
  match models with
  | [] => Some []
  | m :: rest =>
      match id_includes_gpt m, gpt_models rest with
      | Some keep, Some ms => Some (if keep then m :: ms else ms)
      | _, _ => None
      end
  end.

(** [.map((m: any) => m.id)] on an array. *)
Fixpoint ids (models : list json) : option (list jsval) :=
  match models with
  | [] => Some []
  | m :: rest =>
      match member (txt "id") m, ids rest with
      | Some i, Some more => Some (i :: more)
      | _, _ => None
      end
  end.

(** [data.data?.filter(...)?.map(...) || [this.defaultModel]] *)
Definition model_ids (p : t) (data : json) : option (list jsval) :=
  match member (txt "data") data with
  | None => None
  | Some None | Some (Some JNull) => Some [str (defaultModel p)]
  | Some (Some (JArray models)) =>
      match gpt_models models with
      | Some kept => ids kept
      | None => None
      end
  | Some (Some _) => None
  end.

Definition models_request (p : t) : Request :=
  {| req_url := baseUrl p ++ txt "/models";
     req_method := txt "GET";
     req_headers := [(txt "Authorization", txt "Bearer " ++ apiKey p)];
     req_body := None |}.

Definition getModels (p : t) (net : network) : result (list jsval) :=
  if negb (string_truthy (apiKey p)) then Ok []
  else
    try_catch
      (match fetch net (models_request p) None with
       | Throw e => Throw e
       | Ok response =>
           if negb (resp_ok response) then Ok [str (defaultModel p)]
           else
             match resp_json response with
             | Throw e => Throw e
             | Ok data =>
                 match model_ids p data with
                 | None => Throw TypeError
                 | Some l => Ok l
                 end
             end
       end)
      (fun _ => Ok [str (defaultModel p)]).

(** The messages of [generate] and [generateStream]. *)
Definition prompt_messages (prompt : jsstring)
                           (options : option GenerateOptions)
  : list AIMessage :=
  match truthy_string (opt_systemPrompt options) with
  | Some sp => [{| role := system; content := sp; timestamp := None |};
                {| role := user; content := prompt;
                     timestamp := None |}]
  | None => [{| role := user; content := prompt;
                     timestamp := None |}]
  end.

Definition generate_body (p : t) (prompt : jsstring)
                         (model : option jsstring)
                         (options : option GenerateOptions) : json :=
  obj [(txt "model", str (or_string model (defaultModel p)));
       (txt "messages",
        Some (JArray (map message_json (prompt_messages prompt options))));
       (txt "temperature",
        num (or_number (opt_temperature options) number_0_7));
       (txt "max_tokens", option_map stringified (opt_maxTokens options))].

(** [chatMessages]: the system prompt is put in front unless a system
    message is present. *)
Definition chatMessages (messages : list AIMessage)
                        (options : option GenerateOptions)
  : list AIMessage :=
  match truthy_string (opt_systemPrompt options) with
  | Some sp =>
      if existsb is_system messages then messages
      else {| role := system; content := sp; timestamp := None |} :: messages
  | None => messages
  end.

Definition chat_body (p : t) (messages : list AIMessage)
                     (model : jsstring)
                     (options : option GenerateOptions) : json :=
  obj [(txt "model", str (or_string (Some model) (defaultModel p)));
       (txt "messages",
        Some (JArray (map message_json (chatMessages messages options))));
       (txt "temperature",
        num (or_number (opt_temperature options) number_0_7));
       (txt "max_tokens", option_map stringified (opt_maxTokens options));
       (txt "stream", Some (JBool true))].

(** [chunk.split('\n').filter(line => line.trim().startsWith('data:'))] *)
Definition lines_of_chunk (chunk : jsstring) : list jsstring :=
  filter (fun line => startsWith (txt "data:") (trim line))
         (split_lines chunk).

(** [line.replace('data: ', '').trim()] *)
Definition data_of (line : jsstring) : jsstring :=
  trim (remove_first (txt "data: ") line).

(** [json.choices?.[0]?.delta?.content || ''] *)
Definition token_of (json : json) : option jsval :=
  match member (txt "choices") json with
  | None => None
  | Some choices =>
      let v := opt_member (txt "content")
                 (opt_member (txt "delta") (opt_index0 choices)) in
      Some (if truthy v then v else str [])
  end.

Definition handle_line (line fullResponse : jsstring)
  : list event * jsstring * bool :=
  let data := data_of line in
  if str_eqb data (txt "[DONE]")
  then ([OnComplete fullResponse], fullResponse, true)
  else
    match JSON_parse data with
    | None => ([], fullResponse, false)
    | Some json =>
        match token_of json with
        | None => ([], fullResponse, false)
        | Some token =>
            match emit_token token fullResponse with
            | None => ([], fullResponse, false)
            | Some (evs, full) => (evs, full, false)
            end
        end
    end.

Definition http_error (r : Response) : jsstring :=
  txt "OpenAI API error: " ++ decimal (resp_status r).

Definition streamChat (p : t) (net : network) (messages : list AIMessage)
                      (model : jsstring)
                      (abortController : AbortController)
                      (options : option GenerateOptions) : list event :=
  stream_response lines_of_chunk handle_line http_error
    (fetch net {| req_url := baseUrl p ++ txt "/chat/completions";
                  req_method := txt "POST";
                  req_headers := bearer_headers (apiKey p);
                  req_body := Some (chat_body p messages model options) |}
           (Some abortController)).

Definition chat (p : t) (net : network) (messages : list AIMessage)
                (model : jsstring) (options : option GenerateOptions)
                (abortController : AbortController) : list event :=
  streamChat p net messages model abortController options.

Definition generateStream (p : t) (net : network) (prompt model : jsstring)
                          (options : option GenerateOptions)
                          (abortController : AbortController)
  : list event :=
  chat p net (prompt_messages prompt options) model options abortController.

Definition generate_request (p : t) (prompt : jsstring)
                            (model : option jsstring)
                            (options : option GenerateOptions) : Request :=
  {| req_url := baseUrl p ++ txt "/chat/completions";
     req_method := txt "POST";
     req_headers := bearer_headers (apiKey p);
     req_body := Some (generate_body p prompt model options) |}.

(** [data.choices?.[0]?.message?.content || ''] *)
Definition generated_text (data : json) : option jsval :=
  match member (txt "choices") data with
  | None => None
  | Some choices =>
      let v := opt_member (txt "content")
                 (opt_member (txt "message") (opt_index0 choices)) in
      Some (if truthy v then v else str [])
  end.

Definition generate (p : t) (net : network) (prompt : jsstring)
                    (model : option jsstring)
                    (options : option GenerateOptions) : result jsval :=
  match fetch net (generate_request p prompt model options) None with
  | Throw e => Throw e
  | Ok response =>
      if negb (resp_ok response) then Throw (Error (http_error response))
      else
        match resp_json response with
        | Throw e => Throw e
        | Ok data =>
            match generated_text data with
            | None => Throw TypeError
            | Some v => Ok v
            end
        end
  end.

End OpenAIProvider.

(* ================================================================== *)
(** ** providers/AnthropicProvider.ts *)

Module AnthropicProvider.

Record t := {
  apiKey : jsstring;
  defaultModel : jsstring;
  baseUrl : jsstring
}.

Definition new (apiKey defaultModel : option jsstring) : t :=
  {| apiKey := match apiKey with Some k => k | None => [] end;
     defaultModel := match defaultModel with
                     | Some m => m
                     | None => txt "claude-3-haiku-20240307"
                     end;
     baseUrl := txt "https://api.anthropic.com/v1" |}.

Definition isAvailable (p : t) : result bool :=
  Ok (string_truthy (apiKey p) && Nat.ltb 0 (List.length (apiKey p))).

Definition getModels (p : t) : result (list jsval) :=
  Ok [str (txt "claude-3-opus-20240229");
      str (txt "claude-3-sonnet-20240229");
      str (txt "claude-3-haiku-20240307");
      str (txt "claude-2.1");
      str (txt "claude-2.0");
      str (txt "claude-instant-1.2")].

Definition headers (p : t) : list (jsstring * jsstring) :=
  [(txt "Content-Type", txt "application/json");
   (txt "x-api-key", apiKey p);
   (txt "anthropic-version", txt "2023-06-01")].

Definition generate_body (p : t) (prompt : jsstring)
                         (model : option jsstring)
                         (options : option GenerateOptions) : json :=
  obj [(txt "model", str (or_string model (defaultModel p)));
       (txt "max_tokens",
        num (or_number (opt_maxTokens options) number_4096));
       (txt "system", option_map JString (opt_systemPrompt options));
       (txt "messages",
        Some (JArray [message_json {| role := user; content := prompt;
                     timestamp := None |}]))].

(** [options?.systemPrompt ||
     messages.find(m => m.role === 'system')?.content] *)
Definition systemPrompt_of (messages : list AIMessage)
                           (options : option GenerateOptions)
  : option jsstring :=
  match truthy_string (opt_systemPrompt options) with
  | Some sp => Some sp
  | None => option_map content (find is_system messages)
  end.

Definition anthropicMessages (messages : list AIMessage)
  : list AIMessage :=
  filter (fun m => negb (is_system m)) messages.

Definition chat_body (p : t) (messages : list AIMessage)
                     (model : jsstring)
                     (options : option GenerateOptions) : json :=
  obj [(txt "model", str (or_string (Some model) (defaultModel p)));
       (txt "max_tokens",
        num (or_number (opt_maxTokens options) number_4096));
       (txt "system", option_map JString (systemPrompt_of messages options));
       (txt "messages",
        Some (JArray (map message_json (anthropicMessages messages))));
       (txt "stream", Some (JBool true))].

(** [chunk.split('\n').filter(line => line.trim())] *)
Definition lines_of_chunk (chunk : jsstring) : list jsstring :=
  filter nonblank (split_lines chunk).

Definition data_of (line : jsstring) : jsstring :=
  trim (remove_first (txt "data: ") line).

Definition handle_line (line fullResponse : jsstring)
  : list event * jsstring * bool :=
  if negb (startsWith (txt "data:") line) then ([], fullResponse, false)
  else
    let data := data_of line in
    if negb (string_truthy data) || str_eqb data (txt "[DONE]")
    then ([], fullResponse, false)
    else
      match JSON_parse data with
      | None => ([], fullResponse, false)
      | Some json =>
          match member (txt "type") json with
          | None => ([], fullResponse, false)
          | Some type =>
              let text := opt_member (txt "text") (get (txt "delta") json) in
              match (if is_string (txt "content_block_delta") type
                     then emit_token text fullResponse
                     else Some ([], fullResponse)) with
              | None => ([], fullResponse, false)
              | Some (evs, full) =>
                  if is_string (txt "message_stop") type
                  then (evs ++ [OnComplete full], full, true)
                  else (evs, full, false)
              end
          end
      end.

Definition http_error (r : Response) : jsstring :=
  txt "Anthropic API error: " ++ decimal (resp_status r).

Definition streamChat (p : t) (net : network) (messages : list AIMessage)
                      (model : jsstring)
                      (abortController : AbortController)
                      (options : option GenerateOptions) : list event :=
  stream_response lines_of_chunk handle_line http_error
    (fetch net {| req_url := baseUrl p ++ txt "/messages";
                  req_method := txt "POST";
                  req_headers := headers p;
                  req_body := Some (chat_body p messages model options) |}
           (Some abortController)).

Definition chat (p : t) (net : network) (messages : list AIMessage)
                (model : jsstring) (options : option GenerateOptions)
                (abortController : AbortController) : list event :=
  streamChat p net messages model abortController options.

Definition generateStream (p : t) (net : network) (prompt model : jsstring)
                          (options : option GenerateOptions)
                          (abortController : AbortController)
  : list event :=
  chat p net [{| role := user; content := prompt;
                     timestamp := None |}] model options
       abortController.

Definition generate_request (p : t) (prompt : jsstring)
                            (model : option jsstring)
                            (options : option GenerateOptions) : Request :=
  {| req_url := baseUrl p ++ txt "/messages";
     req_method := txt "POST";
     req_headers := headers p;
     req_body := Some (generate_body p prompt model options) |}.

(** [data.content?.[0]?.text || ''] *)
Definition generated_text (data : json) : option jsval :=
  match member (txt "content") data with
  | None => None
  | Some blocks =>
      let v := opt_member (txt "text") (opt_index0 blocks) in
      Some (if truthy v then v else str [])
  end.

Definition generate (p : t) (net : network) (prompt : jsstring)
                    (model : option jsstring)
                    (options : option GenerateOptions) : result jsval :=
  match fetch net (generate_request p prompt model options) None with
  | Throw e => Throw e
  | Ok response =>
      if negb (resp_ok response) then Throw (Error (http_error response))
      else
        match resp_json response with
        | Throw e => Throw e
        | Ok data =>
            match generated_text data with
            | None => Throw TypeError
            | Some v => Ok v
            end
        end
  end.

End AnthropicProvider.

(* ================================================================== *)
(** ** providers/GroqProvider.ts *)

Module GroqProvider.

Record t := {
  apiKey : jsstring;
  defaultModel : jsstring;
  baseUrl : jsstring
}.

Definition new (apiKey defaultModel : option jsstring) : t :=
  {| apiKey := match apiKey with Some k => k | None => [] end;
     defaultModel := match defaultModel with
                     | Some m => m
                     | None => txt "llama2-70b-4096"
                     end;
     baseUrl := txt "https://api.groq.com/openai/v1" |}.

Definition isAvailable (p : t) : result bool :=
  Ok (string_truthy (apiKey p) && Nat.ltb 0 (List.length (apiKey p))).

(** [data.data?.map((m: any) => m.id) || [this.defaultModel]] *)
Definition model_ids (p : t) (data : json) : option (list jsval) :=
  match member (txt "data") data with
  | None => None
  | Some None | Some (Some JNull) => Some [str (defaultModel p)]
  | Some (Some (JArray models)) => OpenAIProvider.ids models
  | Some (Some _) => None
  end.

Definition models_request (p : t) : Request :=
  {| req_url := baseUrl p ++ txt "/models";
     req_method := txt "GET";
     req_headers := [(txt "Authorization", txt "Bearer " ++ apiKey p)];
     req_body := None |}.

Definition getModels (p : t) (net : network) : result (list jsval) :=
  if negb (string_truthy (apiKey p)) then Ok []
  else
    try_catch
      (match fetch net (models_request p) None with
       | Throw e => Throw e
       | Ok response =>
           if negb (resp_ok response) then Ok [str (defaultModel p)]
           else
             match resp_json response with
             | Throw e => Throw e
             | Ok data =>
                 match model_ids p data with
                 | None => Throw TypeError
                 | Some l => Ok l
                 end
             end
       end)
      (fun _ => Ok [str (txt "llama2-70b-4096");
                    str (txt "mixtral-8x7b-32768");
                    str (txt "gemma-7b-it")]).

Definition generate_body (p : t) (prompt : jsstring)
                         (model : option jsstring)
                         (options : option GenerateOptions) : json :=
  obj [(txt "model", str (or_string model (defaultModel p)));
       (txt "messages",
        Some (JArray (map message_json
                          (OpenAIProvider.prompt_messages prompt options))));
       (txt "temperature",
        num (or_number (opt_temperature options) number_0_7));
       (txt "max_tokens",
        num (or_number (opt_maxTokens options) number_4096))].

Definition chat_body (p : t) (messages : list AIMessage)
                     (model : jsstring)
                     (options : option GenerateOptions) : json :=
  obj [(txt "model", str (or_string (Some model) (defaultModel p)));
       (txt "messages",
        Some (JArray (map message_json
                          (OpenAIProvider.chatMessages messages options))));
       (txt "temperature",
        num (or_number (opt_temperature options) number_0_7));
       (txt "max_tokens",
        num (or_number (opt_maxTokens options) number_4096));
       (txt "stream", Some (JBool true))].

(** The read loop is the one of the OpenAI adapter, line for line. *)
Definition lines_of_chunk := OpenAIProvider.lines_of_chunk.
Definition handle_line := OpenAIProvider.handle_line.

Definition http_error (r : Response) : jsstring :=
  txt "Groq API error: " ++ decimal (resp_status r).

Definition streamChat (p : t) (net : network) (messages : list AIMessage)
                      (model : jsstring)
                      (abortController : AbortController)
                      (options : option GenerateOptions) : list event :=
  stream_response lines_of_chunk handle_line http_error
    (fetch net {| req_url := baseUrl p ++ txt "/chat/completions";
                  req_method := txt "POST";
                  req_headers := bearer_headers (apiKey p);
                  req_body := Some (chat_body p messages model options) |}
           (Some abortController)).

Definition chat (p : t) (net : network) (messages : list AIMessage)
                (model : jsstring) (options : option GenerateOptions)
                (abortController : AbortController) : list event :=
  streamChat p net messages model abortController options.

Definition generateStream (p : t) (net : network) (prompt model : jsstring)
                          (options : option GenerateOptions)
                          (abortController : AbortController)
  : list event :=
  chat p net (OpenAIProvider.prompt_messages prompt options) model options
       abortController.

Definition generate_request (p : t) (prompt : jsstring)
                            (model : option jsstring)
                            (options : option GenerateOptions) : Request :=
  {| req_url := baseUrl p ++ txt "/chat/completions";
     req_method := txt "POST";
     req_headers := bearer_headers (apiKey p);
     req_body := Some (generate_body p prompt model options) |}.

Definition generate (p : t) (net : network) (prompt : jsstring)
                    (model : option jsstring)
                    (options : option GenerateOptions) : result jsval :=
  match fetch net (generate_request p prompt model options) None with
  | Throw e => Throw e
  | Ok response =>
      if negb (resp_ok response) then Throw (Error (http_error response))
      else
        match resp_json response with
        | Throw e => Throw e
        | Ok data =>
            match OpenAIProvider.generated_text data with
            | None => Throw TypeError
            | Some v => Ok v
            end
        end
  end.

End GroqProvider.

(* ================================================================== *)
(** ** providers/GeminiProvider.ts *)

Module GeminiProvider.

Record t := { apiKey : jsstring }.

Definition new : t := {| apiKey := [] |}.

Definition setApiKey (p : t) (key : jsstring) : t := {| apiKey := key |}.

(** [!!this.apiKey] *)
Definition isAvailable (p : t) : result bool :=
  Ok (string_truthy (apiKey p)).

Definition getModels (p : t) : result (list jsval) :=
  Ok [str (txt "gemini-pro");
      str (txt "gemini-1.5-pro");
      str (txt "gemini-1.5-flash")].

Definition safetySettings : jsval :=
  let setting category :=
    obj [(txt "category", str category);
         (txt "threshold", str (txt "BLOCK_NONE"))] in
  Some (JArray [setting (txt "HARM_CATEGORY_HARASSMENT");
                setting (txt "HARM_CATEGORY_HATE_SPEECH");
                setting (txt "HARM_CATEGORY_SEXUALLY_EXPLICIT");
                setting (txt "HARM_CATEGORY_DANGEROUS_CONTENT")]).

Definition generationConfig (options : option GenerateOptions) : jsval :=
  Some (obj [(txt "temperature",
              num (nullish_number (opt_temperature options) number_0_7));
             (txt "maxOutputTokens",
              num (nullish_number (opt_maxTokens options) number_2048))]).

Definition parts (text : jsstring) : jsval :=
  Some (JArray [obj [(txt "text", str text)]]).

(** The request body of [generate] and of [generateStream]. *)
Definition generate_body (prompt : jsstring)
                         (options : option GenerateOptions) : json :=
  obj [(txt "contents", Some (JArray [obj [(txt "parts", parts prompt)]]));
       (txt "generationConfig", generationConfig options);
       (txt "safetySettings", safetySettings)].

Definition contents (messages : list AIMessage) : list json :=
  map (fun msg =>
         obj [(txt "role",
               str (match role msg with
                    | assistant => txt "model"
                    | _ => txt "user"
                    end));
              (txt "parts", parts (content msg))])
      messages.

Definition chat_body (messages : list AIMessage)
                     (options : option GenerateOptions) : json :=
  obj [(txt "contents", Some (JArray (contents messages)));
       (txt "generationConfig", generationConfig options);
       (txt "safetySettings", safetySettings)].

Definition stream_request (p : t) (model : jsstring) (body : json)
  : Request :=
  {| req_url :=
       txt "https://generativelanguage.googleapis.com/v1beta/models/"
       ++ model ++ txt ":streamGenerateContent?alt=sse&key=" ++ apiKey p;
     req_method := txt "POST";
     req_headers := json_headers;
     req_body := Some body |}.

(** [json.candidates?.[0]?.content?.parts?.[0]?.text || ""] *)
Definition text_of (json : json) : option jsval :=
  match member (txt "candidates") json with
  | None => None
  | Some candidates =>
      let v :=
        opt_member (txt "text")
          (opt_index0
             (opt_member (txt "parts")
                (opt_member (txt "content") (opt_index0 candidates)))) in
      Some (if truthy v then v else str [])
  end.

(** The body of the [for] loop over the complete lines. *)
Definition handle_line (raw : jsstring) : list event :=
  let line := trim raw in
  if startsWith (txt "data: ") line then
    match JSON_parse (slice 6 line) with
    | None => []
    | Some json =>
        match text_of json with
        | Some (Some text) =>
            if truthy (Some text) then [OnToken text] else []
        | _ => []
        end
    end
  else [].

(** [for (let i = 0; i < lines.length - 1; i++)] *)
Definition for_lines (lines : list jsstring) : list event :=
  flat_map handle_line (removelast lines).

(** The [while] loop with its carry-over [buffer], up to the callback
    that ends the call; [failed] is the prefix of the error message. *)
Fixpoint read_loop (failed : jsstring) (r : reader) (buffer : jsstring)
  : list event :=
  match r with
  | EndOfBody => [OnComplete []]
  | ReadFails e => [OnError (Error (failed ++ error_message e))]
  | Chunk text rest =>
      let lines := split_lines (buffer ++ text) in
      for_lines lines ++ read_loop failed rest (last lines [])
  end.

(** The asynchronous body shared by [generateStream] and [chat]. The
    [fetch] is issued without the signal of the handle. *)
Definition stream (p : t) (net : network) (model : jsstring) (body : json)
                  (failed : jsstring) : list event :=
  if negb (string_truthy (apiKey p))
  then [OnError (Error (txt "Gemini API key not configured"))]
  else
    match fetch net (stream_request p model body) None with
    | Throw e => [OnError (Error (failed ++ error_message e))]
    | Ok response =>
        if negb (resp_ok response)
        then [OnError (Error (txt "Gemini API error: "
                              ++ resp_statusText response))]
        else
          match resp_body response with
          | None => [OnError (Error (txt "No response body"))]
          | Some body => read_loop failed body []
          end
    end.

Definition generateStream (p : t) (net : network) (prompt model : jsstring)
                          (options : option GenerateOptions)
                          (abortController : AbortController)
  : list event :=
  stream p net model (generate_body prompt options)
         (txt "Gemini stream failed: ").

Definition chat (p : t) (net : network) (messages : list AIMessage)
                (model : jsstring) (options : option GenerateOptions)
                (abortController : AbortController) : list event :=
  stream p net model (chat_body messages options)
         (txt "Gemini chat failed: ").

Definition generate_request (p : t) (prompt model : jsstring)
                            (options : option GenerateOptions) : Request :=
  {| req_url :=
       txt "https://generativelanguage.googleapis.com/v1beta/models/"
       ++ model ++ txt ":generateContent?key=" ++ apiKey p;
     req_method := txt "POST";
     req_headers := json_headers;
     req_body := Some (generate_body prompt options) |}.

(** [data.candidates?.[0]?.content?.parts?.[0]?.text || "No response"] *)
Definition generated_text (data : json) : option jsval :=
  match member (txt "candidates") data with
  | None => None
  | Some candidates =>
      let v :=
        opt_member (txt "text")
          (opt_index0
             (opt_member (txt "parts")
                (opt_member (txt "content") (opt_index0 candidates)))) in
      Some (if truthy v then v else str (txt "No response"))
  end.

(** [generate]: the key is checked before the [try]; every error thrown
    inside it is replaced by one whose message is prefixed. *)
Definition generate (p : t) (net : network) (prompt model : jsstring)
                    (options : option GenerateOptions) : result jsval :=
  if negb (string_truthy (apiKey p))
  then Throw (Error (txt "Gemini API key not configured"))
  else
    try_catch
      (match fetch net (generate_request p prompt model options) None with
       | Throw e => Throw e
       | Ok response =>
           if negb (resp_ok response)
           then Throw (Error (txt "Gemini API error: "
                              ++ resp_statusText response))
           else
             match resp_json response with
             | Throw e => Throw e
             | Ok data =>
                 match generated_text data with
                 | None => Throw TypeError
                 | Some v => Ok v
                 end
             end
       end)
      (fun error =>
         Throw (Error (txt "Gemini generation failed: "
                       ++ error_message error))).

End GeminiProvider.

(* ================================================================== *)
(** ** providers/ProviderManager.ts *)

Module ProviderManager.

Record OllamaConfig := {
  ollama_enabled : bool;
  ollama_url : jsstring;
  ollama_defaultModel : jsstring
}.

Record OpenAIConfig := {
  openai_enabled : bool;
  openai_apiKey : jsstring;
  openai_defaultModel : jsstring;
  openai_baseUrl : option jsstring
}.

(** The configuration of [anthropic], of [groq] and of [gemini]. *)
Record KeyConfig := {
  enabled : bool;
  apiKey : jsstring;
  defaultModel : jsstring
}.

Record ProviderConfig := {
  ollama : OllamaConfig;
  openai : OpenAIConfig;
  anthropic : KeyConfig;
  groq : KeyConfig;
  gemini : KeyConfig
}.

Definition DEFAULT_PROVIDER_CONFIG : ProviderConfig :=
  {| ollama := {| ollama_enabled := true;
                  ollama_url := txt "http://localhost:11434";
                  ollama_defaultModel := txt "llama2" |};
     openai := {| openai_enabled := false;
                  openai_apiKey := [];
                  openai_defaultModel := txt "gpt-3.5-turbo";
                  openai_baseUrl := None |};
     anthropic := {| enabled := false;
                     apiKey := [];
                     defaultModel := txt "claude-3-haiku-20240307" |};
     groq := {| enabled := false;
                apiKey := [];
                defaultModel := txt "llama2-70b-4096" |};
     gemini := {| enabled := false;
                  apiKey := [];
                  defaultModel := txt "gemini-1.5-pro" |} |}.

(** An object implementing the [AIProvider] interface. *)
Inductive AIProvider :=
| Ollama (p : OllamaProvider.t)
| OpenAI (p : OpenAIProvider.t)
| Anthropic (p : AnthropicProvider.t)
| Groq (p : GroqProvider.t)
| Gemini (p : GeminiProvider.t).

Definition id (p : AIProvider) : jsstring :=
  match p with
  | Ollama _ => txt "ollama"
  | OpenAI _ => txt "openai"
  | Anthropic _ => txt "anthropic"
  | Groq _ => txt "groq"
  | Gemini _ => txt "gemini"
  end.

(** A [Map<string, AIProvider>]: the entries in insertion order, which
    [keys()] and [values()] follow; a key occurs once. *)
Definition provider_map := list (jsstring * AIProvider).

Fixpoint map_set (key : jsstring) (value : AIProvider) (m : provider_map)
  : provider_map :=
  match m with
  | [] => [(key, value)]
  | (k, v) :: rest =>
      if str_eqb k key then (k, value) :: rest
      else (k, v) :: map_set key value rest
  end.

Fixpoint map_get (key : jsstring) (m : provider_map) : option AIProvider :=
  match m with
  | [] => None
  | (k, v) :: rest => if str_eqb k key then Some v else map_get key rest
  end.

Definition map_has (key : jsstring) (m : provider_map) : bool :=
  match map_get key m with Some _ => true | None => false end.

Record t := {
  providers : provider_map;
  config : ProviderConfig;
  activeProviderId : jsstring
}.

Definition set_provider (key : jsstring) (value : AIProvider) (m : t) : t :=
  {| providers := map_set key value (providers m);
     config := config m;
     activeProviderId := activeProviderId m |}.

Definition initializeProviders (m : t) : t :=
  let c := config m in
  let m0 :=
    set_provider (txt "ollama")
      (Ollama (OllamaProvider.new (Some (ollama_url (ollama c)))
                                  (Some (ollama_defaultModel (ollama c)))))
      m in
  let m1 :=
    if string_truthy (openai_apiKey (openai c))
    then set_provider (txt "openai")
           (OpenAI (OpenAIProvider.new
                      (Some (openai_apiKey (openai c)))
                      (Some (openai_defaultModel (openai c)))
                      (openai_baseUrl (openai c))))
           m0
    else m0 in
  let m2 :=
    if string_truthy (apiKey (anthropic c))
    then set_provider (txt "anthropic")
           (Anthropic (AnthropicProvider.new
                         (Some (apiKey (anthropic c)))
                         (Some (defaultModel (anthropic c)))))
           m1
    else m1 in
  let m3 :=
    if string_truthy (apiKey (groq c))
    then set_provider (txt "groq")
           (Groq (GroqProvider.new (Some (apiKey (groq c)))
                                   (Some (defaultModel (groq c)))))
           m2
    else m2 in
  if string_truthy (apiKey (gemini c))
  then set_provider (txt "gemini")
         (Gemini (GeminiProvider.setApiKey GeminiProvider.new
                                           (apiKey (gemini c))))
         m3
  else m3.

(** [new ProviderManager(config)] *)
Definition new (config : option ProviderConfig) : t :=
  initializeProviders
    {| providers := [];
       config := match config with
                 | Some c => c
                 | None => DEFAULT_PROVIDER_CONFIG
                 end;
       activeProviderId := txt "ollama" |}.

Definition updateConfig (m : t) (config : ProviderConfig) : t :=
  initializeProviders
    {| providers := [];
       config := config;
       activeProviderId := activeProviderId m |}.

Definition getProvider (m : t) (id : jsstring) : option AIProvider :=
  map_get id (providers m).

Definition getActiveProvider (m : t) : option AIProvider :=
  match map_get (activeProviderId m) (providers m) with
  | Some p => Some p
  | None => map_get (txt "ollama") (providers m)
  end.

Definition setActiveProvider (m : t) (id : jsstring) : t :=
  if map_has id (providers m)
  then {| providers := providers m;
          config := config m;
          activeProviderId := id |}
  else m.

Definition getActiveProviderId (m : t) : jsstring := activeProviderId m.

Definition getAllProviders (m : t) : list AIProvider :=
  map snd (providers m).

Definition getAvailableProviderIds (m : t) : list jsstring :=
  map fst (providers m).

Record ProviderInfo := {
  info_id : jsstring;
  info_name : jsstring;
  info_available : bool
}.

Definition getProviderInfo (m : t) : list ProviderInfo :=
  let c := config m in
  [ {| info_id := txt "ollama";
       info_name := [55358; 56729]%N ++ txt " Ollama (Local)";
       info_available := ollama_enabled (ollama c) |};
    {| info_id := txt "openai";
       info_name := [55358; 56598]%N ++ txt " OpenAI (GPT)";
       info_available := openai_enabled (openai c)
                         && string_truthy (openai_apiKey (openai c)) |};
    {| info_id := txt "anthropic";
       info_name := [55358; 56800]%N ++ txt " Anthropic (Claude)";
       info_available := enabled (anthropic c)
                         && string_truthy (apiKey (anthropic c)) |};
    {| info_id := txt "groq";
       info_name := [9889]%N ++ txt " Groq (Fast)";
       info_available := enabled (groq c)
                         && string_truthy (apiKey (groq c)) |} ].

End ProviderManager.

(* ================================================================== *)
(** ** The adapters behind the [AIProvider] interface *)

Import ProviderManager.

(** The backend as the adapters reach it: through [fetch] and through
    Obsidian's [requestUrl]. *)
Record Host := { net : network; url_net : requestUrl_network }.

Definition isAvailable (p : AIProvider) (h : Host) : result bool :=
  match p with
  | Ollama o => OllamaProvider.isAvailable o (url_net h)
  | OpenAI o => OpenAIProvider.isAvailable o
  | Anthropic a => AnthropicProvider.isAvailable a
  | Groq g => GroqProvider.isAvailable g
  | Gemini g => GeminiProvider.isAvailable g
  end.

Definition getModels (p : AIProvider) (h : Host) : result (list jsval) :=
  match p with
  | Ollama o => OllamaProvider.getModels o (url_net h)
  | OpenAI o => OpenAIProvider.getModels o (net h)
  | Anthropic a => AnthropicProvider.getModels a
  | Groq g => GroqProvider.getModels g (net h)
  | Gemini g => GeminiProvider.getModels g
  end.

Definition chat (p : AIProvider) (h : Host) (messages : list AIMessage)
                (model : jsstring) (options : option GenerateOptions)
                (abortController : AbortController) : list event :=
  match p with
  | Ollama o =>
      OllamaProvider.chat o (net h) messages model options abortController
  | OpenAI o =>
      OpenAIProvider.chat o (net h) messages model options abortController
  | Anthropic a =>
      AnthropicProvider.chat a (net h) messages model options abortController
  | Groq g =>
      GroqProvider.chat g (net h) messages model options abortController
  | Gemini g =>
      GeminiProvider.chat g (net h) messages model options abortController
  end.

Definition generateStream (p : AIProvider) (h : Host)
                          (prompt model : jsstring)
                          (options : option GenerateOptions)
                          (abortController : AbortController) : list event :=
  match p with
  | Ollama o =>
      OllamaProvider.generateStream o (net h) prompt model options
                                    abortController
  | OpenAI o =>
      OpenAIProvider.generateStream o (net h) prompt model options
                                    abortController
  | Anthropic a =>
      AnthropicProvider.generateStream a (net h) prompt model options
                                       abortController
  | Groq g =>
      GroqProvider.generateStream g (net h) prompt model options
                                  abortController
  | Gemini g =>
      GeminiProvider.generateStream g (net h) prompt model options
                                    abortController
  end.

(** The request body of [generate], of [generateStream] and of [chat]. *)
Definition generate_body (p : AIProvider) (prompt : jsstring)
                         (model : option jsstring)
                         (options : option GenerateOptions) : json :=
  match p with
  | Ollama o => OllamaProvider.generate_body o prompt model options false
  | OpenAI o => OpenAIProvider.generate_body o prompt model options
  | Anthropic a => AnthropicProvider.generate_body a prompt model options
  | Groq g => GroqProvider.generate_body g prompt model options
  | Gemini _ => GeminiProvider.generate_body prompt options
  end.

Definition chat_body (p : AIProvider) (messages : list AIMessage)
                     (model : jsstring) (options : option GenerateOptions)
  : json :=
  match p with
  | Ollama o => OllamaProvider.chat_body o messages model options
  | OpenAI o => OpenAIProvider.chat_body o messages model options
  | Anthropic a => AnthropicProvider.chat_body a messages model options
  | Groq g => GroqProvider.chat_body g messages model options
  | Gemini _ => GeminiProvider.chat_body messages options
  end.

(** The temperature a request body carries, where the wire format of the
    adapter puts it; [undefined] when the body has none. *)
Definition sent_temperature (p : AIProvider) (body : json) : jsval :=
  match p with
  | Ollama _ => opt_member (txt "temperature") (get (txt "options") body)
  | OpenAI _ | Groq _ | Anthropic _ => get (txt "temperature") body
  | Gemini _ =>
      opt_member (txt "temperature") (get (txt "generationConfig") body)
  end.

(* ------------------------------------------------------------------ *)
(** ** Reading a trace of callbacks *)

Definition is_terminal (e : event) : bool :=
  match e with
  | OnToken _ => false
  | OnComplete _ | OnError _ => true
  end.

(** The number of [onComplete] and [onError] calls of a trace. *)
Definition terminal_count (trace : list event) : nat :=
  List.length (filter is_terminal trace).

(** What [text += token] adds for a token; nothing when the statement
    throws. *)
Definition appended (t : json) : jsstring :=
  match to_string t with
  | Some s => s
  | None => []
  end.

(** The arguments of the [onToken] calls, concatenated in delivery order. *)
Fixpoint token_text (trace : list event) : jsstring :=
  match trace with
  | [] => []
  | OnToken t :: rest => appended t ++ token_text rest
  | _ :: rest => token_text rest
  end.

(** A streaming call of the interface: [chat] or [generateStream]. *)
Inductive call :=
| Chat (messages : list AIMessage)
| GenerateStream (prompt : jsstring).

Definition stream_call (p : AIProvider) (h : Host) (c : call)
                       (model : jsstring) (options : option GenerateOptions)
                       (abortController : AbortController) : list event :=
  match c with
  | Chat messages => chat p h messages model options abortController
  | GenerateStream prompt =>
      generateStream p h prompt model options abortController
  end.

(** The chunks [cs], then what [r] delivers. *)
Fixpoint prepend (cs : list jsstring) (r : reader) : reader :=
  match cs with
  | [] => r
  | c :: cs' => Chunk c (prepend cs' r)
  end.

(** A host whose [fetch] resolves to the response [r] with the body
    [body]. *)
Definition responding (r : Response) (body : reader) (h : Host) : Host :=
  {| net := fun _ =>
              Ok {| resp_ok := resp_ok r;
                    resp_status := resp_status r;
                    resp_statusText := resp_statusText r;
                    resp_body := Some body;
                    resp_json := resp_json r |};
     url_net := url_net h |}.

(** No callback of the trace ends the call. *)
Definition only_tokens (trace : list event) : Prop :=
  Forall (fun e => is_terminal e = false) trace.

(** A trace of the shape [toks ++ [last]]: token callbacks, then one
    callback that ends the call, either [onComplete] with the text
    accumulated from [full] on, or [onError]. *)
Inductive ended (full : jsstring) : list event -> Prop :=
| ended_complete toks :
    only_tokens toks ->
    ended full (toks ++ [OnComplete (full ++ token_text toks)])
| ended_error toks err :
    only_tokens toks -> ended full (toks ++ [OnError err]).

(** What the body of a [for] loop over lines may do: call [onToken] and
    append what it passed to the accumulated text and, when it returns from
    the function, call [onComplete] with the accumulated text. *)
Definition accumulates
  (f : jsstring -> list event * jsstring * bool) : Prop :=
  forall full,
    match f full with
    | (evs, full', false) =>
        only_tokens evs /\ full' = full ++ token_text evs
    | (evs, full', true) => ended full evs /\ exists toks,
        evs = toks ++ [OnComplete full']
    end.

(* ------------------------------------------------------------------ *)
(** ** Situations the properties speak of *)

(** The adapter has no credential: an empty API key for the hosted
    vendors, an endpoint that cannot be reached for the local one. *)
Definition no_credential (p : AIProvider) (h : Host) : Prop :=
  match p with
  | Ollama o => exists e, url_net h (OllamaProvider.tags_request o) = Throw e
  | OpenAI o => OpenAIProvider.apiKey o = []
  | Anthropic a => AnthropicProvider.apiKey a = []
  | Groq g => GroqProvider.apiKey g = []
  | Gemini g => GeminiProvider.apiKey g = []
  end.

(** The request of [getModels] fails: it is rejected, or its response is not
    ok, or the body of the response is not JSON. *)
Definition fetch_fails (net : network) (req : Request) : Prop :=
  (exists e, net req = Throw e)
  \/ (exists r, net req = Ok r
                /\ (resp_ok r = false \/ exists e, resp_json r = Throw e)).

(** [getModels] has a list to fall back on: the adapter lists its models
    without a request (Anthropic, Gemini), or its request fails (Ollama; OpenAI
    and Groq, which send one only with a non-empty API key). *)
Definition falls_back (p : AIProvider) (h : Host) : Prop :=
  match p with
  | Ollama o =>
      (exists e, url_net h (OllamaProvider.tags_request o) = Throw e)
      \/ (exists r, url_net h (OllamaProvider.tags_request o) = Ok r
                    /\ JSON_parse (rr_text r) = None)
  | OpenAI o =>
      OpenAIProvider.apiKey o <> []
      /\ fetch_fails (net h) (OpenAIProvider.models_request o)
  | Groq g =>
      GroqProvider.apiKey g <> []
      /\ fetch_fails (net h) (GroqProvider.models_request g)
  | Anthropic _ | Gemini _ => True
  end.

(** An OpenAI or Groq adapter whose API key is the empty string. *)
Definition keyless (p : AIProvider) : Prop :=
  match p with
  | OpenAI o => OpenAIProvider.apiKey o = []
  | Groq g => GroqProvider.apiKey g = []
  | _ => False
  end.

(** The text an adapter hands to [JSON.parse] for a line of the response. *)
Definition payload (p : AIProvider) (line : jsstring) : jsstring :=
  match p with
  | Ollama _ => line
  | OpenAI _ | Groq _ => OpenAIProvider.data_of line
  | Anthropic _ => AnthropicProvider.data_of line
  | Gemini _ => slice 6 (trim line)
  end.

(** The line is the end-of-stream sentinel [data: [DONE]] of the
    OpenAI-compatible adapters, which is compared and never parsed. *)
Definition is_sentinel (p : AIProvider) (line : jsstring) : bool :=
  match p with
  | OpenAI _ | Groq _ => str_eqb (OpenAIProvider.data_of line) (txt "[DONE]")
  | _ => false
  end.

(** A text after which a new line starts: empty, or ending in a line feed. *)
Definition line_start (s : jsstring) : Prop :=
  s = [] \/ exists s0, s = s0 ++ nl.

(** The registry holds what the configuration asks for. *)
Definition registry_matches (m : ProviderManager.t) (c : ProviderConfig)
  : Prop :=
  map_has (txt "ollama") (providers m) = true
  /\ (map_has (txt "openai") (providers m) = true
      <-> openai_apiKey (openai c) <> [])
  /\ (map_has (txt "anthropic") (providers m) = true
      <-> apiKey (anthropic c) <> [])
  /\ (map_has (txt "groq") (providers m) = true <-> apiKey (groq c) <> [])
  /\ (map_has (txt "gemini") (providers m) = true
      <-> apiKey (gemini c) <> []).

(** The adapters that accumulate the response text in [fullResponse]. *)
Definition accumulating (p : AIProvider) : bool :=
  match p with
  | Gemini _ => false
  | _ => true
  end.




(* ------------------------------------------------------------------ *)
(** ** Concrete hosts and inputs of the scenarios *)

Definition ok_response (body : reader) : Response :=
  {| resp_ok := true;
     resp_status := 200;
     resp_statusText := txt "OK";
     resp_body := Some body;
     resp_json := Throw SyntaxError |}.

(** A backend that answers every [fetch] with status 200 and a body made of
    the given chunks, and that [requestUrl] does not reach. *)
Definition serving (chunks : list jsstring) : Host :=
  {| net := fun _ => Ok (ok_response (prepend chunks EndOfBody));
     url_net := fun _ => Throw (Error (txt "net::ERR_CONNECTION_REFUSED")) |}.

(** No backend: every request is rejected. *)
Definition offline : Host :=
  {| net := fun _ => Throw TypeError;
     url_net := fun _ => Throw (Error (txt "net::ERR_CONNECTION_REFUSED")) |}.

Definition never_aborted : AbortController := {| aborted_at := None |}.

Definition aborted_in_await (k : nat) : AbortController :=
  {| aborted_at := Some k |}.

Definition local_ollama : AIProvider :=
  Ollama (OllamaProvider.new None None).

Definition keyed_openai : AIProvider :=
  OpenAI (OpenAIProvider.new (Some (txt "sk-test")) None None).

Definition keyless_openai : AIProvider :=
  OpenAI (OpenAIProvider.new None None None).

Definition keyed_anthropic : AIProvider :=
  Anthropic (AnthropicProvider.new (Some (txt "sk-ant")) None).

Definition keyed_groq : AIProvider :=
  Groq (GroqProvider.new (Some (txt "gsk")) None).

Definition keyed_gemini : AIProvider :=
  Gemini (GeminiProvider.setApiKey GeminiProvider.new (txt "AIza")).

Definition temperature_of (x : number) : option GenerateOptions :=
  Some {| temperature := Some x; maxTokens := None; systemPrompt := None |}.

Definition zero : number := S754_zero false.
Definition one_half : number := number_of_decimal false 5 (-1).

(** One Gemini record carrying the text [Hi]. *)
Definition gemini_hi : jsstring :=
  txt "data: {'candidates':[{'content':{'parts':[{'text':'Hi'}]}}]}"
  ++ nl ++ nl.

(** One Ollama chat record carrying the text [Hello], and one OpenAI record
    carrying the same. *)
Definition ollama_hello : jsstring :=
  txt "{'message':{'content':'Hello'}}" ++ nl.

Definition openai_hello : jsstring :=
  txt "data: {'choices':[{'delta':{'content':'Hello'}}]}" ++ nl ++ nl.

(* ------------------------------------------------------------------ *)
(** ** Further situations of a streaming call *)

(** The callback, if it is [onToken], passes a truthy value. *)
Definition token_is_truthy (e : event) : Prop :=
  match e with
  | OnToken t => truthy (Some t) = true
  | _ => True
  end.

(** [streamRequest] is called with [isChat] by [chat] only. *)
Definition is_chat (c : call) : bool :=
  match c with
  | Chat _ => true
  | GenerateStream _ => false
  end.

(** The line is a record that ends the stream: for the Ollama adapter a
    JSON value with a truthy [done] whose token, if it has one, can be
    appended to the text (the [done] test is not reached otherwise), for the
    OpenAI and Groq adapters the [data: [DONE]] sentinel, for the Anthropic
    adapter a [data:] line whose JSON has the type [message_stop]. The Gemini
    adapter knows no such record. *)
Definition ends_stream (p : AIProvider) (c : call) (line : jsstring) : Prop :=
  match p with
  | Ollama _ =>
      nonblank line = true
      /\ exists json token,
           JSON_parse line = Some json
           /\ OllamaProvider.token_of (is_chat c) json = Some token
           /\ emit_token token [] <> None
           /\ truthy (get (txt "done") json) = true
  | OpenAI _ | Groq _ =>
      startsWith (txt "data:") (trim line) = true
      /\ str_eqb (OpenAIProvider.data_of line) (txt "[DONE]") = true
  | Anthropic _ =>
      nonblank line = true
      /\ startsWith (txt "data:") line = true
      /\ exists json type,
           JSON_parse (AnthropicProvider.data_of line) = Some json
           /\ member (txt "type") json = Some type
           /\ is_string (txt "message_stop") type = true
  | Gemini _ => False
  end.

(** The adapter is in a state to send its request: the Gemini adapter
    checks its API key first, the others send it whatever their key. *)
Definition sends_request (p : AIProvider) : Prop :=
  match p with
  | Gemini g => GeminiProvider.apiKey g <> []
  | _ => True
  end.

(** The message of the error made for a response that is not ok. *)
Definition http_failure_message (p : AIProvider) (r : Response) : jsstring :=
  match p with
  | Ollama _ => OllamaProvider.http_error r
  | OpenAI _ => OpenAIProvider.http_error r
  | Anthropic _ => AnthropicProvider.http_error r
  | Groq _ => GroqProvider.http_error r
  | Gemini _ => txt "Gemini API error: " ++ resp_statusText r
  end.

(** A host whose every [fetch] is rejected with the error [e]. *)
Definition rejecting (e : js_error) (h : Host) : Host :=
  {| net := fun _ => Throw e; url_net := url_net h |}.

(** The callback that answers a rejected [fetch]. *)
Definition rejection_callback (p : AIProvider) (c : call) (e : js_error)
  : event :=
  match p with
  | Gemini _ =>
      OnError (Error ((if is_chat c then txt "Gemini chat failed: "
                       else txt "Gemini stream failed: ")
                      ++ error_message e))
  | _ =>
      if str_eqb (error_name e) (txt "AbortError") then OnComplete []
      else OnError e
  end.

(* ------------------------------------------------------------------ *)
(** ** [generate] behind the interface *)

Definition generate (p : AIProvider) (h : Host) (prompt model : jsstring)
                    (options : option GenerateOptions) : result jsval :=
  match p with
  | Ollama o =>
      OllamaProvider.generate o (url_net h) prompt (Some model) options
  | OpenAI o => OpenAIProvider.generate o (net h) prompt (Some model) options
  | Anthropic a =>
      AnthropicProvider.generate a (net h) prompt (Some model) options
  | Groq g => GroqProvider.generate g (net h) prompt (Some model) options
  | Gemini g => GeminiProvider.generate g (net h) prompt model options
  end.

(** The adapters of the hosted vendors, which use [fetch]. *)
Definition hosted (p : AIProvider) : Prop :=
  match p with
  | Ollama _ => False
  | _ => True
  end.

(** The message of the error [generate] throws for a response that is not
    ok. *)
Definition generate_failure_message (p : AIProvider) (r : Response)
  : jsstring :=
  match p with
  | Gemini _ =>
      txt "Gemini generation failed: "
      ++ txt "Gemini API error: " ++ resp_statusText r
  | _ => http_failure_message p r
  end.

(** The error [generate] throws when its [fetch] is rejected with [e]. *)
Definition generate_rejection (p : AIProvider) (e : js_error) : js_error :=
  match p with
  | Gemini _ => Error (txt "Gemini generation failed: " ++ error_message e)
  | _ => e
  end.

(* ------------------------------------------------------------------ *)
(** ** The states of a [ProviderManager] *)

(** The managers a program can have: constructed, then reconfigured and
    given an active provider any number of times. *)
Inductive reachable : ProviderManager.t -> Prop :=
| reach_new (c : option ProviderConfig) : reachable (ProviderManager.new c)
| reach_updateConfig (m : ProviderManager.t) (c : ProviderConfig) :
    reachable m -> reachable (updateConfig m c)
| reach_setActiveProvider (m : ProviderManager.t) (id : jsstring) :
    reachable m -> reachable (setActiveProvider m id).

(** The identifiers [initializeProviders] may register, in the order in
    which it does. *)
Definition vendor_ids : list jsstring :=
  [txt "ollama"; txt "openai"; txt "anthropic"; txt "groq"; txt "gemini"].

(** The adapter is the one [initializeProviders] constructs from the
    configuration [c], which it does for a hosted vendor only when the key
    is not empty. *)
Definition constructed_from (c : ProviderConfig) (p : AIProvider) : Prop :=
  match p with
  | Ollama o =>
      o = OllamaProvider.new (Some (ollama_url (ollama c)))
                             (Some (ollama_defaultModel (ollama c)))
  | OpenAI o =>
      openai_apiKey (openai c) <> []
      /\ o = OpenAIProvider.new (Some (openai_apiKey (openai c)))
                                (Some (openai_defaultModel (openai c)))
                                (openai_baseUrl (openai c))
  | Anthropic a =>
      apiKey (anthropic c) <> []
      /\ a = AnthropicProvider.new (Some (apiKey (anthropic c)))
                                   (Some (defaultModel (anthropic c)))
  | Groq g =>
      apiKey (groq c) <> []
      /\ g = GroqProvider.new (Some (apiKey (groq c)))
                              (Some (defaultModel (groq c)))
  | Gemini g =>
      apiKey (gemini c) <> []
      /\ g = GeminiProvider.setApiKey GeminiProvider.new (apiKey (gemini c))
  end.

(** The loop of [getAvailableProviders]. *)
Fixpoint available_among (ps : list AIProvider) (h : Host)
  : result (list AIProvider) :=
  match ps with
  | [] => Ok []
  | p :: rest =>
      match isAvailable p h with
      | Throw e => Throw e
      | Ok yes =>
          match available_among rest h with
          | Throw e => Throw e
          | Ok l => Ok (if yes then p :: l else l)
          end
      end
  end.

Definition getAvailableProviders (m : ProviderManager.t) (h : Host)
  : result (list AIProvider) :=
  available_among (getAllProviders m) h.

(** The request for the list of models fails (see [falls_back]). *)
Definition models_request_fails (p : AIProvider) (h : Host) : Prop :=
  match p with
  | Ollama o =>
      (exists e, url_net h (OllamaProvider.tags_request o) = Throw e)
      \/ (exists r, url_net h (OllamaProvider.tags_request o) = Ok r
                    /\ JSON_parse (rr_text r) = None)
  | OpenAI o => fetch_fails (net h) (OpenAIProvider.models_request o)
  | Groq g => fetch_fails (net h) (GroqProvider.models_request g)
  | Anthropic _ | Gemini _ => True
  end.

(** A response that is not ok. *)
Definition too_many_requests : Response :=
  {| resp_ok := false;
     resp_status := 429;
     resp_statusText := txt "Too Many Requests";
     resp_body := None;
     resp_json := Throw SyntaxError |}.

(** The callback, if it is [onToken], passes a value that [text += token]
    can append. *)
Definition token_converts (e : event) : Prop :=
  match e with
  | OnToken t => to_string t <> None
  | _ => True
  end.

(* ------------------------------------------------------------------ *)
(** ** Records of the scenarios *)

(** Records without their line feed.  Two of them in a row make one line,
    which is not JSON. *)
Definition ollama_a : jsstring := txt "{'message':{'content':'a'}}".
Definition ollama_b : jsstring := txt "{'message':{'content':'b'}}".

Definition openai_a : jsstring :=
  txt "data: {'choices':[{'delta':{'content':'a'}}]}".
Definition openai_b : jsstring :=
  txt "data: {'choices':[{'delta':{'content':'b'}}]}".

Definition gemini_a : jsstring :=
  txt "data: {'candidates':[{'content':{'parts':[{'text':'a'}]}}]}".
Definition gemini_b : jsstring :=
  txt "data: {'candidates':[{'content':{'parts':[{'text':'b'}]}}]}".

(** A Gemini record whose text is an object that cannot be converted to a
    string. *)
Definition gemini_unprintable : jsstring :=
  txt "data: {'candidates':[{'content':{'parts':[{'text':{'toString':1}}]}}]}"
  ++ nl.

Definition number_1 : number := number_of_decimal false 1 0.

(** An Ollama record with such a token and a truthy [done]. *)
Definition ollama_unprintable_done : jsstring :=
  txt "{'message':{'content':{'toString':1}},'done':true}" ++ nl.

(* ------------------------------------------------------------------ *)
(** ** Concrete configurations *)

(** The default configuration with an API key for Gemini. *)
Definition gemini_configured : ProviderConfig :=
  {| ollama := ollama DEFAULT_PROVIDER_CONFIG;
     openai := openai DEFAULT_PROVIDER_CONFIG;
     anthropic := anthropic DEFAULT_PROVIDER_CONFIG;
     groq := groq DEFAULT_PROVIDER_CONFIG;
     gemini := {| enabled := true; apiKey := txt "AIza";
                  defaultModel := txt "gemini-1.5-pro" |} |}.

(** The default configuration with OpenAI enabled and given an API key. *)
Definition openai_configured : ProviderConfig :=
  {| ollama := ollama DEFAULT_PROVIDER_CONFIG;
     openai := {| openai_enabled := true;
                  openai_apiKey := txt "sk-test";
                  openai_defaultModel := txt "gpt-3.5-turbo";
                  openai_baseUrl := None |};
     anthropic := anthropic DEFAULT_PROVIDER_CONFIG;
     groq := groq DEFAULT_PROVIDER_CONFIG;
     gemini := gemini DEFAULT_PROVIDER_CONFIG |}.

(** A manager whose active provider was OpenAI when the key was removed
    from the configuration. *)
Definition openai_withdrawn : ProviderManager.t :=
  updateConfig
    (setActiveProvider (ProviderManager.new (Some openai_configured))
                       (txt "openai"))
    DEFAULT_PROVIDER_CONFIG.

(* ================================================================== *)
(** ** ui/ChatView.ts *)

(** The chat view without its DOM: the session's messages and model, the
    attached note, the [isGenerating] flag and the number of
    [saveSession] calls made so far.  The callbacks given to [chat] update
    the assistant message pushed last; no message is pushed and the session
    is not replaced between [sendMessage] and the end of the generation
    ([sendMessage] returns at once while [isGenerating] holds), so that
    message is the last of the session.  A cancellation is the
    [AbortController] the streaming call is run with. *)
Module ChatView.

Record Note := { path : jsstring; note_content : jsstring }.

(** [ChatMessage]; the fields of [AIMessage] carry the prefix [msg_]. *)
Record ChatMessage := {
  msg_id : jsstring;
  msg_role : Role;
  msg_content : jsstring;
  msg_timestamp : N;
  attachedNote : option Note;
  isStreaming : option bool;
  error : option jsstring
}.

(** The chat settings of the plugin. *)
Record Settings := {
  chatSystemPrompt : jsstring;
  chatTemperature : number;
  chatMaxTokens : number;
  saveHistory : bool
}.

Record t := {
  settings : Settings;
  providerManager : ProviderManager.t;
  messages : list ChatMessage;
  model : jsstring;
  view_attachedNote : option Note;
  isGenerating : bool;
  saved : nat
}.

(** The message [chat] is given for a message of the session. *)
Definition sent_message (m : ChatMessage) : AIMessage :=
  {| role := msg_role m;
     content :=
       match attachedNote m with
       | Some n =>
           txt "[Note: " ++ path n ++ txt "]" ++ nl ++ note_content n
           ++ nl ++ nl ++ msg_content m
       | None => msg_content m
       end;
     timestamp := None |}.

Definition chat_options (s : Settings) : option GenerateOptions :=
  Some {| temperature := Some (chatTemperature s);
          systemPrompt := Some (chatSystemPrompt s);
          maxTokens := Some (chatMaxTokens s) |}.

(** The user message [sendMessage] makes; [now k] is what the call's
    [k]-th [Date.now()] returns. *)
Definition userMessage (v : t) (text : jsstring) (now : nat -> N)
  : ChatMessage :=
  {| msg_id := decimal (now 0%nat);
     msg_role := user;
     msg_content := text;
     msg_timestamp := now 1%nat;
     attachedNote := view_attachedNote v;
     isStreaming := None;
     error := None |}.

(** The placeholder of the answer. *)
Definition assistantMessage (now : nat -> N) : ChatMessage :=
  {| msg_id := decimal (now 2%nat + 1);
     msg_role := assistant;
     msg_content := [];
     msg_timestamp := now 3%nat;
     attachedNote := None;
     isStreaming := Some true;
     error := None |}.

(** [sendMessage] up to the call of [provider.chat]: the new state and the
    messages to send, [session.messages.slice(0, -1)] mapped, if the call
    is made. *)
Definition sendMessage (v : t) (input : jsstring) (now : nat -> N)
  : t * option (list AIMessage) :=
  let text := trim input in
  if negb (string_truthy text) || isGenerating v then (v, None)
  else
    let pushed :=
      (messages v ++ [userMessage v text now]) ++ [assistantMessage now] in
    ({| settings := settings v;
        providerManager := providerManager v;
        messages := pushed;
        model := model v;
        view_attachedNote := None;
        isGenerating := true;
        saved := saved v |},
     Some (map sent_message (removelast pushed))).

Fixpoint update_last (f : ChatMessage -> ChatMessage)
                     (l : list ChatMessage) : list ChatMessage :=
  match l with
  | [] => []
  | [m] => [f m]
  | m :: rest => m :: update_last f rest
  end.

Definition with_messages (v : t) (l : list ChatMessage) : t :=
  {| settings := settings v;
     providerManager := providerManager v;
     messages := l;
     model := model v;
     view_attachedNote := view_attachedNote v;
     isGenerating := isGenerating v;
     saved := saved v |}.

Definition finishGeneration (v : t) : t :=
  {| settings := settings v;
     providerManager := providerManager v;
     messages := messages v;
     model := model v;
     view_attachedNote := view_attachedNote v;
     isGenerating := false;
     saved := if saveHistory (settings v) then S (saved v) else saved v |}.

(** [onToken]: [assistantMessage.content += token].  When the conversion
    of the token throws, the content is left as it is and the callback
    throws; that happens inside the [try] of the adapter's line, whose
    [catch] swallows it (only the Gemini adapter passes a token it has not
    itself appended to a text before). *)
Definition onToken (token : json) (v : t) : t :=
  match to_string token with
  | None => v
  | Some s =>
      with_messages v
        (update_last
           (fun m => {| msg_id := msg_id m;
                        msg_role := msg_role m;
                        msg_content := msg_content m ++ s;
                        msg_timestamp := msg_timestamp m;
                        attachedNote := attachedNote m;
                        isStreaming := isStreaming m;
                        error := error m |})
           (messages v))
  end.

Definition onComplete (fullResponse : jsstring) (v : t) : t :=
  finishGeneration
    (with_messages v
       (update_last
          (fun m => {| msg_id := msg_id m;
                       msg_role := msg_role m;
                       msg_content := fullResponse;
                       msg_timestamp := msg_timestamp m;
                       attachedNote := attachedNote m;
                       isStreaming := Some false;
                       error := error m |})
          (messages v))).

Definition onError (e : js_error) (v : t) : t :=
  finishGeneration
    (with_messages v
       (update_last
          (fun m => {| msg_id := msg_id m;
                       msg_role := msg_role m;
                       msg_content := msg_content m;
                       msg_timestamp := msg_timestamp m;
                       attachedNote := attachedNote m;
                       isStreaming := Some false;
                       error := Some (error_message e) |})
          (messages v))).

Definition deliver (v : t) (e : event) : t :=
  match e with
  | OnToken token => onToken token v
  | OnComplete fullResponse => onComplete fullResponse v
  | OnError e => onError e v
  end.

(** The callbacks the active provider makes for a sent message. *)
Definition answer (v : t) (h : Host) (sent : list AIMessage)
                  (abortController : AbortController) : list event :=
  match getActiveProvider (providerManager v) with
  | Some provider =>
      chat provider h sent (model v) (chat_options (settings v))
           abortController
  | None => []
  end.

(** A message sent and answered: [sendMessage], then the callbacks of the
    streaming call in the order in which they are made. *)
Definition turn (v : t) (h : Host) (input : jsstring) (now : nat -> N)
                (abortController : AbortController) : t :=
  match sendMessage v input now with
  | (v', None) => v'
  | (v', Some sent) => fold_left deliver (answer v' h sent abortController) v'
  end.

(** [n] rounds of a conversation. *)
Fixpoint rounds (n : nat) : list Role :=
  match n with
  | O => []
  | S n' => user :: assistant :: rounds n'
  end.

(** The view between two generations: nothing is being generated, the
    session holds whole rounds, and no message is left streaming. *)
Definition settled (v : t) : Prop :=
  isGenerating v = false
  /\ (exists n, map msg_role (messages v) = rounds n)
  /\ Forall (fun m => isStreaming m <> Some true) (messages v).

(** The messages a turn sends to the provider. *)
Definition history (v : t) (input : jsstring) (now : nat -> N)
  : list AIMessage :=
  map sent_message (messages v ++ [userMessage v (trim input) now]).

(** [createNewSession] in a view constructed for the settings [s], the
    provider configuration [c] and the default model [m]. *)
Definition opened (s : Settings) (c : ProviderConfig) (active m : jsstring)
  : t :=
  {| settings := s;
     providerManager :=
       setActiveProvider (ProviderManager.new (Some c)) active;
     messages := [];
     model := m;
     view_attachedNote := None;
     isGenerating := false;
     saved := 0 |}.

End ChatView.

(** The answer being written: the state of the view while the callbacks
    arrive, [c] being the text received so far. *)
Definition writing (v : ChatView.t) (before : list ChatView.ChatMessage)
                   (now : nat -> N) (c : jsstring) : ChatView.t :=
  {| ChatView.settings := ChatView.settings v;
     ChatView.providerManager := ChatView.providerManager v;
     ChatView.messages :=
       before
       ++ [{| ChatView.msg_id := decimal (now 2%nat + 1);
              ChatView.msg_role := assistant;
              ChatView.msg_content := c;
              ChatView.msg_timestamp := now 3%nat;
              ChatView.attachedNote := None;
              ChatView.isStreaming := Some true;
              ChatView.error := None |}];
     ChatView.model := ChatView.model v;
     ChatView.view_attachedNote := None;
     ChatView.isGenerating := true;
     ChatView.saved := ChatView.saved v |}.

(** The view after the callback that ends the generation. *)
Definition written (v : ChatView.t) (before : list ChatView.ChatMessage)
                   (now : nat -> N) (c : jsstring)
                   (failure : option jsstring) : ChatView.t :=
  {| ChatView.settings := ChatView.settings v;
     ChatView.providerManager := ChatView.providerManager v;
     ChatView.messages :=
       before
       ++ [{| ChatView.msg_id := decimal (now 2%nat + 1);
              ChatView.msg_role := assistant;
              ChatView.msg_content := c;
              ChatView.msg_timestamp := now 3%nat;
              ChatView.attachedNote := None;
              ChatView.isStreaming := Some false;
              ChatView.error := failure |}];
     ChatView.model := ChatView.model v;
     ChatView.view_attachedNote := None;
     ChatView.isGenerating := false;
     ChatView.saved :=
       if ChatView.saveHistory (ChatView.settings v)
       then S (ChatView.saved v) else ChatView.saved v |}.

(* ------------------------------------------------------------------ *)
(** ** Concrete views *)

Definition sample_settings : ChatView.Settings :=
  {| ChatView.chatSystemPrompt := txt "You are a helpful assistant.";
     ChatView.chatTemperature := number_0_7;
     ChatView.chatMaxTokens := number_2048;
     ChatView.saveHistory := true |}.

(** A view just opened, with Gemini configured and active. *)
Definition gemini_view : ChatView.t :=
  ChatView.opened sample_settings gemini_configured (txt "gemini")
                  (txt "gemini-pro").

(** A view just opened on the default configuration. *)
Definition local_view : ChatView.t :=
  ChatView.opened sample_settings DEFAULT_PROVIDER_CONFIG (txt "ollama")
                  (txt "llama2").

Definition clock (k : nat) : N := 1700000000000 + N.of_nat k.

(* ================================================================== *)
(** * Properties *)

Unset Implicit Arguments.

(** ** Traces *)

Lemma token_text_app (a b : list event) :
  token_text (a ++ b) = token_text a ++ token_text b.
Proof.
  induction a as [| e a IH]; simpl; [reflexivity |].
  destruct e; simpl; rewrite IH; [ rewrite app_assoc |..]; reflexivity.
Qed.

Lemma terminal_count_app (a b : list event) :
  terminal_count (a ++ b) = terminal_count a + terminal_count b.
Proof.
  unfold terminal_count. rewrite filter_app, length_app. reflexivity.
Qed.

Lemma only_tokens_count (trace : list event) :
  only_tokens trace -> terminal_count trace = 0.
Proof.
  unfold terminal_count.
  induction 1 as [| e l He _ IH]; simpl; [reflexivity |].
  rewrite He. exact IH.
Qed.

Lemma only_tokens_app (a b : list event) :
  only_tokens a -> only_tokens b -> only_tokens (a ++ b).
Proof. unfold only_tokens. intros Ha Hb. apply Forall_app. now split. Qed.

Lemma emit_token_spec (token : jsval) (full : jsstring) :
  match emit_token token full with
  | Some (evs, full') => only_tokens evs /\ full' = full ++ token_text evs
  | None => True
  end.
Proof.
  unfold emit_token. destruct token as [t |].
  - destruct (truthy (Some t)).
    + destruct (to_string t) as [s |] eqn:Hs; [| exact I].
      cbn [token_text]. unfold appended. rewrite Hs.
      split; [repeat constructor | now rewrite app_nil_r].
    + split; [constructor | cbn [token_text]; now rewrite app_nil_r].
  - split; [constructor | cbn [token_text]; now rewrite app_nil_r].
Qed.

Lemma ended_cons_tokens full toks trace :
  only_tokens toks ->
  ended (full ++ token_text toks) trace -> ended full (toks ++ trace).
Proof.
  intros Ht H. destruct H as [toks' H' | toks' err H'].
  - replace (toks ++ toks'
             ++ [OnComplete ((full ++ token_text toks) ++ token_text toks')])
      with ((toks ++ toks')
            ++ [OnComplete (full ++ token_text (toks ++ toks'))]).
    + constructor. now apply only_tokens_app.
    + rewrite token_text_app, <- (app_assoc toks), (app_assoc full).
      reflexivity.
  - rewrite (app_assoc toks). constructor. now apply only_tokens_app.
Qed.

Lemma ended_count full trace : ended full trace -> terminal_count trace = 1.
Proof.
  intros [toks H | toks err H]; rewrite terminal_count_app,
    (only_tokens_count _ H); reflexivity.
Qed.

Lemma on_catch_ended (e : js_error) (full : jsstring) :
  ended full (on_catch e full).
Proof.
  unfold on_catch. destruct (str_eqb _ _).
  - replace [OnComplete full] with ([] ++ [OnComplete (full ++ token_text [])])
      by (simpl; now rewrite app_nil_r).
    constructor. constructor.
  - apply (@ended_error full []). constructor.
Qed.

(** ** The shared read loop *)

Section ReadLoopFacts.

Variable lines_of_chunk : jsstring -> list jsstring.
Variable handle_line : jsstring -> jsstring -> list event * jsstring * bool.

Hypothesis handle_line_accumulates :
  forall line, accumulates (handle_line line).

Lemma for_lines_accumulates (lines : list jsstring) :
  accumulates (for_lines handle_line lines).
Proof.
  induction lines as [| line rest IH]; intros full; simpl.
  - split; [constructor | now rewrite app_nil_r].
  - pose proof (handle_line_accumulates line full) as Hl.
    destruct (handle_line line full) as [[evs full1] returned].
    destruct returned; [exact Hl |].
    destruct Hl as [Htok Hfull].
    specialize (IH full1).
    destruct (for_lines handle_line rest full1) as [[evs' full2] returned'].
    destruct returned'.
    + destruct IH as [Hend [toks Hev]]. split.
      * apply ended_cons_tokens; [exact Htok |]. now rewrite <- Hfull.
      * exists (evs ++ toks). rewrite Hev, app_assoc. reflexivity.
    + destruct IH as [Htok' Hfull']. split.
      * now apply only_tokens_app.
      * rewrite Hfull', Hfull, token_text_app, app_assoc. reflexivity.
Qed.

Lemma read_loop_ended (r : reader) (full : jsstring) :
  ended full (read_loop lines_of_chunk handle_line r full).
Proof.
  revert full. induction r as [| e | text rest IH]; intros full; simpl.
  - replace [OnComplete full]
      with ([] ++ [OnComplete (full ++ token_text [])])
      by (simpl; now rewrite app_nil_r).
    constructor. constructor.
  - apply on_catch_ended.
  - pose proof (for_lines_accumulates (lines_of_chunk text) full) as Hf.
    destruct (for_lines handle_line (lines_of_chunk text) full)
      as [[evs full1] returned].
    destruct returned.
    + exact (proj1 Hf).
    + destruct Hf as [Htok Hfull].
      apply ended_cons_tokens; [exact Htok |].
      rewrite <- Hfull. apply IH.
Qed.

Lemma stream_response_ended http_error (response : result Response) :
  ended [] (stream_response lines_of_chunk handle_line http_error response).
Proof.
  unfold stream_response. destruct response as [r | e].
  - destruct (negb (resp_ok r)); [apply on_catch_ended |].
    destruct (resp_body r); [apply read_loop_ended | apply on_catch_ended].
  - apply on_catch_ended.
Qed.

End ReadLoopFacts.

(** ** The line handlers of the four accumulating adapters *)

Lemma skip_accumulates (full : jsstring) :
  only_tokens [] /\ full = full ++ token_text [].
Proof. split; [constructor | simpl; now rewrite app_nil_r]. Qed.

Lemma emit_then_complete (token : jsval) (full : jsstring) :
  match emit_token token full with
  | Some (evs, full') =>
      ended full (evs ++ [OnComplete full'])
      /\ exists toks, evs ++ [OnComplete full'] = toks ++ [OnComplete full']
  | None => True
  end.
Proof.
  pose proof (emit_token_spec token full) as Hspec.
  destruct (emit_token token full) as [[evs full'] |]; [| exact I].
  destruct Hspec as [Htok Hfull].
  split; [| now exists evs].
  rewrite Hfull. now constructor.
Qed.

Lemma complete_now (full : jsstring) :
  ended full [OnComplete full]
  /\ exists toks, [OnComplete full] = toks ++ [OnComplete full].
Proof.
  split; [| now exists []].
  replace [OnComplete full] with ([] ++ [OnComplete (full ++ token_text [])])
    by (simpl; now rewrite app_nil_r).
  constructor. constructor.
Qed.

Lemma ollama_handle_line_accumulates (isChat : bool) (line : jsstring) :
  accumulates (OllamaProvider.handle_line isChat line).
Proof.
  intros full. unfold OllamaProvider.handle_line.
  destruct (JSON_parse line) as [json |]; [| apply skip_accumulates].
  destruct (OllamaProvider.token_of isChat json) as [token |];
    [| apply skip_accumulates].
  pose proof (emit_token_spec token full) as Hspec.
  pose proof (emit_then_complete token full) as Hdone.
  destruct (emit_token token full) as [[evs full'] |];
    [| apply skip_accumulates].
  destruct (truthy (get (txt "done") json)); [exact Hdone | exact Hspec].
Qed.

Lemma openai_handle_line_accumulates (line : jsstring) :
  accumulates (OpenAIProvider.handle_line line).
Proof.
  intros full. unfold OpenAIProvider.handle_line.
  destruct (str_eqb _ _); [apply complete_now |].
  destruct (JSON_parse _) as [json |]; [| apply skip_accumulates].
  destruct (OpenAIProvider.token_of json) as [token |];
    [| apply skip_accumulates].
  pose proof (emit_token_spec token full) as Hspec.
  destruct (emit_token token full) as [[evs full'] |];
    [exact Hspec | apply skip_accumulates].
Qed.

Lemma anthropic_handle_line_accumulates (line : jsstring) :
  accumulates (AnthropicProvider.handle_line line).
Proof.
  intros full. unfold AnthropicProvider.handle_line.
  destruct (negb (startsWith _ _)); [apply skip_accumulates |].
  destruct (_ || _); [apply skip_accumulates |].
  destruct (JSON_parse _) as [json |]; [| apply skip_accumulates].
  destruct (member (txt "type") json) as [type |]; [| apply skip_accumulates].
  destruct (is_string (txt "content_block_delta") type).
  - pose proof (emit_token_spec
                  (opt_member (txt "text") (get (txt "delta") json)) full)
      as Hspec.
    pose proof (emit_then_complete
                  (opt_member (txt "text") (get (txt "delta") json)) full)
      as Hdone.
    destruct (emit_token _ full) as [[evs full'] |];
      [| apply skip_accumulates].
    destruct (is_string (txt "message_stop") type);
      [exact Hdone | exact Hspec].
  - destruct (is_string (txt "message_stop") type);
      [apply complete_now | apply skip_accumulates].
Qed.

(** ** The Gemini read loop *)

Lemma gemini_handle_line_tokens (raw : jsstring) :
  only_tokens (GeminiProvider.handle_line raw).
Proof.
  unfold GeminiProvider.handle_line.
  destruct (startsWith _ _); [| constructor].
  destruct (JSON_parse _) as [json |]; [| constructor].
  destruct (GeminiProvider.text_of json) as [[text |] |]; try constructor.
  destruct (truthy (Some text)); repeat constructor.
Qed.

Lemma gemini_for_lines_tokens (lines : list jsstring) :
  only_tokens (GeminiProvider.for_lines lines).
Proof.
  unfold GeminiProvider.for_lines.
  induction (removelast lines) as [| l ls IH]; simpl; [constructor |].
  apply only_tokens_app; [apply gemini_handle_line_tokens | exact IH].
Qed.

(** Every Gemini trace is token callbacks followed by [onComplete("")] or by
    [onError]. *)
Lemma gemini_read_loop_shape (failed : jsstring) (r : reader)
                             (buffer : jsstring) :
  exists toks last,
    GeminiProvider.read_loop failed r buffer = toks ++ [last]
    /\ only_tokens toks
    /\ (last = OnComplete [] \/ exists err, last = OnError err).
Proof.
  revert buffer. induction r as [| e | text rest IH]; intros buffer; simpl.
  - exists [], (OnComplete []). repeat split; [constructor | now left].
  - exists [], (OnError (Error (failed ++ error_message e))).
    repeat split; [constructor | right; eauto].
  - destruct (IH (last (split_lines (buffer ++ text)) []))
      as (toks & lst & Heq & Htok & Hlast).
    exists (GeminiProvider.for_lines (split_lines (buffer ++ text)) ++ toks),
           lst.
    rewrite Heq, app_assoc. repeat split; [| exact Hlast].
    apply only_tokens_app; [apply gemini_for_lines_tokens | exact Htok].
Qed.

Lemma gemini_stream_shape (p : GeminiProvider.t) (net : network)
                          (model : jsstring) (body : json)
                          (failed : jsstring) :
  exists toks last,
    GeminiProvider.stream p net model body failed = toks ++ [last]
    /\ only_tokens toks
    /\ (last = OnComplete [] \/ exists err, last = OnError err).
Proof.
  unfold GeminiProvider.stream.
  assert (Herr : forall err, exists toks last,
             [OnError err] = toks ++ [last] /\ only_tokens toks
             /\ (last = OnComplete [] \/ exists err', last = OnError err')).
  { intros err. exists [], (OnError err).
    repeat split; [constructor | right; eauto]. }
  destruct (negb (string_truthy _)); [apply Herr |].
  destruct (fetch net _ None) as [response | e]; [| apply Herr].
  destruct (negb (resp_ok response)); [apply Herr |].
  destruct (resp_body response); [apply gemini_read_loop_shape | apply Herr].
Qed.

(** ** Exactly one callback ends a call *)

Lemma shape_count (trace toks : list event) (last : event) :
  trace = toks ++ [last] -> only_tokens toks -> is_terminal last = true ->
  terminal_count trace = 1.
Proof.
  intros -> Htok Hlast.
  rewrite terminal_count_app, (only_tokens_count _ Htok).
  unfold terminal_count. simpl. now rewrite Hlast.
Qed.

(** The traces of the four adapters that accumulate the response. *)
Lemma accumulating_call_ended (p : AIProvider) (h : Host) (c : call)
                              (model : jsstring)
                              (options : option GenerateOptions)
                              (ac : AbortController) :
  (forall g, p <> Gemini g) ->
  ended [] (stream_call p h c model options ac).
Proof.
  intros Hp.
  destruct p as [o | o | a | g | g]; destruct c as [messages | prompt];
    try (exfalso; eapply Hp; reflexivity);
    cbn [stream_call chat generateStream];
    unfold OllamaProvider.chat, OllamaProvider.generateStream,
      OllamaProvider.streamRequest,
      OpenAIProvider.generateStream, OpenAIProvider.chat,
      OpenAIProvider.streamChat,
      AnthropicProvider.generateStream, AnthropicProvider.chat,
      AnthropicProvider.streamChat,
      GroqProvider.generateStream, GroqProvider.chat, GroqProvider.streamChat;
    apply stream_response_ended;
    first [ apply ollama_handle_line_accumulates
          | apply openai_handle_line_accumulates
          | apply anthropic_handle_line_accumulates ].
Qed.

Lemma gemini_call_shape (g : GeminiProvider.t) (h : Host) (c : call)
                        (model : jsstring) (options : option GenerateOptions)
                        (ac : AbortController) :
  exists toks last,
    stream_call (Gemini g) h c model options ac = toks ++ [last]
    /\ only_tokens toks
    /\ (last = OnComplete [] \/ exists err, last = OnError err).
Proof.
  destruct c; cbn [stream_call chat generateStream];
    apply gemini_stream_shape.
Qed.

(** C4. Every streaming call ([chat] or [generateStream]) of every adapter,
    whatever the backend answers (a rejected request, an error status, a
    missing body, any sequence of chunks, a failing read) and whenever the
    caller aborts, makes exactly one call to [onComplete] or [onError]. *)
Theorem exactly_one_terminal_callback
    (p : AIProvider) (h : Host) (c : call) (model : jsstring)
    (options : option GenerateOptions) (ac : AbortController) :
  terminal_count (stream_call p h c model options ac) = 1.
Proof.
  destruct p as [o | o | a | g | g];
    try (eapply ended_count; apply accumulating_call_ended; discriminate).
  destruct (gemini_call_shape g h c model options ac)
    as (toks & lst & Heq & Htok & Hlast).
  apply (shape_count _ toks lst Heq Htok).
  destruct Hlast as [-> | [err ->]]; reflexivity.
Qed.

(** ** Availability and model lists *)

(** C9. An adapter without credential (an empty API key; for the local
    adapter an endpoint whose request is rejected) answers [isAvailable()]
    with [false], and does not throw. *)
Theorem isAvailable_false_without_credential (p : AIProvider) (h : Host) :
  no_credential p h -> isAvailable p h = Ok false.
Proof.
  destruct p as [o | o | a | g | g]; simpl; intros H.
  - destruct H as [e He]. unfold OllamaProvider.isAvailable.
    rewrite He. reflexivity.
  - unfold OpenAIProvider.isAvailable. rewrite H. reflexivity.
  - unfold AnthropicProvider.isAvailable. rewrite H. reflexivity.
  - unfold GroqProvider.isAvailable. rewrite H. reflexivity.
  - unfold GeminiProvider.isAvailable. rewrite H. reflexivity.
Qed.

Lemma isAvailable_false_without_credential_witness :
  isAvailable keyless_openai offline = Ok false
  /\ isAvailable local_ollama offline = Ok false.
Proof.
  split.
  - apply (isAvailable_false_without_credential keyless_openai offline).
    reflexivity.
  - apply (isAvailable_false_without_credential local_ollama offline).
    simpl. eexists. reflexivity.
Defined.

Lemma string_truthy_iff (s : jsstring) : string_truthy s = true <-> s <> [].
Proof. destruct s; simpl; split; congruence. Qed.

(** The OpenAI and Groq adapters with an empty API key return the empty list
    of models: the claim that [getModels()] never returns an empty list
    fails there. *)
Lemma getModels_empty_without_key :
  getModels keyless_openai offline = Ok []
  /\ ~ (forall p h, exists l, getModels p h = Ok l /\ l <> []).
Proof.
  split; [reflexivity |].
  intros H. destruct (H keyless_openai offline) as (l & Hl & Hne).
  apply Hne.
  assert (Hnone : getModels keyless_openai offline = Ok []) by reflexivity.
  rewrite Hnone in Hl. injection Hl as Hl. symmetry. exact Hl.
Qed.

(** C5, amended. [getModels()] never throws, whatever the adapter, its
    configuration and the answer of the backend.  It returns a non-empty list
    when the adapter lists its models without a request (Anthropic, Gemini)
    and when the request it sends fails (Ollama; OpenAI and Groq with a
    non-empty API key): the request is rejected, the response is not ok, or
    its body is not JSON.  The OpenAI and Groq adapters with an empty API key
    return the empty list. *)
Theorem getModels_never_throws_and_falls_back (p : AIProvider) (h : Host) :
  (exists l, getModels p h = Ok l)
  /\ (falls_back p h -> exists l, getModels p h = Ok l /\ l <> [])
  /\ (keyless p -> getModels p h = Ok []).
Proof.
  destruct p as [o | o | a | g | g]; simpl.
  - unfold OllamaProvider.getModels. split; [| split; [| intros []]].
    + destruct (url_net h _) as [r | e]; simpl; [| eauto].
      destruct (JSON_parse _) as [data |]; simpl; [| eauto].
      destruct (OllamaProvider.model_names data); simpl; eauto.
    + intros [[e He] | (r & Hr & Hp)].
      * rewrite He. simpl. eexists. split; [reflexivity | discriminate].
      * rewrite Hr, Hp. simpl. eexists. split; [reflexivity | discriminate].
  - unfold OpenAIProvider.getModels. split; [| split].
    + destruct (negb _); [eauto |]. unfold fetch.
      destruct (net h _) as [r | e]; simpl; [| eauto].
      destruct (negb (resp_ok r)); simpl; [eauto |].
      destruct (resp_json r) as [data | e]; simpl; [| eauto].
      destruct (OpenAIProvider.model_ids o data); simpl; eauto.
    + intros [Hkey Hfail]. apply string_truthy_iff in Hkey. rewrite Hkey.
      simpl. unfold fetch.
      destruct Hfail as [[e He] | (r & Hr & [Hok | [e He]])].
      * rewrite He. simpl. eexists. split; [reflexivity | discriminate].
      * rewrite Hr, Hok. simpl. eexists. split; [reflexivity | discriminate].
      * rewrite Hr, He. destruct (negb (resp_ok r)); simpl;
          eexists; (split; [reflexivity | discriminate]).
    + intros ->. reflexivity.
  - split; [| split; [intros _ | intros []]];
      eexists; [| split]; try reflexivity. discriminate.
  - unfold GroqProvider.getModels. split; [| split].
    + destruct (negb _); [eauto |]. unfold fetch.
      destruct (net h _) as [r | e]; simpl; [| eauto].
      destruct (negb (resp_ok r)); simpl; [eauto |].
      destruct (resp_json r) as [data | e]; simpl; [| eauto].
      destruct (GroqProvider.model_ids g data); simpl; eauto.
    + intros [Hkey Hfail]. apply string_truthy_iff in Hkey. rewrite Hkey.
      simpl. unfold fetch.
      destruct Hfail as [[e He] | (r & Hr & [Hok | [e He]])].
      * rewrite He. simpl. eexists. split; [reflexivity | discriminate].
      * rewrite Hr, Hok. simpl. eexists. split; [reflexivity | discriminate].
      * rewrite Hr, He. destruct (negb (resp_ok r)); simpl;
          eexists; (split; [reflexivity | discriminate]).
    + intros ->. reflexivity.
  - split; [| split; [intros _ | intros []]];
      eexists; [| split]; try reflexivity. discriminate.
Qed.

Lemma getModels_never_throws_and_falls_back_witness :
  exists l, getModels keyed_openai offline = Ok l /\ l <> [].
Proof.
  apply (proj1 (proj2 (getModels_never_throws_and_falls_back
                         keyed_openai offline))).
  split; [discriminate |]. left. eexists. reflexivity.
Defined.

(** ** The provider registry *)

Lemma initializeProviders_matches (c : ProviderConfig) (active : jsstring) :
  registry_matches
    (initializeProviders
       {| providers := []; config := c; activeProviderId := active |})
    c.
Proof.
  unfold registry_matches, initializeProviders. cbn [config].
  destruct (openai_apiKey (openai c)) as [| k1 s1];
    destruct (apiKey (anthropic c)) as [| k2 s2];
    destruct (apiKey (groq c)) as [| k3 s3];
    destruct (apiKey (gemini c)) as [| k4 s4];
    cbn [string_truthy];
    repeat split; try reflexivity; try discriminate;
    intros; try discriminate; try congruence.
Qed.

(** C7. After the construction of a [ProviderManager] and after every
    [updateConfig], the registry holds the local [ollama] adapter, and holds
    an adapter for [openai], [anthropic], [groq] or [gemini] exactly when the
    API key configured for that vendor is not the empty string. *)
Theorem registry_holds_configured_providers :
  (forall c, registry_matches (ProviderManager.new (Some c)) c)
  /\ registry_matches (ProviderManager.new None) DEFAULT_PROVIDER_CONFIG
  /\ (forall m c, registry_matches (updateConfig m c) c).
Proof.
  split; [| split]; intros; apply initializeProviders_matches.
Qed.

(** C10. [getProviderInfo()] lists four providers in every state of the
    manager: ollama, openai, anthropic and groq.  gemini is not among them,
    also when its API key is configured, in which case the registry does
    hold its adapter. *)
Theorem getProviderInfo_has_no_gemini :
  (forall m : ProviderManager.t,
      map info_id (getProviderInfo m)
      = [txt "ollama"; txt "openai"; txt "anthropic"; txt "groq"]
      /\ List.length (getProviderInfo m) = 4
      /\ existsb (str_eqb (txt "gemini")) (map info_id (getProviderInfo m))
         = false)
  /\ (forall c : ProviderConfig,
         map_has (txt "gemini") (providers (ProviderManager.new (Some c)))
         = string_truthy (apiKey (gemini c))).
Proof.
  split.
  - intros m. repeat split.
  - intros c. unfold ProviderManager.new, initializeProviders. cbn [config].
    destruct (openai_apiKey (openai c)) as [| k1 s1];
      destruct (apiKey (anthropic c)) as [| k2 s2];
      destruct (apiKey (groq c)) as [| k3 s3];
      destruct (apiKey (gemini c)) as [| k4 s4];
      reflexivity.
Qed.

(** ** Where the adapters part from the contract *)

(** C1 (the Gemini adapter breaks it). One record carrying [Hi], then the
    end of the body: [onToken("Hi")] is followed by [onComplete("")], not by
    [onComplete("Hi")], in [chat] and in [generateStream]. *)
Theorem gemini_completes_with_empty_text :
  stream_call keyed_gemini (serving [gemini_hi]) (Chat [])
              (txt "gemini-pro") None never_aborted
  = [OnToken (JString (txt "Hi")); OnComplete []]
  /\ stream_call keyed_gemini (serving [gemini_hi])
                 (GenerateStream (txt "Say hi")) (txt "gemini-pro") None
                 never_aborted
     = [OnToken (JString (txt "Hi")); OnComplete []].
Proof. split; vm_compute; reflexivity. Qed.

(** C2 (the Ollama, OpenAI, Anthropic and Groq adapters break it). A record
    delivered whole gives its token; the same text cut in two chunks gives no
    token at all: each chunk is split and parsed on its own, nothing is
    carried over to the next one. *)
Theorem record_split_across_chunks_is_lost :
  stream_call local_ollama (serving [ollama_hello]) (Chat [])
              (txt "llama2") None never_aborted
  = [OnToken (JString (txt "Hello")); OnComplete (txt "Hello")]
  /\ stream_call local_ollama
                 (serving [firstn 26 ollama_hello; skipn 26 ollama_hello])
                 (Chat []) (txt "llama2") None never_aborted
     = [OnComplete []]
  /\ stream_call keyed_openai (serving [openai_hello]) (Chat [])
                 (txt "gpt-4") None never_aborted
     = [OnToken (JString (txt "Hello")); OnComplete (txt "Hello")]
  /\ stream_call keyed_openai
                 (serving [firstn 40 openai_hello; skipn 40 openai_hello])
                 (Chat []) (txt "gpt-4") None never_aborted
     = [OnComplete []].
Proof. repeat split; vm_compute; reflexivity. Qed.

(** C3 (the Gemini adapter breaks it). The handle the Gemini adapter returns
    is not connected to its request: aborting it changes nothing.  Aborted
    before the first read, a call still reads the whole body, delivers both
    tokens, and ends with [onComplete("")]. *)
Theorem gemini_ignores_abort :
  stream_call keyed_gemini (serving [gemini_hi; gemini_hi]) (Chat [])
              (txt "gemini-pro") None (aborted_in_await 1)
  = [OnToken (JString (txt "Hi")); OnToken (JString (txt "Hi"));
     OnComplete []]
  /\ (forall g h c model options ac,
         stream_call (Gemini g) h c model options ac
         = stream_call (Gemini g) h c model options never_aborted).
Proof.
  split; [vm_compute; reflexivity |].
  intros g h [messages | prompt] model options ac; reflexivity.
Qed.

(** C8 (the Ollama, OpenAI and Groq adapters break it, and the Anthropic
    one). A temperature of 0 given in the options is replaced by the default
    0.7 in the requests of the OpenAI, Ollama and Groq adapters; the requests
    of the Anthropic adapter carry no temperature at all. The Gemini adapter
    sends the 0 it was given. *)
Theorem zero_temperature_is_replaced :
  sent_temperature keyed_openai
    (chat_body keyed_openai [] (txt "gpt-4") (temperature_of zero))
  = num number_0_7
  /\ sent_temperature keyed_openai
       (generate_body keyed_openai (txt "Hi") None (temperature_of zero))
     = num number_0_7
  /\ sent_temperature local_ollama
       (chat_body local_ollama [] (txt "llama2") (temperature_of zero))
     = num number_0_7
  /\ sent_temperature keyed_groq
       (chat_body keyed_groq [] (txt "gemma-7b-it") (temperature_of zero))
     = num number_0_7
  /\ sent_temperature keyed_anthropic
       (chat_body keyed_anthropic [] (txt "claude-2.1")
                  (temperature_of one_half))
     = undefined
  /\ sent_temperature keyed_gemini
       (chat_body keyed_gemini [] (txt "gemini-pro") (temperature_of zero))
     = num zero.
Proof. repeat split; vm_compute; reflexivity. Qed.

(** ** Splitting into lines *)

Lemma split_lines_nonempty (s : jsstring) : split_lines s <> [].
Proof.
  destruct s as [| c s]; simpl; [discriminate |].
  destruct (N.eqb c LF); [discriminate |].
  destruct (split_lines s); discriminate.
Qed.

Lemma split_lines_cons (c : N) (s : jsstring) :
  N.eqb c LF = false ->
  exists seg segs,
    split_lines s = seg :: segs /\ split_lines (c :: s) = (c :: seg) :: segs.
Proof.
  intros Hc. simpl. rewrite Hc.
  destruct (split_lines s) as [| seg segs] eqn:Hs.
  - exfalso. exact (split_lines_nonempty s Hs).
  - exists seg, segs. split; reflexivity.
Qed.

Lemma split_lines_app_lf (a b : jsstring) :
  split_lines (a ++ LF :: b) = split_lines a ++ split_lines b.
Proof.
  induction a as [| c a IH]; [reflexivity |].
  simpl. rewrite IH. destruct (N.eqb c LF); [reflexivity |].
  destruct (split_lines a) as [| seg segs] eqn:Ha; [| reflexivity].
  exfalso. exact (split_lines_nonempty a Ha).
Qed.

Lemma split_lines_no_lf (s : jsstring) : ~ In LF s -> split_lines s = [s].
Proof.
  induction s as [| c s IH]; intros Hs; [reflexivity |].
  simpl. destruct (N.eqb c LF) eqn:Hc.
  - apply N.eqb_eq in Hc. exfalso. apply Hs. left. now symmetry.
  - rewrite IH; [reflexivity |]. intros Hin. apply Hs. now right.
Qed.

(** Splitting a text cut in two: the last segment of the first part is
    completed by the second part. *)
Lemma split_lines_app (x y : jsstring) :
  split_lines (x ++ y)
  = removelast (split_lines x) ++ split_lines (last (split_lines x) [] ++ y).
Proof.
  induction x as [| c x IH]; [reflexivity |].
  cbn [app]. destruct (N.eqb c LF) eqn:Hc.
  - simpl. rewrite Hc. rewrite IH.
    destruct (split_lines x) as [| seg segs] eqn:Hx;
      [exfalso; exact (split_lines_nonempty x Hx) |].
    reflexivity.
  - destruct (split_lines_cons c (x ++ y) Hc) as (s1 & ss1 & Hxy & Hcxy).
    destruct (split_lines_cons c x Hc) as (s2 & ss2 & Hx & Hcx).
    rewrite Hcxy, Hcx. rewrite IH, Hx in Hxy.
    destruct ss2 as [| s3 ss3].
    + cbn [removelast last app] in *.
      destruct (split_lines_cons c (s2 ++ y) Hc) as (s4 & ss4 & H4 & Hc4).
      cbn [app] in Hc4. rewrite Hc4. rewrite H4 in Hxy.
      injection Hxy as -> ->. reflexivity.
    + cbn [removelast last app] in *.
      injection Hxy as <- <-. reflexivity.
Qed.

Lemma line_start_tail (a b : jsstring) :
  line_start (a ++ b) -> line_start b.
Proof.
  intros [Hnil | [s0 Hs]].
  - left. now destruct (app_eq_nil _ _ Hnil).
  - destruct b as [| c b] using rev_ind; [now left | right].
    rewrite app_assoc in Hs. apply app_inj_tail in Hs as [_ ->].
    now exists b.
Qed.

(** The lines of a chunk around a record that starts at a line start. *)
Lemma split_lines_record (pre bad post : jsstring) :
  line_start pre -> ~ In LF bad ->
  exists A,
    split_lines (pre ++ bad ++ nl ++ post) = A ++ bad :: split_lines post
    /\ split_lines (pre ++ post) = A ++ split_lines post.
Proof.
  intros [-> | [p0 ->]] Hbad.
  - exists []. cbn [app nl]. rewrite split_lines_app_lf.
    rewrite (split_lines_no_lf bad Hbad). split; reflexivity.
  - exists (split_lines p0). unfold nl. rewrite <- !app_assoc. cbn [app].
    rewrite !split_lines_app_lf, (split_lines_no_lf bad Hbad).
    split; reflexivity.
Qed.

(** ** A record that does not parse is skipped *)

Section SkippedRecord.

Variable keep : jsstring -> bool.
Variable handle_line : jsstring -> jsstring -> list event * jsstring * bool.
Variable bad : jsstring.

Hypothesis bad_is_skipped :
  forall full, handle_line bad full = ([], full, false).

Let lines_of_chunk (chunk : jsstring) : list jsstring :=
  filter keep (split_lines chunk).

Lemma for_lines_without (l1 l2 : list jsstring) (full : jsstring) :
  for_lines handle_line (l1 ++ bad :: l2) full
  = for_lines handle_line (l1 ++ l2) full.
Proof.
  revert full. induction l1 as [| l l1 IH]; intros full; simpl.
  - rewrite bad_is_skipped.
    destruct (for_lines handle_line l2 full) as [[evs full'] returned].
    reflexivity.
  - destruct (handle_line l full) as [[evs full1] returned].
    destruct returned; [reflexivity |]. rewrite IH. reflexivity.
Qed.

Lemma chunk_without (pre post : jsstring) (rest : reader)
                    (full : jsstring) :
  line_start pre -> ~ In LF bad ->
  read_loop lines_of_chunk handle_line
            (Chunk (pre ++ bad ++ nl ++ post) rest) full
  = read_loop lines_of_chunk handle_line (Chunk (pre ++ post) rest) full.
Proof.
  intros Hpre Hbad.
  destruct (split_lines_record pre bad post Hpre Hbad) as (A & H1 & H2).
  cbn [read_loop]. unfold lines_of_chunk. rewrite H1, H2, !filter_app.
  cbn [filter]. destruct (keep bad); [| reflexivity].
  rewrite for_lines_without. reflexivity.
Qed.

Lemma body_without (before : list jsstring) (pre post : jsstring)
                   (rest : reader) (full : jsstring) :
  line_start pre -> ~ In LF bad ->
  read_loop lines_of_chunk handle_line
            (prepend before (Chunk (pre ++ bad ++ nl ++ post) rest)) full
  = read_loop lines_of_chunk handle_line
              (prepend before (Chunk (pre ++ post) rest)) full.
Proof.
  intros Hpre Hbad. revert full.
  induction before as [| c cs IH]; intros full.
  - now apply chunk_without.
  - cbn [prepend read_loop].
    destruct (for_lines handle_line (lines_of_chunk c) full)
      as [[evs full1] returned].
    destruct returned; [reflexivity |]. rewrite IH. reflexivity.
Qed.

Lemma aborted_body_without (k : nat) (before : list jsstring)
                           (pre post : jsstring) (rest : reader)
                           (full : jsstring) :
  line_start pre -> ~ In LF bad ->
  read_loop lines_of_chunk handle_line
    (abort_reader k (prepend before (Chunk (pre ++ bad ++ nl ++ post) rest)))
    full
  = read_loop lines_of_chunk handle_line
      (abort_reader k (prepend before (Chunk (pre ++ post) rest))) full.
Proof.
  intros Hpre Hbad. revert k full.
  induction before as [| c cs IH]; intros [| k] full; try reflexivity.
  - cbn [prepend abort_reader]. now apply chunk_without.
  - cbn [prepend abort_reader read_loop].
    destruct (for_lines handle_line (lines_of_chunk c) full)
      as [[evs full1] returned].
    destruct returned; [reflexivity |]. rewrite IH. reflexivity.
Qed.

(** The whole call, from the [fetch] on. The message of an HTTP error is
    made from the status alone. *)
Lemma response_without (http_error : Response -> jsstring) (r : Response)
                       (h : Host) (req : Request) (ac : AbortController)
                       (before : list jsstring) (pre post : jsstring)
                       (rest : reader) :
  (forall r1 r2, resp_status r1 = resp_status r2 ->
                 http_error r1 = http_error r2) ->
  line_start pre -> ~ In LF bad ->
  stream_response lines_of_chunk handle_line http_error
    (fetch (net (responding r
                   (prepend before (Chunk (pre ++ bad ++ nl ++ post) rest))
                   h))
           req (Some ac))
  = stream_response lines_of_chunk handle_line http_error
      (fetch (net (responding r (prepend before (Chunk (pre ++ post) rest))
                              h))
             req (Some ac)).
Proof.
  intros Hhttp Hpre Hbad. unfold fetch, responding. cbn [net].
  destruct (aborted_at ac) as [[| k] |]; [reflexivity | |];
    unfold stream_response; cbn [resp_ok resp_body option_map];
    (destruct (negb (resp_ok r));
     [f_equal; f_equal; apply Hhttp; reflexivity |]).
  - now apply aborted_body_without.
  - now apply body_without.
Qed.

End SkippedRecord.

(** The record is skipped by each of the four line handlers. *)
Lemma ollama_skips (isChat : bool) (bad : jsstring) :
  JSON_parse bad = None ->
  forall full, OllamaProvider.handle_line isChat bad full = ([], full, false).
Proof.
  intros H full. unfold OllamaProvider.handle_line. now rewrite H.
Qed.

Lemma openai_skips (bad : jsstring) :
  JSON_parse (OpenAIProvider.data_of bad) = None ->
  str_eqb (OpenAIProvider.data_of bad) (txt "[DONE]") = false ->
  forall full, OpenAIProvider.handle_line bad full = ([], full, false).
Proof.
  intros H Hs full. unfold OpenAIProvider.handle_line. now rewrite Hs, H.
Qed.

Lemma anthropic_skips (bad : jsstring) :
  JSON_parse (AnthropicProvider.data_of bad) = None ->
  forall full, AnthropicProvider.handle_line bad full = ([], full, false).
Proof.
  intros H full. unfold AnthropicProvider.handle_line. rewrite H.
  destruct (negb _); [reflexivity |]. destruct (_ || _); reflexivity.
Qed.

Lemma gemini_skips (bad : jsstring) :
  JSON_parse (slice 6 (trim bad)) = None ->
  GeminiProvider.handle_line bad = [].
Proof.
  intros H. unfold GeminiProvider.handle_line. rewrite H.
  destruct (startsWith _ _); reflexivity.
Qed.

(** ** The carry-over buffer of the Gemini adapter *)

Lemma removelast_app_cons (A : Type) (l1 l2 : list A) (x : A) :
  removelast (l1 ++ x :: l2) = l1 ++ removelast (x :: l2).
Proof. apply removelast_app. discriminate. Qed.

Lemma last_app_cons (A : Type) (l1 l2 : list A) (x d : A) :
  last (l1 ++ x :: l2) d = last (x :: l2) d.
Proof.
  induction l1 as [| y l1 IH]; [reflexivity |].
  cbn [app]. rewrite <- IH. cbn [last].
  destruct (l1 ++ x :: l2) eqn:E; [| reflexivity].
  destruct l1; discriminate.
Qed.

(** Two successive chunks are read as their concatenation is: where the
    backend cuts the body into chunks has no effect. *)
Lemma gemini_chunks_merge (failed : jsstring) (a b : jsstring) (r : reader)
                          (buffer : jsstring) :
  GeminiProvider.read_loop failed (Chunk a (Chunk b r)) buffer
  = GeminiProvider.read_loop failed (Chunk (a ++ b) r) buffer.
Proof.
  cbn [GeminiProvider.read_loop].
  rewrite (app_assoc buffer a b), (split_lines_app (buffer ++ a) b).
  set (A := removelast (split_lines (buffer ++ a))).
  destruct (split_lines (last (split_lines (buffer ++ a)) [] ++ b))
    as [| s ss] eqn:HB; [exfalso; exact (split_lines_nonempty _ HB) |].
  unfold GeminiProvider.for_lines at 3.
  rewrite removelast_app_cons, flat_map_app, last_app_cons, <- app_assoc.
  reflexivity.
Qed.

Lemma gemini_body_merge (failed : jsstring) (before : list jsstring)
                        (text : jsstring) (r : reader) (buffer : jsstring) :
  GeminiProvider.read_loop failed (prepend before (Chunk text r)) buffer
  = GeminiProvider.read_loop failed (Chunk (List.concat before ++ text) r)
                             buffer.
Proof.
  revert buffer. induction before as [| c cs IH]; intros buffer;
    [reflexivity |].
  cbn [prepend List.concat]. rewrite <- app_assoc, <- gemini_chunks_merge.
  cbn [GeminiProvider.read_loop]. rewrite IH. reflexivity.
Qed.

Lemma gemini_chunk_without (failed : jsstring) (pre bad post : jsstring)
                           (rest : reader) :
  line_start pre -> ~ In LF bad -> GeminiProvider.handle_line bad = [] ->
  GeminiProvider.read_loop failed (Chunk (pre ++ bad ++ nl ++ post) rest) []
  = GeminiProvider.read_loop failed (Chunk (pre ++ post) rest) [].
Proof.
  intros Hpre Hbad Hskip.
  destruct (split_lines_record pre bad post Hpre Hbad) as (A & H1 & H2).
  cbn [GeminiProvider.read_loop app]. rewrite H1, H2.
  destruct (split_lines post) as [| s ss] eqn:HP;
    [exfalso; exact (split_lines_nonempty _ HP) |].
  unfold GeminiProvider.for_lines.
  rewrite (removelast_app_cons _ A (s :: ss) bad), removelast_app_cons.
  rewrite (last_app_cons _ A (s :: ss) bad), last_app_cons.
  rewrite !flat_map_app.
  change (removelast (bad :: s :: ss)) with (bad :: removelast (s :: ss)).
  change (last (bad :: s :: ss) []) with (last (s :: ss) []).
  cbn [flat_map]. rewrite Hskip. reflexivity.
Qed.

(** A line of the response that arrives in one chunk and whose text does
    not parse as JSON is skipped, and the call goes on: the callbacks of the
    call are those of the call on the same response with the line taken out.
    This holds for [chat] and [generateStream] of every adapter, wherever the
    caller aborts.  The end-of-stream sentinel of the OpenAI-compatible
    adapters is not such a line. *)
Theorem malformed_record_is_skipped
    (p : AIProvider) (h : Host) (r : Response) (c : call) (model : jsstring)
    (options : option GenerateOptions) (ac : AbortController)
    (before : list jsstring) (pre bad post : jsstring) (rest : reader) :
  line_start (List.concat before ++ pre) ->
  ~ In LF bad ->
  JSON_parse (payload p bad) = None ->
  is_sentinel p bad = false ->
  stream_call p
    (responding r (prepend before (Chunk (pre ++ bad ++ nl ++ post) rest)) h)
    c model options ac
  = stream_call p
      (responding r (prepend before (Chunk (pre ++ post) rest)) h)
      c model options ac.
Proof.
  intros Hstart Hbad Hparse Hsent.
  pose proof (line_start_tail _ _ Hstart) as Hpre.
  destruct p as [o | o | a | g | g]; cbn [payload is_sentinel] in *.
  - destruct c; cbn [stream_call chat generateStream];
      unfold OllamaProvider.chat, OllamaProvider.generateStream,
        OllamaProvider.streamRequest;
      apply (response_without nonblank); auto using ollama_skips;
      intros r1 r2 Hr; unfold OllamaProvider.http_error; now rewrite Hr.
  - destruct c; cbn [stream_call chat generateStream];
      unfold OpenAIProvider.generateStream, OpenAIProvider.chat,
        OpenAIProvider.streamChat;
      apply (response_without
               (fun line => startsWith (txt "data:") (trim line)));
      auto using openai_skips;
      intros r1 r2 Hr; unfold OpenAIProvider.http_error; now rewrite Hr.
  - destruct c; cbn [stream_call chat generateStream];
      unfold AnthropicProvider.generateStream, AnthropicProvider.chat,
        AnthropicProvider.streamChat;
      apply (response_without nonblank); auto using anthropic_skips;
      intros r1 r2 Hr; unfold AnthropicProvider.http_error; now rewrite Hr.
  - destruct c; cbn [stream_call chat generateStream];
      unfold GroqProvider.generateStream, GroqProvider.chat,
        GroqProvider.streamChat;
      apply (response_without
               (fun line => startsWith (txt "data:") (trim line)));
      auto using openai_skips;
      intros r1 r2 Hr; unfold GroqProvider.http_error; now rewrite Hr.
  - assert (Hloop : forall failed,
               GeminiProvider.read_loop failed
                 (prepend before (Chunk (pre ++ bad ++ nl ++ post) rest)) []
               = GeminiProvider.read_loop failed
                   (prepend before (Chunk (pre ++ post) rest)) []).
    { intros failed. rewrite !gemini_body_merge, !app_assoc.
      rewrite <- (app_assoc (List.concat before ++ pre) bad nl).
      rewrite <- (app_assoc (List.concat before ++ pre) (bad ++ nl) post).
      rewrite <- (app_assoc bad nl post).
      apply gemini_chunk_without; auto using gemini_skips. }
    destruct c; cbn [stream_call chat generateStream];
      unfold GeminiProvider.chat, GeminiProvider.generateStream,
        GeminiProvider.stream, fetch, responding; cbn [net];
      (destruct (negb (string_truthy _)); [reflexivity |]);
      cbn [resp_ok resp_body];
      (destruct (negb (resp_ok r)); [reflexivity |]); apply Hloop.
Qed.

Lemma malformed_record_is_skipped_witness :
  stream_call local_ollama
    (responding (ok_response EndOfBody)
       (prepend [] (Chunk (ollama_hello ++ txt "{'message':" ++ nl
                           ++ ollama_hello) EndOfBody))
       offline)
    (Chat []) (txt "llama2") None never_aborted
  = stream_call local_ollama
      (responding (ok_response EndOfBody)
         (prepend [] (Chunk (ollama_hello ++ ollama_hello) EndOfBody))
         offline)
      (Chat []) (txt "llama2") None never_aborted.
Proof.
  apply (malformed_record_is_skipped local_ollama offline
           (ok_response EndOfBody) (Chat []) (txt "llama2") None
           never_aborted [] ollama_hello (txt "{'message':") ollama_hello
           EndOfBody).
  - right. exists (txt "{'message':{'content':'Hello'}}"). reflexivity.
  - vm_compute. intuition discriminate.
  - vm_compute. reflexivity.
  - reflexivity.
Defined.

(** C6 (the Ollama, OpenAI, Anthropic and Groq adapters break it). A
    record that is not JSON is skipped when it arrives in one chunk, but the
    same record cut in two by a chunk boundary gives tokens: each chunk is
    split into lines and parsed on its own, so the two fragments, each of
    which is JSON, give the tokens [a] and [b], which the record sequence
    without the malformed record does not give.  The Gemini adapter, which
    carries the unfinished line over, skips the record however it is cut. *)
Theorem malformed_record_cut_in_two_gives_tokens :
  JSON_parse (payload local_ollama (ollama_a ++ ollama_b)) = None
  /\ JSON_parse (payload keyed_openai (openai_a ++ openai_b)) = None
  /\ JSON_parse (payload keyed_gemini (gemini_a ++ gemini_b)) = None
  /\ stream_call local_ollama
       (serving [ollama_hello ++ ollama_a ++ ollama_b ++ nl ++ ollama_hello])
       (Chat []) (txt "llama2") None never_aborted
     = stream_call local_ollama (serving [ollama_hello ++ ollama_hello])
         (Chat []) (txt "llama2") None never_aborted
  /\ stream_call local_ollama (serving [ollama_hello ++ ollama_hello])
       (Chat []) (txt "llama2") None never_aborted
     = [OnToken (JString (txt "Hello")); OnToken (JString (txt "Hello"));
        OnComplete (txt "HelloHello")]
  /\ stream_call local_ollama
       (serving [ollama_hello ++ ollama_a; ollama_b ++ nl ++ ollama_hello])
       (Chat []) (txt "llama2") None never_aborted
     = [OnToken (JString (txt "Hello")); OnToken (JString (txt "a"));
        OnToken (JString (txt "b")); OnToken (JString (txt "Hello"));
        OnComplete (txt "HelloabHello")]
  /\ stream_call keyed_openai (serving [openai_hello ++ openai_hello])
       (Chat []) (txt "gpt-4") None never_aborted
     = [OnToken (JString (txt "Hello")); OnToken (JString (txt "Hello"));
        OnComplete (txt "HelloHello")]
  /\ stream_call keyed_openai
       (serving [openai_hello ++ openai_a; openai_b ++ nl ++ openai_hello])
       (Chat []) (txt "gpt-4") None never_aborted
     = [OnToken (JString (txt "Hello")); OnToken (JString (txt "a"));
        OnToken (JString (txt "b")); OnToken (JString (txt "Hello"));
        OnComplete (txt "HelloabHello")]
  /\ stream_call keyed_gemini
       (serving [gemini_hi ++ gemini_a; gemini_b ++ nl ++ gemini_hi])
       (Chat []) (txt "gemini-pro") None never_aborted
     = stream_call keyed_gemini (serving [gemini_hi ++ gemini_hi])
         (Chat []) (txt "gemini-pro") None never_aborted.
Proof. repeat split; vm_compute; reflexivity. Qed.

(** ** What the adapters keep of the contract *)

Lemma In_only_tokens_complete (toks : list event) (s : jsstring) :
  only_tokens toks -> ~ In (OnComplete s) toks.
Proof.
  intros H Hin. unfold only_tokens in H. rewrite Forall_forall in H.
  specialize (H _ Hin). discriminate.
Qed.

(** Token accumulation in the Ollama, OpenAI, Anthropic and Groq adapters:
    the text passed to [onComplete] is the concatenation of what was passed
    to [onToken], in delivery order. *)
Theorem completes_with_streamed_text
    (p : AIProvider) (h : Host) (c : call) (model : jsstring)
    (options : option GenerateOptions) (ac : AbortController)
    (s : jsstring) :
  accumulating p = true ->
  In (OnComplete s) (stream_call p h c model options ac) ->
  s = token_text (stream_call p h c model options ac).
Proof.
  intros Hp Hin.
  assert (Hend : ended [] (stream_call p h c model options ac)).
  { apply accumulating_call_ended. intros g ->. discriminate. }
  destruct Hend as [toks Htok | toks err Htok];
    apply in_app_or in Hin as [Hin | Hin];
    try (exfalso; exact (In_only_tokens_complete toks s Htok Hin)).
  - destruct Hin as [Heq | []]. injection Heq as <-.
    rewrite token_text_app. cbn [token_text app]. now rewrite app_nil_r.
  - destruct Hin as [Heq | []]. discriminate.
Qed.

Lemma completes_with_streamed_text_witness :
  txt "Hello"
  = token_text (stream_call local_ollama (serving [ollama_hello]) (Chat [])
                            (txt "llama2") None never_aborted).
Proof.
  apply (completes_with_streamed_text local_ollama (serving [ollama_hello])
           (Chat []) (txt "llama2") None never_aborted (txt "Hello")).
  - reflexivity.
  - vm_compute. right. left. reflexivity.
Defined.

(** The carry-over buffer of the Gemini adapter: where the backend cuts the
    response into chunks does not matter, the chunks before a point may as
    well arrive as one. *)
Theorem gemini_chunk_boundaries_do_not_matter
    (g : GeminiProvider.t) (h : Host) (r : Response) (c : call)
    (model : jsstring) (options : option GenerateOptions)
    (ac : AbortController) (before : list jsstring) (text : jsstring)
    (rest : reader) :
  stream_call (Gemini g) (responding r (prepend before (Chunk text rest)) h)
              c model options ac
  = stream_call (Gemini g)
      (responding r (Chunk (List.concat before ++ text) rest) h)
      c model options ac.
Proof.
  destruct c; cbn [stream_call chat generateStream];
    unfold GeminiProvider.chat, GeminiProvider.generateStream,
      GeminiProvider.stream, fetch, responding; cbn [net];
    (destruct (negb (string_truthy _)); [reflexivity |]);
    cbn [resp_ok resp_body];
    (destruct (negb (resp_ok r)); [reflexivity |]);
    apply gemini_body_merge.
Qed.

(** *** Cancellation in the accumulating adapters *)






Section Cancellation.

Variable lines_of_chunk : jsstring -> list jsstring.
Variable handle_line : jsstring -> jsstring -> list event * jsstring * bool.

Hypothesis handle_line_accumulates :
  forall line, accumulates (handle_line line).



End Cancellation.



(** Aborted while the [fetch] is pending, such a call ends with
    [onComplete("")]; aborted after one of two records, with the text of the
    first. *)
Example abort_scenarios :
  stream_call local_ollama (serving [ollama_hello; ollama_hello]) (Chat [])
              (txt "llama2") None (aborted_in_await 0)
  = [OnComplete []]
  /\ stream_call local_ollama (serving [ollama_hello; ollama_hello])
                 (Chat []) (txt "llama2") None (aborted_in_await 2)
     = [OnToken (JString (txt "Hello")); OnComplete (txt "Hello")].
Proof. split; vm_compute; reflexivity. Qed.

(** *** Temperature *)

(** The Gemini adapter passes the temperature it is given to
    [JSON.stringify], whatever it is, and 0.7 when it is given none: the
    request carries a finite temperature as it is, zero included ([-0] as
    [0]), and [null] for NaN and the infinities. *)
Theorem gemini_sends_given_temperature
    (g : GeminiProvider.t) (messages : list AIMessage) (prompt : jsstring)
    (model : jsstring) (t : number) (mt : option number)
    (sp : option jsstring) :
  let given := Some {| temperature := Some t; maxTokens := mt;
                       systemPrompt := sp |} in
  let absent := Some {| temperature := None; maxTokens := mt;
                        systemPrompt := sp |} in
  let sent :=
    Some match t with
         | S754_nan | S754_infinity _ => JNull
         | S754_zero _ => JNumber zero
         | S754_finite _ _ _ => JNumber t
         end in
  sent_temperature (Gemini g) (chat_body (Gemini g) messages model given)
  = sent
  /\ sent_temperature (Gemini g)
       (generate_body (Gemini g) prompt (Some model) given)
     = sent
  /\ sent_temperature (Gemini g) (chat_body (Gemini g) messages model absent)
     = Some (JNumber number_0_7)
  /\ sent_temperature (Gemini g) (chat_body (Gemini g) messages model None)
     = Some (JNumber number_0_7).
Proof. destruct t; repeat split. Qed.

(** The Ollama, OpenAI and Groq adapters pass a temperature that is neither
    zero nor NaN to [JSON.stringify] as it is given: the request carries it
    when it is finite and [null] when it is an infinity.  Given no options
    they send 0.7. *)
Theorem truthy_temperature_is_sent
    (p : AIProvider) (messages : list AIMessage) (model : jsstring)
    (t : number) (mt : option number) (sp : option jsstring) :
  accumulating p = true -> (forall a, p <> Anthropic a) ->
  number_truthy t = true ->
  sent_temperature p
    (chat_body p messages model
       (Some {| temperature := Some t; maxTokens := mt;
                systemPrompt := sp |}))
  = Some match t with
         | S754_infinity _ => JNull
         | _ => JNumber t
         end
  /\ sent_temperature p (chat_body p messages model None)
     = Some (JNumber number_0_7).
Proof.
  intros Hp Ha Ht.
  destruct p as [o | o | a | g | g]; try discriminate;
    try (exfalso; eapply Ha; reflexivity);
    cbn [chat_body sent_temperature];
    unfold OllamaProvider.chat_body, OllamaProvider.request_options,
      OpenAIProvider.chat_body, GroqProvider.chat_body;
    cbn [opt_temperature temperature or_number];
    rewrite Ht; destruct t; try discriminate; destruct mt; split; reflexivity.
Qed.

Lemma truthy_temperature_is_sent_witness :
  sent_temperature keyed_openai
    (chat_body keyed_openai [] (txt "gpt-4")
       (Some {| temperature := Some (S754_infinity false); maxTokens := None;
                systemPrompt := None |}))
  = Some JNull
  /\ sent_temperature keyed_openai
       (chat_body keyed_openai [] (txt "gpt-4") None)
     = Some (JNumber number_0_7).
Proof.
  apply (truthy_temperature_is_sent keyed_openai [] (txt "gpt-4")
           (S754_infinity false) None None).
  - reflexivity.
  - discriminate.
  - reflexivity.
Defined.

(** *** The scenarios of the specification *)

(** The local adapter: two records, the second one with [done: true]. *)
Example local_adapter_scenario :
  stream_call local_ollama
    (serving [txt "{'message':{'content':'Hel'}}" ++ nl;
              txt "{'message':{'content':'lo'},'done':true}" ++ nl])
    (Chat []) (txt "llama2") None never_aborted
  = [OnToken (JString (txt "Hel")); OnToken (JString (txt "lo"));
     OnComplete (txt "Hello")].
Proof. vm_compute. reflexivity. Qed.

(** An adapter with the [[DONE]] sentinel. *)
Example sentinel_adapter_scenario :
  stream_call keyed_openai
    (serving [txt "data: {'choices':[{'delta':{'content':'Hi'}}]}" ++ nl ++ nl;
              txt "data: [DONE]" ++ nl ++ nl])
    (Chat []) (txt "gpt-4") None never_aborted
  = [OnToken (JString (txt "Hi")); OnComplete (txt "Hi")].
Proof. vm_compute. reflexivity. Qed.

(** ** Further properties of the streaming calls *)

Lemma str_eqb_eq (a b : jsstring) : str_eqb a b = true <-> a = b.
Proof.
  revert b. induction a as [| x a IH]; intros [| y b]; simpl;
    try (split; [discriminate | discriminate]); [tauto |].
  rewrite andb_true_iff, N.eqb_eq, IH. split.
  - intros [-> ->]. reflexivity.
  - intros H. injection H as -> ->. split; reflexivity.
Qed.

Lemma emit_token_truthy (token : jsval) (full : jsstring) :
  match emit_token token full with
  | Some (evs, _) => Forall token_is_truthy evs
  | None => True
  end.
Proof.
  unfold emit_token. destruct token as [t |]; [| constructor].
  destruct (truthy (Some t)) eqn:Ht; [| constructor].
  destruct (to_string t); [| exact I]. repeat constructor. exact Ht.
Qed.

Lemma on_catch_truthy (e : js_error) (full : jsstring) :
  Forall token_is_truthy (on_catch e full).
Proof.
  unfold on_catch. destruct (str_eqb _ _); repeat constructor.
Qed.

Section TruthyTokens.

Variable lines_of_chunk : jsstring -> list jsstring.
Variable handle_line : jsstring -> jsstring -> list event * jsstring * bool.

Hypothesis handle_line_truthy :
  forall line full,
    Forall token_is_truthy (fst (fst (handle_line line full))).

Lemma for_lines_truthy (lines : list jsstring) (full : jsstring) :
  Forall token_is_truthy (fst (fst (for_lines handle_line lines full))).
Proof.
  revert full. induction lines as [| line rest IH]; intros full; simpl.
  - constructor.
  - pose proof (handle_line_truthy line full) as Hl.
    destruct (handle_line line full) as [[evs full1] returned].
    destruct returned; [exact Hl |].
    specialize (IH full1).
    destruct (for_lines handle_line rest full1) as [[evs' full2] returned'].
    cbn [fst] in *. apply Forall_app. now split.
Qed.

Lemma read_loop_truthy (r : reader) (full : jsstring) :
  Forall token_is_truthy (read_loop lines_of_chunk handle_line r full).
Proof.
  revert full. induction r as [| e | text rest IH]; intros full;
    cbn [read_loop].
  - repeat constructor.
  - apply on_catch_truthy.
  - pose proof (for_lines_truthy (lines_of_chunk text) full) as Hf.
    destruct (for_lines handle_line (lines_of_chunk text) full)
      as [[evs full1] returned].
    cbn [fst] in Hf. destruct returned; [exact Hf |].
    apply Forall_app. split; [exact Hf | apply IH].
Qed.

Lemma stream_response_truthy http_error (response : result Response) :
  Forall token_is_truthy
    (stream_response lines_of_chunk handle_line http_error response).
Proof.
  unfold stream_response. destruct response as [r | e].
  - destruct (negb (resp_ok r)); [apply on_catch_truthy |].
    destruct (resp_body r); [apply read_loop_truthy | apply on_catch_truthy].
  - apply on_catch_truthy.
Qed.

End TruthyTokens.

Lemma ollama_handle_line_truthy (isChat : bool) (line full : jsstring) :
  Forall token_is_truthy
    (fst (fst (OllamaProvider.handle_line isChat line full))).
Proof.
  unfold OllamaProvider.handle_line.
  destruct (JSON_parse line) as [json |]; [| constructor].
  destruct (OllamaProvider.token_of isChat json) as [token |];
    [| constructor].
  pose proof (emit_token_truthy token full) as He.
  destruct (emit_token token full) as [[evs full'] |]; [| constructor].
  destruct (truthy (get (txt "done") json)); cbn [fst] in *; [| exact He].
  apply Forall_app. split; [exact He | repeat constructor].
Qed.

Lemma openai_handle_line_truthy (line full : jsstring) :
  Forall token_is_truthy (fst (fst (OpenAIProvider.handle_line line full))).
Proof.
  unfold OpenAIProvider.handle_line.
  destruct (str_eqb _ _); [repeat constructor |].
  destruct (JSON_parse _) as [json |]; [| constructor].
  destruct (OpenAIProvider.token_of json) as [token |]; [| constructor].
  pose proof (emit_token_truthy token full) as He.
  destruct (emit_token token full) as [[evs full'] |];
    [exact He | constructor].
Qed.

Lemma anthropic_handle_line_truthy (line full : jsstring) :
  Forall token_is_truthy
    (fst (fst (AnthropicProvider.handle_line line full))).
Proof.
  unfold AnthropicProvider.handle_line.
  destruct (negb (startsWith _ _)); [constructor |].
  destruct (_ || _); [constructor |].
  destruct (JSON_parse _) as [json |]; [| constructor].
  destruct (member (txt "type") json) as [type |]; [| constructor].
  destruct (is_string (txt "content_block_delta") type).
  - pose proof (emit_token_truthy
                  (opt_member (txt "text") (get (txt "delta") json)) full)
      as He.
    destruct (emit_token _ full) as [[evs full'] |]; [| constructor].
    destruct (is_string (txt "message_stop") type); cbn [fst] in *;
      [| exact He].
    apply Forall_app. split; [exact He | repeat constructor].
  - destruct (is_string (txt "message_stop") type); repeat constructor.
Qed.

Lemma gemini_handle_line_truthy (raw : jsstring) :
  Forall token_is_truthy (GeminiProvider.handle_line raw).
Proof.
  unfold GeminiProvider.handle_line.
  destruct (startsWith _ _); [| constructor].
  destruct (JSON_parse _) as [json |]; [| constructor].
  destruct (GeminiProvider.text_of json) as [[text |] |]; try constructor.
  destruct (truthy (Some text)) eqn:Ht; repeat constructor. exact Ht.
Qed.

Lemma gemini_read_loop_truthy (failed : jsstring) (r : reader)
                              (buffer : jsstring) :
  Forall token_is_truthy (GeminiProvider.read_loop failed r buffer).
Proof.
  revert buffer. induction r as [| e | text rest IH]; intros buffer;
    cbn [GeminiProvider.read_loop]; try (repeat constructor).
  apply Forall_app. split; [| apply IH].
  unfold GeminiProvider.for_lines.
  induction (removelast (split_lines (buffer ++ text))) as [| l ls IHl];
    cbn [flat_map]; [constructor |].
  apply Forall_app. split; [apply gemini_handle_line_truthy | exact IHl].
Qed.

(** No empty delta is delivered: whatever the backend sends, every value
    passed to [onToken] by [chat] and [generateStream] of the five adapters
    is truthy, so never the empty string. *)
Theorem tokens_are_never_empty
    (p : AIProvider) (h : Host) (c : call) (model : jsstring)
    (options : option GenerateOptions) (ac : AbortController) :
  Forall token_is_truthy (stream_call p h c model options ac).
Proof.
  destruct p as [o | o | a | g | g]; destruct c as [messages | prompt];
    cbn [stream_call chat generateStream];
    unfold OllamaProvider.chat, OllamaProvider.generateStream,
      OllamaProvider.streamRequest,
      OpenAIProvider.generateStream, OpenAIProvider.chat,
      OpenAIProvider.streamChat,
      AnthropicProvider.generateStream, AnthropicProvider.chat,
      AnthropicProvider.streamChat,
      GroqProvider.generateStream, GroqProvider.chat, GroqProvider.streamChat,
      GeminiProvider.chat, GeminiProvider.generateStream;
    try (apply stream_response_truthy;
         first [ apply ollama_handle_line_truthy
               | apply openai_handle_line_truthy
               | apply anthropic_handle_line_truthy ]);
    unfold GeminiProvider.stream;
    (destruct (negb (string_truthy _)); [repeat constructor |]);
    (destruct (fetch _ _ None) as [response | e]; [| repeat constructor]);
    (destruct (negb (resp_ok response)); [repeat constructor |]);
    (destruct (resp_body response);
     [apply gemini_read_loop_truthy | repeat constructor]).
Qed.

(** *** A record that ends the stream *)

Lemma last_split_lines_start (pre : jsstring) :
  line_start pre -> last (split_lines pre) [] = [].
Proof.
  intros [-> | [p0 ->]]; [reflexivity |].
  unfold nl. rewrite split_lines_app_lf. cbn [split_lines].
  destruct (split_lines p0) as [| s ss] eqn:E;
    [exfalso; exact (split_lines_nonempty _ E) |].
  rewrite (last_app_cons _ (s :: ss) [] []). reflexivity.
Qed.

(** The lines of a text that follows a line start. *)
Lemma split_lines_after_start (pre x : jsstring) :
  line_start pre ->
  split_lines (pre ++ x) = removelast (split_lines pre) ++ split_lines x.
Proof.
  intros Hpre. rewrite split_lines_app, (last_split_lines_start pre Hpre).
  reflexivity.
Qed.

Lemma split_lines_line (line post : jsstring) :
  ~ In LF line ->
  split_lines (line ++ nl ++ post) = line :: split_lines post.
Proof.
  intros H. cbn [nl app]. rewrite split_lines_app_lf.
  rewrite (split_lines_no_lf line H). reflexivity.
Qed.

Section FinalRecord.

Variable keep : jsstring -> bool.
Variable handle_line : jsstring -> jsstring -> list event * jsstring * bool.
Variable final : jsstring.

Hypothesis final_is_kept : keep final = true.
Hypothesis final_returns : forall full, snd (handle_line final full) = true.

Let lines_of_chunk (chunk : jsstring) : list jsstring :=
  filter keep (split_lines chunk).

(** The loop over the lines returns at the record at the latest: the lines
    after it play no part. *)
Lemma for_lines_until (l1 l2 : list jsstring) (full : jsstring) :
  for_lines handle_line (l1 ++ final :: l2) full
  = for_lines handle_line (l1 ++ [final]) full
  /\ snd (for_lines handle_line (l1 ++ [final]) full) = true.
Proof.
  revert full. induction l1 as [| l l1 IH]; intros full; cbn [app for_lines].
  - pose proof (final_returns full) as Hr.
    destruct (handle_line final full) as [[evs full1] returned].
    cbn [snd] in Hr. subst returned. split; reflexivity.
  - destruct (handle_line l full) as [[evs full1] returned].
    destruct returned; [split; reflexivity |].
    destruct (IH full1) as [Heq Hret]. rewrite Heq.
    destruct (for_lines handle_line (l1 ++ [final]) full1)
      as [[evs' full2] returned'].
    split; [reflexivity | exact Hret].
Qed.

Lemma chunk_until (pre post : jsstring) (rest rest' : reader)
                  (full : jsstring) :
  line_start pre -> ~ In LF final ->
  read_loop lines_of_chunk handle_line
            (Chunk (pre ++ final ++ nl ++ post) rest) full
  = read_loop lines_of_chunk handle_line
              (Chunk (pre ++ final ++ nl) rest') full.
Proof.
  intros Hpre Hfinal. cbn [read_loop]. unfold lines_of_chunk.
  rewrite <- (app_nil_r (pre ++ final ++ nl)), <- !app_assoc.
  rewrite !(split_lines_after_start pre _ Hpre).
  rewrite !(split_lines_line final _ Hfinal), !filter_app.
  cbn [filter]. rewrite final_is_kept.
  destruct (for_lines_until (filter keep (removelast (split_lines pre)))
              (filter keep (split_lines post)) full) as [H1 Hret].
  destruct (for_lines_until (filter keep (removelast (split_lines pre)))
              (filter keep (split_lines [])) full) as [H2 _].
  rewrite H1, H2.
  destruct (for_lines handle_line
              (filter keep (removelast (split_lines pre)) ++ [final]) full)
    as [[evs full1] returned].
  cbn [snd] in Hret. subst returned. reflexivity.
Qed.

Lemma body_until (before : list jsstring) (pre post : jsstring)
                 (rest rest' : reader) (full : jsstring) :
  line_start pre -> ~ In LF final ->
  read_loop lines_of_chunk handle_line
            (prepend before (Chunk (pre ++ final ++ nl ++ post) rest)) full
  = read_loop lines_of_chunk handle_line
              (prepend before (Chunk (pre ++ final ++ nl) rest')) full.
Proof.
  intros Hpre Hfinal. revert full.
  induction before as [| c cs IH]; intros full.
  - now apply chunk_until.
  - cbn [prepend read_loop].
    destruct (for_lines handle_line (lines_of_chunk c) full)
      as [[evs full1] returned].
    destruct returned; [reflexivity |]. rewrite IH. reflexivity.
Qed.

Lemma aborted_body_until (k : nat) (before : list jsstring)
                         (pre post : jsstring) (rest rest' : reader)
                         (full : jsstring) :
  line_start pre -> ~ In LF final ->
  read_loop lines_of_chunk handle_line
    (abort_reader k
       (prepend before (Chunk (pre ++ final ++ nl ++ post) rest))) full
  = read_loop lines_of_chunk handle_line
      (abort_reader k (prepend before (Chunk (pre ++ final ++ nl) rest')))
      full.
Proof.
  intros Hpre Hfinal. revert k full.
  induction before as [| c cs IH]; intros [| k] full; try reflexivity.
  - cbn [prepend abort_reader]. now apply chunk_until.
  - cbn [prepend abort_reader read_loop].
    destruct (for_lines handle_line (lines_of_chunk c) full)
      as [[evs full1] returned].
    destruct returned; [reflexivity |]. rewrite IH. reflexivity.
Qed.

Lemma response_until (http_error : Response -> jsstring) (r : Response)
                     (h : Host) (req : Request) (ac : AbortController)
                     (before : list jsstring) (pre post : jsstring)
                     (rest : reader) :
  (forall r1 r2, resp_status r1 = resp_status r2 ->
                 http_error r1 = http_error r2) ->
  line_start pre -> ~ In LF final ->
  stream_response lines_of_chunk handle_line http_error
    (fetch (net (responding r
                   (prepend before (Chunk (pre ++ final ++ nl ++ post) rest))
                   h))
           req (Some ac))
  = stream_response lines_of_chunk handle_line http_error
      (fetch (net (responding r
                     (prepend before (Chunk (pre ++ final ++ nl) EndOfBody))
                     h))
             req (Some ac)).
Proof.
  intros Hhttp Hpre Hfinal. unfold fetch, responding. cbn [net].
  destruct (aborted_at ac) as [[| k] |]; [reflexivity | |];
    unfold stream_response; cbn [resp_ok resp_body option_map];
    (destruct (negb (resp_ok r));
     [f_equal; f_equal; apply Hhttp; reflexivity |]).
  - now apply aborted_body_until.
  - now apply body_until.
Qed.

End FinalRecord.

Lemma emit_token_throws_always (token : jsval) (full full' : jsstring) :
  emit_token token full = None -> emit_token token full' = None.
Proof.
  unfold emit_token. destruct token as [t |]; [| discriminate].
  destruct (truthy (Some t)); [| discriminate].
  destruct (to_string t); [discriminate | reflexivity].
Qed.

Lemma ollama_returns (isChat : bool) (line : jsstring) (json : json)
                     (token : jsval) :
  JSON_parse line = Some json ->
  OllamaProvider.token_of isChat json = Some token ->
  emit_token token [] <> None ->
  truthy (get (txt "done") json) = true ->
  forall full, snd (OllamaProvider.handle_line isChat line full) = true.
Proof.
  intros Hp Ht He Hd full. unfold OllamaProvider.handle_line.
  rewrite Hp, Ht.
  destruct (emit_token token full) as [[evs full'] |] eqn:Hemit.
  - rewrite Hd. reflexivity.
  - destruct He. apply (emit_token_throws_always token full [] Hemit).
Qed.

Lemma openai_returns (line : jsstring) :
  str_eqb (OpenAIProvider.data_of line) (txt "[DONE]") = true ->
  forall full, snd (OpenAIProvider.handle_line line full) = true.
Proof.
  intros H full. unfold OpenAIProvider.handle_line. rewrite H. reflexivity.
Qed.

Lemma anthropic_returns (line : jsstring) (json : json) (type : jsval) :
  startsWith (txt "data:") line = true ->
  JSON_parse (AnthropicProvider.data_of line) = Some json ->
  member (txt "type") json = Some type ->
  is_string (txt "message_stop") type = true ->
  forall full, snd (AnthropicProvider.handle_line line full) = true.
Proof.
  intros Hs Hp Ht Hm full. unfold AnthropicProvider.handle_line.
  rewrite Hs. cbn [negb].
  assert (Hdata : negb (string_truthy (AnthropicProvider.data_of line))
                  || str_eqb (AnthropicProvider.data_of line) (txt "[DONE]")
                  = false).
  { apply orb_false_iff. split.
    - destruct (AnthropicProvider.data_of line); [discriminate | reflexivity].
    - destruct (str_eqb _ _) eqn:E; [| reflexivity].
      apply str_eqb_eq in E. rewrite E in Hp. vm_compute in Hp.
      discriminate. }
  rewrite Hdata, Hp, Ht, Hm.
  assert (Hdelta : is_string (txt "content_block_delta") type = false).
  { unfold is_string in *. destruct type as [[| | | s | |] |];
      try discriminate.
    apply str_eqb_eq in Hm. subst s. reflexivity. }
  rewrite Hdelta. reflexivity.
Qed.

(** The stream stops at its terminal record: in the Ollama, OpenAI,
    Anthropic and Groq adapters, nothing that follows a record that ends the
    stream (the rest of its chunk, the later chunks, a failing read) has any
    effect on the callbacks of [chat] and [generateStream]. *)
Theorem nothing_is_read_after_the_final_record
    (p : AIProvider) (h : Host) (r : Response) (c : call) (model : jsstring)
    (options : option GenerateOptions) (ac : AbortController)
    (before : list jsstring) (pre final post : jsstring) (rest : reader) :
  line_start pre ->
  ~ In LF final ->
  ends_stream p c final ->
  stream_call p
    (responding r (prepend before (Chunk (pre ++ final ++ nl ++ post) rest))
                h)
    c model options ac
  = stream_call p
      (responding r (prepend before (Chunk (pre ++ final ++ nl) EndOfBody)) h)
      c model options ac.
Proof.
  intros Hpre Hfinal Hend.
  destruct p as [o | o | a | g | g]; cbn [ends_stream] in Hend;
    [| | | | destruct Hend].
  - destruct Hend as (Hkeep & json & token & Hp & Ht & He & Hd).
    destruct c; cbn [stream_call chat generateStream is_chat] in *;
      unfold OllamaProvider.chat, OllamaProvider.generateStream,
        OllamaProvider.streamRequest;
      apply (response_until nonblank); auto;
      try (intros r1 r2 Hr; unfold OllamaProvider.http_error; now rewrite Hr);
      eapply ollama_returns; eauto.
  - destruct Hend as (Hkeep & Hdone).
    destruct c; cbn [stream_call chat generateStream];
      unfold OpenAIProvider.generateStream, OpenAIProvider.chat,
        OpenAIProvider.streamChat;
      apply (response_until
               (fun line => startsWith (txt "data:") (trim line)));
      auto using openai_returns;
      intros r1 r2 Hr; unfold OpenAIProvider.http_error; now rewrite Hr.
  - destruct Hend as (Hkeep & Hs & json & type & Hp & Ht & Hm).
    destruct c; cbn [stream_call chat generateStream];
      unfold AnthropicProvider.generateStream, AnthropicProvider.chat,
        AnthropicProvider.streamChat;
      apply (response_until nonblank); auto;
      try (intros r1 r2 Hr; unfold AnthropicProvider.http_error;
           now rewrite Hr);
      eapply anthropic_returns; eauto.
  - destruct Hend as (Hkeep & Hdone).
    destruct c; cbn [stream_call chat generateStream];
      unfold GroqProvider.generateStream, GroqProvider.chat,
        GroqProvider.streamChat;
      apply (response_until
               (fun line => startsWith (txt "data:") (trim line)));
      auto using openai_returns;
      intros r1 r2 Hr; unfold GroqProvider.http_error; now rewrite Hr.
Qed.

Lemma nothing_is_read_after_the_final_record_witness :
  stream_call keyed_openai
    (responding (ok_response EndOfBody)
       (prepend [openai_hello]
          (Chunk ([] ++ txt "data: [DONE]" ++ nl ++ openai_hello)
                 (ReadFails TypeError)))
       offline)
    (Chat []) (txt "gpt-4") None never_aborted
  = stream_call keyed_openai
      (responding (ok_response EndOfBody)
         (prepend [openai_hello]
            (Chunk ([] ++ txt "data: [DONE]" ++ nl) EndOfBody))
         offline)
      (Chat []) (txt "gpt-4") None never_aborted
  /\ stream_call local_ollama
       (responding (ok_response EndOfBody)
          (prepend [ollama_hello]
             (Chunk ([] ++ txt "{'message':{'content':'!'},'done':true}"
                     ++ nl ++ ollama_hello)
                    (ReadFails TypeError)))
          offline)
       (Chat []) (txt "llama2") None never_aborted
     = stream_call local_ollama
         (responding (ok_response EndOfBody)
            (prepend [ollama_hello]
               (Chunk ([] ++ txt "{'message':{'content':'!'},'done':true}"
                       ++ nl)
                      EndOfBody))
            offline)
         (Chat []) (txt "llama2") None never_aborted.
Proof.
  split.
  - apply (nothing_is_read_after_the_final_record keyed_openai offline
             (ok_response EndOfBody) (Chat []) (txt "gpt-4") None
             never_aborted [openai_hello] [] (txt "data: [DONE]")
             openai_hello (ReadFails TypeError)).
    + left. reflexivity.
    + vm_compute. intuition discriminate.
    + split; vm_compute; reflexivity.
  - apply (nothing_is_read_after_the_final_record local_ollama offline
             (ok_response EndOfBody) (Chat []) (txt "llama2") None
             never_aborted [ollama_hello] []
             (txt "{'message':{'content':'!'},'done':true}")
             ollama_hello (ReadFails TypeError)).
    + left. reflexivity.
    + vm_compute. intuition discriminate.
    + split; [vm_compute; reflexivity |].
      eexists. eexists.
      split; [vm_compute; reflexivity |].
      split; [vm_compute; reflexivity |].
      split; [vm_compute; discriminate | vm_compute; reflexivity].
Defined.

(** A record whose token cannot be appended to the text is skipped as a
    whole, its [done] included: the records that follow are still read. *)
Example unprintable_done_record_is_skipped :
  stream_call local_ollama
    (serving [ollama_unprintable_done ++ ollama_hello])
    (Chat []) (txt "llama2") None never_aborted
  = [OnToken (JString (txt "Hello")); OnComplete (txt "Hello")].
Proof. vm_compute. reflexivity. Qed.

(** *** What the Gemini adapter leaves in its buffer *)

Lemma last_split_lines_no_lf (s : jsstring) :
  ~ In LF (last (split_lines s) []).
Proof.
  induction s as [| c s IH]; [intros [] |].
  cbn [split_lines]. destruct (N.eqb c LF) eqn:Hc.
  - destruct (split_lines s) as [| seg segs] eqn:E;
      [exfalso; exact (split_lines_nonempty _ E) |].
    exact IH.
  - destruct (split_lines s) as [| seg segs] eqn:E;
      [exfalso; exact (split_lines_nonempty _ E) |].
    destruct segs as [| seg' segs']; [| exact IH].
    cbn [last] in *. intros [Heq | Hin]; [| exact (IH Hin)].
    subst c. rewrite N.eqb_refl in Hc. discriminate.
Qed.

Lemma gemini_tail_dropped (failed : jsstring) (chunks : list jsstring)
                          (tail buffer : jsstring) :
  ~ In LF buffer -> ~ In LF tail ->
  GeminiProvider.read_loop failed (prepend (chunks ++ [tail]) EndOfBody)
                           buffer
  = GeminiProvider.read_loop failed (prepend chunks EndOfBody) buffer.
Proof.
  intros Hb Ht. revert buffer Hb.
  induction chunks as [| c cs IH]; intros buffer Hb;
    cbn [app prepend GeminiProvider.read_loop].
  - rewrite (split_lines_no_lf (buffer ++ tail)); [reflexivity |].
    intros Hin. apply in_app_or in Hin. tauto.
  - rewrite IH; [reflexivity | apply last_split_lines_no_lf].
Qed.

(** The Gemini adapter parses complete lines only, and what is left in its
    buffer when the body ends is discarded: text that follows the last line
    feed of the response, such as a last record without its newline, gives
    no callback. *)
Theorem gemini_discards_unterminated_tail
    (g : GeminiProvider.t) (h : Host) (r : Response) (c : call)
    (model : jsstring) (options : option GenerateOptions)
    (ac : AbortController) (chunks : list jsstring) (tail : jsstring) :
  ~ In LF tail ->
  stream_call (Gemini g)
    (responding r (prepend (chunks ++ [tail]) EndOfBody) h)
    c model options ac
  = stream_call (Gemini g) (responding r (prepend chunks EndOfBody) h)
      c model options ac.
Proof.
  intros Ht.
  destruct c; cbn [stream_call chat generateStream];
    unfold GeminiProvider.chat, GeminiProvider.generateStream,
      GeminiProvider.stream, fetch, responding; cbn [net];
    (destruct (negb (string_truthy _)); [reflexivity |]);
    cbn [resp_ok resp_body];
    (destruct (negb (resp_ok r)); [reflexivity |]);
    apply gemini_tail_dropped; auto.
Qed.

Lemma gemini_discards_unterminated_tail_witness :
  stream_call keyed_gemini
    (responding (ok_response EndOfBody)
       (prepend ([gemini_hi]
                 ++ [txt "data: {'candidates':[{'content':{'parts':[{'text':'!'}]}}]}"])
                EndOfBody)
       offline)
    (Chat []) (txt "gemini-pro") None never_aborted
  = stream_call keyed_gemini
      (responding (ok_response EndOfBody) (prepend [gemini_hi] EndOfBody)
                  offline)
      (Chat []) (txt "gemini-pro") None never_aborted.
Proof.
  apply (gemini_discards_unterminated_tail
           (GeminiProvider.setApiKey GeminiProvider.new (txt "AIza")) offline
           (ok_response EndOfBody) (Chat []) (txt "gemini-pro") None
           never_aborted [gemini_hi]
           (txt "data: {'candidates':[{'content':{'parts':[{'text':'!'}]}}]}")).
  vm_compute. intuition discriminate.
Defined.

(** *** Failures of the request *)

(** A response that is not ok is reported at once: the call makes one
    callback, [onError], whose message carries the status (the status text
    in the Gemini adapter), unless the caller aborted while the [fetch] was
    pending. *)
Theorem http_error_is_reported
    (p : AIProvider) (h : Host) (r : Response) (body : reader) (c : call)
    (model : jsstring) (options : option GenerateOptions)
    (ac : AbortController) :
  resp_ok r = false ->
  aborted_at ac <> Some 0 ->
  sends_request p ->
  stream_call p (responding r body h) c model options ac
  = [OnError (Error (http_failure_message p r))].
Proof.
  intros Hok Hab Hkey.
  destruct p as [o | o | a | g | g]; destruct c as [messages | prompt];
    cbn [stream_call chat generateStream http_failure_message sends_request]
      in *;
    unfold OllamaProvider.chat, OllamaProvider.generateStream,
      OllamaProvider.streamRequest,
      OpenAIProvider.generateStream, OpenAIProvider.chat,
      OpenAIProvider.streamChat,
      AnthropicProvider.generateStream, AnthropicProvider.chat,
      AnthropicProvider.streamChat,
      GroqProvider.generateStream, GroqProvider.chat, GroqProvider.streamChat,
      GeminiProvider.chat, GeminiProvider.generateStream,
      GeminiProvider.stream, stream_response, fetch, responding;
    cbn [net];
    try (apply string_truthy_iff in Hkey; rewrite Hkey; cbn [negb]);
    try (destruct (aborted_at ac) as [[| k] |]; [congruence | |]);
    cbn [resp_ok resp_status resp_statusText]; rewrite Hok; reflexivity.
Qed.

Lemma http_error_is_reported_witness :
  stream_call keyed_openai
    (responding {| resp_ok := false; resp_status := 401;
                   resp_statusText := txt "Unauthorized";
                   resp_body := None; resp_json := Throw SyntaxError |}
                EndOfBody offline)
    (Chat []) (txt "gpt-4") None never_aborted
  = [OnError (Error (txt "OpenAI API error: 401"))].
Proof.
  apply (http_error_is_reported keyed_openai offline
           {| resp_ok := false; resp_status := 401;
              resp_statusText := txt "Unauthorized";
              resp_body := None; resp_json := Throw SyntaxError |}
           EndOfBody (Chat []) (txt "gpt-4") None never_aborted).
  - reflexivity.
  - discriminate.
  - exact I.
Defined.

(** A rejected [fetch] is reported at once with one callback.  The Ollama,
    OpenAI, Anthropic and Groq adapters pass the error itself to [onError]
    (and call [onComplete("")] for an [AbortError]); the Gemini adapter
    passes a new error whose message is prefixed with the name of the
    operation. *)
Theorem rejected_request_is_reported
    (p : AIProvider) (h : Host) (e : js_error) (c : call) (model : jsstring)
    (options : option GenerateOptions) (ac : AbortController) :
  aborted_at ac <> Some 0 ->
  sends_request p ->
  stream_call p (rejecting e h) c model options ac
  = [rejection_callback p c e].
Proof.
  intros Hab Hkey.
  destruct p as [o | o | a | g | g]; destruct c as [messages | prompt];
    cbn [stream_call chat generateStream rejection_callback sends_request
         is_chat] in *;
    unfold OllamaProvider.chat, OllamaProvider.generateStream,
      OllamaProvider.streamRequest,
      OpenAIProvider.generateStream, OpenAIProvider.chat,
      OpenAIProvider.streamChat,
      AnthropicProvider.generateStream, AnthropicProvider.chat,
      AnthropicProvider.streamChat,
      GroqProvider.generateStream, GroqProvider.chat, GroqProvider.streamChat,
      GeminiProvider.chat, GeminiProvider.generateStream,
      GeminiProvider.stream, stream_response, fetch, rejecting, on_catch;
    cbn [net];
    try (apply string_truthy_iff in Hkey; rewrite Hkey; cbn [negb]);
    try (destruct (aborted_at ac) as [[| k] |]; [congruence | |]);
    try reflexivity;
    destruct (str_eqb (error_name e) (txt "AbortError")); reflexivity.
Qed.

Lemma rejected_request_is_reported_witness :
  stream_call local_ollama (rejecting TypeError offline) (Chat [])
              (txt "llama2") None never_aborted
  = [rejection_callback local_ollama (Chat []) TypeError].
Proof.
  apply (rejected_request_is_reported local_ollama offline TypeError
           (Chat []) (txt "llama2") None never_aborted).
  - discriminate.
  - exact I.
Defined.

(** ** One-shot generation *)

Lemma error_is_not_abort :
  str_eqb (txt "Error") (txt "AbortError") = false.
Proof. reflexivity. Qed.

(** [generate] of the hosted adapters fails when its request does: a
    response that is not ok makes it throw an error whose message carries the
    status (the status text, behind a prefix, in the Gemini adapter), and a
    rejected [fetch] makes it throw the error of the rejection (a new error
    with a prefixed message in the Gemini adapter). *)
Theorem generate_reports_request_failure
    (p : AIProvider) (h : Host) (r : Response) (body : reader)
    (e : js_error) (prompt model : jsstring)
    (options : option GenerateOptions) :
  hosted p -> sends_request p ->
  (resp_ok r = false ->
   generate p (responding r body h) prompt model options
   = Throw (Error (generate_failure_message p r)))
  /\ generate p (rejecting e h) prompt model options
     = Throw (generate_rejection p e).
Proof.
  intros Hh Hkey.
  destruct p as [o | o | a | g | g]; [destruct Hh | | | |];
    cbn [generate generate_failure_message generate_rejection
         http_failure_message sends_request] in *;
    unfold OpenAIProvider.generate, AnthropicProvider.generate,
      GroqProvider.generate, GeminiProvider.generate, fetch, responding,
      rejecting; cbn [net];
    try (apply string_truthy_iff in Hkey; rewrite Hkey; cbn [negb]);
    (split; [intros Hok; cbn [resp_ok resp_statusText]; rewrite Hok |]);
    reflexivity.
Qed.

Lemma generate_reports_request_failure_witness :
  generate keyed_gemini (responding too_many_requests EndOfBody offline)
           (txt "Hi") (txt "gemini-pro") None
  = Throw (Error (txt "Gemini generation failed: "
                  ++ txt "Gemini API error: " ++ txt "Too Many Requests"))
  /\ generate keyed_gemini (rejecting TypeError offline) (txt "Hi")
              (txt "gemini-pro") None
     = Throw (generate_rejection keyed_gemini TypeError).
Proof.
  destruct (generate_reports_request_failure keyed_gemini offline
              too_many_requests EndOfBody TypeError (txt "Hi")
              (txt "gemini-pro") None)
    as [Hstatus Hrejected].
  - exact I.
  - discriminate.
  - split; [apply Hstatus; reflexivity | exact Hrejected].
Defined.

Lemma or_empty_shape (v : jsval) (fallback : jsstring) (w : jsval) :
  Some (if truthy v then v else str fallback) = Some w ->
  exists j, w = Some j /\ (truthy w = true \/ j = JString fallback).
Proof.
  intros H. assert (Hw : w = if truthy v then v else str fallback)
    by congruence.
  clear H. subst w. destruct (truthy v) eqn:Hv.
  - destruct v as [j |]; [| discriminate]. exists j. split; [| left]; auto.
  - exists (JString fallback). split; [reflexivity | now right].
Qed.

(** What [generate] of a hosted adapter returns is never [undefined] nor
    [null]: it is a truthy value of the response or, when the response has
    none where the adapter looks, the empty string. The Gemini adapter
    returns the text [No response] in that case, so never an empty text. *)
Theorem generate_returns_text_or_fallback
    (p : AIProvider) (h : Host) (prompt model : jsstring)
    (options : option GenerateOptions) (v : jsval) :
  hosted p ->
  generate p h prompt model options = Ok v ->
  exists j,
    v = Some j
    /\ (truthy v = true \/ (j = JString [] /\ forall g, p <> Gemini g)).
Proof.
  intros Hh.
  destruct p as [o | o | a | g | g]; [destruct Hh | | | |];
    cbn [generate];
    unfold OpenAIProvider.generate, AnthropicProvider.generate,
      GroqProvider.generate, GeminiProvider.generate, try_catch;
    try (destruct (negb (string_truthy _)); [discriminate |]);
    (destruct (fetch _ _ None) as [response | e]; [| discriminate]);
    (destruct (negb (resp_ok response)); [discriminate |]);
    (destruct (resp_json response) as [data | e]; [| discriminate]);
    unfold OpenAIProvider.generated_text, AnthropicProvider.generated_text,
      GeminiProvider.generated_text;
    (destruct (member _ data) as [found |]; [| discriminate]);
    cbv zeta; intros H;
    assert (H' := f_equal (fun r => match r with Ok x => Some x
                                              | Throw _ => None end) H);
    cbv beta iota in H'; apply or_empty_shape in H';
    destruct H' as (j & Hj & [Ht | He]); exists j; (split; [exact Hj |]);
    try (left; exact Ht).
  - right. split; [exact He | discriminate].
  - right. split; [exact He | discriminate].
  - right. split; [exact He | discriminate].
  - left. rewrite Hj, He. reflexivity.
Qed.

Lemma generate_returns_text_or_fallback_witness :
  exists j,
    str [] = Some j
    /\ (truthy (str []) = true
        \/ (j = JString [] /\ forall g, keyed_openai <> Gemini g)).
Proof.
  apply (generate_returns_text_or_fallback keyed_openai
           (responding {| resp_ok := true; resp_status := 200;
                          resp_statusText := txt "OK"; resp_body := None;
                          resp_json := Ok (JObject []) |}
                       EndOfBody offline)
           (txt "Hi") (txt "gpt-4") None (str [])).
  - exact I.
  - reflexivity.
Defined.

(** The errors of [generate] of the Gemini adapter: without API key it
    throws before any request, whatever the backend; every error it throws
    is a plain [Error] whose message is either that of the missing key or
    starts with [Gemini generation failed: ]. *)
Theorem gemini_generate_errors
    (g : GeminiProvider.t) (h : Host) (prompt model : jsstring)
    (options : option GenerateOptions) (e : js_error) :
  (GeminiProvider.apiKey g = [] ->
   generate (Gemini g) h prompt model options
   = Throw (Error (txt "Gemini API key not configured")))
  /\ (generate (Gemini g) h prompt model options = Throw e ->
      error_name e = txt "Error"
      /\ (error_message e = txt "Gemini API key not configured"
          \/ exists m,
               error_message e = txt "Gemini generation failed: " ++ m)).
Proof.
  cbn [generate]. unfold GeminiProvider.generate. split.
  - intros ->. reflexivity.
  - destruct (negb (string_truthy _)).
    + intros H. assert (He : e = Error (txt "Gemini API key not configured"))
        by congruence.
      subst e. split; [reflexivity | now left].
    + unfold try_catch.
      assert (Hwrapped : forall e0,
                 @Throw jsval (Error (txt "Gemini generation failed: "
                                      ++ error_message e0)) = Throw e ->
                 error_name e = txt "Error"
                 /\ (error_message e = txt "Gemini API key not configured"
                     \/ exists m,
                          error_message e
                          = txt "Gemini generation failed: " ++ m)).
      { intros e0 H.
        assert (He : e = Error (txt "Gemini generation failed: "
                                ++ error_message e0)) by congruence.
        subst e. split; [reflexivity | right].
        exists (error_message e0). reflexivity. }
      destruct (fetch _ _ None) as [response | e0]; [| apply Hwrapped].
      destruct (negb (resp_ok response)); [apply Hwrapped |].
      destruct (resp_json response) as [data | e1]; [| apply Hwrapped].
      destruct (GeminiProvider.generated_text data);
        [discriminate | apply Hwrapped].
Qed.

Lemma gemini_generate_errors_witness :
  generate (Gemini GeminiProvider.new) offline (txt "Hi")
           (txt "gemini-pro") None
  = Throw (Error (txt "Gemini API key not configured"))
  /\ error_name (generate_rejection keyed_gemini TypeError) = txt "Error"
  /\ (error_message (generate_rejection keyed_gemini TypeError)
      = txt "Gemini API key not configured"
      \/ exists m,
           error_message (generate_rejection keyed_gemini TypeError)
           = txt "Gemini generation failed: " ++ m).
Proof.
  split.
  - apply (proj1 (gemini_generate_errors GeminiProvider.new offline
                    (txt "Hi") (txt "gemini-pro") None TypeError)).
    reflexivity.
  - apply (proj2 (gemini_generate_errors
                    (GeminiProvider.setApiKey GeminiProvider.new (txt "AIza"))
                    offline (txt "Hi") (txt "gemini-pro") None
                    (generate_rejection keyed_gemini TypeError))).
    reflexivity.
Defined.

(** ** The states of the manager *)

Ltac key_cases c :=
  destruct (openai_apiKey (openai c)) as [| k1 s1] eqn:Hopenai;
  destruct (apiKey (anthropic c)) as [| k2 s2] eqn:Hanthropic;
  destruct (apiKey (groq c)) as [| k3 s3] eqn:Hgroq;
  destruct (apiKey (gemini c)) as [| k4 s4] eqn:Hgemini.

(** What [initializeProviders] leaves in an emptied registry. *)
Lemma initializeProviders_entries (c : ProviderConfig) (active : jsstring) :
  providers (initializeProviders
               {| providers := []; config := c; activeProviderId := active |})
  = (txt "ollama",
     Ollama (OllamaProvider.new (Some (ollama_url (ollama c)))
                                (Some (ollama_defaultModel (ollama c)))))
    :: (if string_truthy (openai_apiKey (openai c))
        then [(txt "openai",
               OpenAI (OpenAIProvider.new
                         (Some (openai_apiKey (openai c)))
                         (Some (openai_defaultModel (openai c)))
                         (openai_baseUrl (openai c))))]
        else [])
    ++ (if string_truthy (apiKey (anthropic c))
        then [(txt "anthropic",
               Anthropic (AnthropicProvider.new
                            (Some (apiKey (anthropic c)))
                            (Some (defaultModel (anthropic c)))))]
        else [])
    ++ (if string_truthy (apiKey (groq c))
        then [(txt "groq",
               Groq (GroqProvider.new (Some (apiKey (groq c)))
                                      (Some (defaultModel (groq c)))))]
        else [])
    ++ (if string_truthy (apiKey (gemini c))
        then [(txt "gemini",
               Gemini (GeminiProvider.setApiKey GeminiProvider.new
                                                (apiKey (gemini c))))]
        else []).
Proof.
  unfold initializeProviders. cbn [config].
  destruct (string_truthy (openai_apiKey (openai c)));
    destruct (string_truthy (apiKey (anthropic c)));
    destruct (string_truthy (apiKey (groq c)));
    destruct (string_truthy (apiKey (gemini c)));
    reflexivity.
Qed.

Lemma initializeProviders_fields (m : ProviderManager.t) :
  config (initializeProviders m) = config m
  /\ activeProviderId (initializeProviders m) = activeProviderId m.
Proof.
  unfold initializeProviders.
  destruct (string_truthy (openai_apiKey (openai (config m))));
    destruct (string_truthy (apiKey (anthropic (config m))));
    destruct (string_truthy (apiKey (groq (config m))));
    destruct (string_truthy (apiKey (gemini (config m))));
    split; reflexivity.
Qed.

(** The registry of a manager is the one its configuration gives: the
    registry and the configuration never get out of step. *)
Lemma reachable_registry (m : ProviderManager.t) :
  reachable m ->
  providers m
  = providers (initializeProviders
                 {| providers := []; config := config m;
                    activeProviderId := txt "ollama" |}).
Proof.
  induction 1 as [c | m c _ _ | m i _ IH].
  - unfold ProviderManager.new.
    rewrite (proj1 (initializeProviders_fields _)). reflexivity.
  - unfold updateConfig.
    rewrite (proj1 (initializeProviders_fields _)). cbn [config].
    rewrite !initializeProviders_entries. reflexivity.
  - unfold setActiveProvider.
    destruct (map_has i (providers m)); [cbn [providers config] |]; exact IH.
Qed.

Lemma vendor_key_cases (c : ProviderConfig) (i : jsstring) (p : AIProvider) :
  map_get i (providers (initializeProviders
                          {| providers := []; config := c;
                             activeProviderId := txt "ollama" |}))
  = Some p ->
  id p = i /\ constructed_from c p.
Proof.
  rewrite initializeProviders_entries.
  key_cases c; cbn [string_truthy app map_get];
    repeat (destruct (str_eqb _ i) eqn:E;
            [apply str_eqb_eq in E; subst i; intros H; injection H as <-;
             cbn [id constructed_from];
             rewrite ?Hopenai, ?Hanthropic, ?Hgroq, ?Hgemini;
             repeat split; (reflexivity || discriminate) | clear E]);
    discriminate.
Qed.


Lemma map_get_values (i : jsstring) (p : AIProvider) (l : provider_map) :
  map_get i l = Some p -> In p (map snd l).
Proof.
  induction l as [| [k v] l IH]; cbn [map_get map snd In];
    [discriminate |].
  destruct (str_eqb k i); [intros H; injection H as ->; now left |].
  intros H. right. exact (IH H).
Qed.

Lemma values_of_registry (c : ProviderConfig) (p : AIProvider) :
  In p (map snd (providers (initializeProviders
                              {| providers := []; config := c;
                                 activeProviderId := txt "ollama" |}))) ->
  constructed_from c p.
Proof.
  rewrite initializeProviders_entries.
  key_cases c; cbn [string_truthy app map snd In];
    intros H;
    repeat (destruct H as [<- | H];
            [cbn [constructed_from];
             rewrite ?Hopenai, ?Hanthropic, ?Hgroq, ?Hgemini;
             repeat split; (reflexivity || discriminate) |]);
    destruct H.
Qed.



(** [getAvailableProviderIds] answers with the identifiers of the registered
    adapters, in the order of [getAllProviders]: those of the five vendors
    that are registered, [ollama] first, whatever the order in which keys were
    configured. *)
Theorem registered_ids_are_in_vendor_order (m : ProviderManager.t) :
  reachable m ->
  getAvailableProviderIds m = map id (getAllProviders m)
  /\ getAvailableProviderIds m
     = filter (fun k => map_has k (providers m)) vendor_ids.
Proof.
  intros Hm. unfold getAvailableProviderIds, getAllProviders.
  rewrite (reachable_registry m Hm), initializeProviders_entries.
  key_cases (config m); split; reflexivity.
Qed.

Lemma registered_ids_are_in_vendor_order_witness :
  getAvailableProviderIds openai_withdrawn
  = map id (getAllProviders openai_withdrawn)
  /\ getAvailableProviderIds openai_withdrawn
     = filter (fun k => map_has k (providers openai_withdrawn)) vendor_ids.
Proof.
  apply (registered_ids_are_in_vendor_order openai_withdrawn).
  apply reach_updateConfig, reach_setActiveProvider, reach_new.
Defined.

Lemma registered_key_is_vendor (c : ProviderConfig) (i : jsstring) :
  map_has i (providers (initializeProviders
                          {| providers := []; config := c;
                             activeProviderId := txt "ollama" |}))
  = true ->
  In i vendor_ids.
Proof.
  unfold map_has.
  destruct (map_get i _) as [p |] eqn:Hget; [| discriminate].
  intros _. destruct (vendor_key_cases _ _ _ Hget) as [<- _].
  unfold vendor_ids.
  destruct p; cbn [id In]; auto 6.
Qed.

Lemma reachable_active_id (m : ProviderManager.t) :
  reachable m -> In (activeProviderId m) vendor_ids.
Proof.
  induction 1 as [c | m c Hm IH | m i Hm IH].
  - unfold ProviderManager.new.
    rewrite (proj2 (initializeProviders_fields _)). now left.
  - unfold updateConfig.
    rewrite (proj2 (initializeProviders_fields _)). exact IH.
  - unfold setActiveProvider.
    destruct (map_has i (providers m)) eqn:Hhas; [| exact IH].
    cbn [activeProviderId]. rewrite (reachable_registry m Hm) in Hhas.
    apply (registered_key_is_vendor _ _ Hhas).
Qed.

Lemma ollama_is_registered (c : ProviderConfig) :
  map_get (txt "ollama")
          (providers (initializeProviders
                        {| providers := []; config := c;
                           activeProviderId := txt "ollama" |}))
  = Some (Ollama (OllamaProvider.new (Some (ollama_url (ollama c)))
                                     (Some (ollama_defaultModel (ollama c))))).
Proof. rewrite initializeProviders_entries. reflexivity. Qed.

(** [getActiveProvider] always answers with a registered adapter, although
    the active identifier can be stale: [updateConfig] keeps it when the new
    configuration no longer registers that vendor.  The answer is the adapter
    registered under the active identifier or, when there is none, the local
    adapter, while [getActiveProviderId] still names the other vendor.  The
    active identifier is always one of the five vendors. *)
Theorem active_provider_is_always_defined (m : ProviderManager.t) :
  reachable m ->
  In (getActiveProviderId m) vendor_ids
  /\ exists p,
       getActiveProvider m = Some p
       /\ In p (getAllProviders m)
       /\ (id p = getActiveProviderId m
           \/ (getProvider m (getActiveProviderId m) = None
               /\ id p = txt "ollama")).
Proof.
  intros Hm. split; [apply reachable_active_id, Hm |].
  pose proof (reachable_registry m Hm) as Hreg.
  unfold getActiveProvider, getProvider, getAllProviders,
    getActiveProviderId.
  rewrite Hreg.
  destruct (map_get (activeProviderId m) _) as [p |] eqn:Hget.
  - exists p. split; [reflexivity |]. split.
    + eapply map_get_values. exact Hget.
    + left. apply (vendor_key_cases _ _ _ Hget).
  - rewrite ollama_is_registered. eexists. split; [reflexivity |]. split.
    + eapply map_get_values. apply ollama_is_registered.
    + right. split; reflexivity.
Qed.

Lemma active_provider_is_always_defined_witness :
  In (getActiveProviderId openai_withdrawn) vendor_ids
  /\ exists p,
       getActiveProvider openai_withdrawn = Some p
       /\ In p (getAllProviders openai_withdrawn)
       /\ (id p = getActiveProviderId openai_withdrawn
           \/ (getProvider openai_withdrawn
                           (getActiveProviderId openai_withdrawn) = None
               /\ id p = txt "ollama")).
Proof.
  apply (active_provider_is_always_defined openai_withdrawn).
  apply reach_updateConfig, reach_setActiveProvider, reach_new.
Defined.

(** The stale case happens: after the key of the active vendor is removed
    from the configuration, the active identifier names a vendor that has
    no adapter. *)
Lemma active_id_can_be_stale :
  reachable openai_withdrawn
  /\ getActiveProviderId openai_withdrawn = txt "openai"
  /\ getProvider openai_withdrawn (txt "openai") = None
  /\ getActiveProvider openai_withdrawn = Some local_ollama.
Proof.
  split; [apply reach_updateConfig, reach_setActiveProvider, reach_new |].
  repeat split.
Qed.

Lemma hosted_available (c : ProviderConfig) (p : AIProvider) (h : Host) :
  constructed_from c p -> hosted p -> isAvailable p h = Ok true.
Proof.
  destruct p as [o | o | a | g | g]; cbn [constructed_from hosted isAvailable];
    [intros _ [] | | | |]; intros [Hk ->] _;
    [destruct (openai_apiKey (openai c)) | destruct (apiKey (anthropic c))
     | destruct (apiKey (groq c)) | destruct (apiKey (gemini c))];
    try (now destruct Hk); reflexivity.
Qed.

Lemma available_among_hosted (c : ProviderConfig) (h : Host)
                             (ps : list AIProvider) :
  Forall (fun p => constructed_from c p /\ hosted p) ps ->
  available_among ps h = Ok ps.
Proof.
  induction 1 as [| p ps [Hc Hh] _ IH]; cbn [available_among];
    [reflexivity |].
  rewrite (hosted_available c p h Hc Hh), IH. reflexivity.
Qed.

(** [getAvailableProviders] never throws and drops nothing but the local
    adapter: the first registered adapter is the local one, which is kept
    exactly when its endpoint answers the request of [isAvailable] with the
    status 200; the others are hosted adapters, which are registered only
    with a key and so all answer [isAvailable] with [true]. *)
Theorem getAvailableProviders_drops_only_ollama
    (m : ProviderManager.t) (h : Host) :
  reachable m ->
  exists o rest up,
    getAllProviders m = Ollama o :: rest
    /\ Forall hosted rest
    /\ (forall p, In p rest -> isAvailable p h = Ok true)
    /\ isAvailable (Ollama o) h = Ok up
    /\ getAvailableProviders m h
       = Ok (if up then Ollama o :: rest else rest).
Proof.
  intros Hm. unfold getAvailableProviders, getAllProviders.
  rewrite (reachable_registry m Hm), initializeProviders_entries.
  set (c := config m).
  cbn [map snd].
  set (o := OllamaProvider.new (Some (ollama_url (ollama c)))
                               (Some (ollama_defaultModel (ollama c)))).
  match goal with
  | |- context [Ollama o :: map snd ?l] => set (rest := map snd l)
  end.
  assert (Hrest : Forall (fun p => constructed_from c p /\ hosted p) rest).
  { subst rest. key_cases c; cbn [string_truthy app map snd];
      repeat (constructor;
              [cbn [constructed_from hosted];
               rewrite ?Hopenai, ?Hanthropic, ?Hgroq, ?Hgemini;
               repeat split; (reflexivity || discriminate) |]);
      constructor. }
  assert (Hup : exists up, isAvailable (Ollama o) h = Ok up).
  { cbn [isAvailable]. unfold OllamaProvider.isAvailable, try_catch.
    destruct (url_net h _); eauto. }
  destruct Hup as [up Hup].
  exists o, rest, up. split; [reflexivity |]. split; [| split; [| split]].
  - eapply Forall_impl; [| exact Hrest]. intros p [_ Hh]. exact Hh.
  - intros p Hp. rewrite Forall_forall in Hrest.
    destruct (Hrest p Hp) as [Hc Hh]. exact (hosted_available c p h Hc Hh).
  - exact Hup.
  - cbn [available_among]. rewrite Hup.
    rewrite (available_among_hosted c h rest Hrest). reflexivity.
Qed.

Lemma getAvailableProviders_drops_only_ollama_witness :
  exists o rest up,
    getAllProviders (ProviderManager.new (Some openai_configured))
    = Ollama o :: rest
    /\ Forall hosted rest
    /\ (forall p, In p rest -> isAvailable p offline = Ok true)
    /\ isAvailable (Ollama o) offline = Ok up
    /\ getAvailableProviders (ProviderManager.new (Some openai_configured))
                             offline
       = Ok (if up then Ollama o :: rest else rest).
Proof.
  apply (getAvailableProviders_drops_only_ollama
           (ProviderManager.new (Some openai_configured)) offline).
  apply reach_new.
Defined.



Lemma models_after_failure (c : ProviderConfig) (p : AIProvider) (h : Host) :
  constructed_from c p ->
  models_request_fails p h ->
  exists l, getModels p h = Ok l /\ l <> [].
Proof.
  assert (Hne : forall l : list jsval,
             l <> [] -> forall r, r = Ok l ->
             exists l', r = Ok l' /\ l' <> []) by (intros; eauto).
  destruct p as [o | o | a | g | g];
    cbn [constructed_from models_request_fails getModels].
  - intros _ [[e He] | (r & Hr & Hp)];
      unfold OllamaProvider.getModels; rewrite ?He, ?Hr, ?Hp;
      (eapply Hne; [| reflexivity]); discriminate.
  - intros [Hk ->] Hfail. unfold OpenAIProvider.getModels.
    replace (OpenAIProvider.apiKey _) with (openai_apiKey (openai c))
      by reflexivity.
    apply string_truthy_iff in Hk. rewrite Hk. cbn [negb]. unfold fetch.
    destruct Hfail as [[e He] | (r & Hr & [Hok | [e He]])];
      rewrite ?He, ?Hr, ?Hok; rewrite ?He;
      try destruct (negb (resp_ok r));
      (eapply Hne; [| reflexivity]); discriminate.
  - intros _ _. eapply Hne; [| reflexivity]. discriminate.
  - intros [Hk ->] Hfail. unfold GroqProvider.getModels.
    replace (GroqProvider.apiKey _) with (apiKey (groq c)) by reflexivity.
    apply string_truthy_iff in Hk. rewrite Hk. cbn [negb]. unfold fetch.
    destruct Hfail as [[e He] | (r & Hr & [Hok | [e He]])];
      rewrite ?He, ?Hr, ?Hok; rewrite ?He;
      try destruct (negb (resp_ok r));
      (eapply Hne; [| reflexivity]); discriminate.
  - intros _ _. eapply Hne; [| reflexivity]. discriminate.
Qed.

(** Through the manager [getModels] has a list to show whenever the
    request for the models fails: a hosted adapter is registered only with
    a key, so the empty list of the adapters without key cannot come from a
    registered adapter whose request failed, and the active provider is a
    registered one. *)
Theorem registered_adapter_lists_models_after_failure
    (m : ProviderManager.t) (p : AIProvider) (h : Host) :
  reachable m ->
  In p (getAllProviders m) \/ getActiveProvider m = Some p ->
  models_request_fails p h ->
  exists l, getModels p h = Ok l /\ l <> [].
Proof.
  intros Hm Hp Hfail.
  apply (models_after_failure (config m)); [| exact Hfail].
  pose proof (reachable_registry m Hm) as Hreg.
  assert (Hin : In p (getAllProviders m)).
  { destruct Hp as [Hp | Hp]; [exact Hp |].
    unfold getActiveProvider in Hp. unfold getAllProviders.
    destruct (map_get (activeProviderId m) (providers m)) as [q |] eqn:Hget.
    - injection Hp as <-. eapply map_get_values. exact Hget.
    - eapply map_get_values. exact Hp. }
  unfold getAllProviders in Hin. rewrite Hreg in Hin.
  apply values_of_registry. exact Hin.
Qed.

Lemma registered_adapter_lists_models_after_failure_witness :
  exists l, getModels keyed_openai offline = Ok l /\ l <> [].
Proof.
  apply (registered_adapter_lists_models_after_failure
           (setActiveProvider (ProviderManager.new (Some openai_configured))
                              (txt "openai"))
           keyed_openai offline).
  - apply reach_setActiveProvider, reach_new.
  - right. reflexivity.
  - left. eexists. reflexivity.
Defined.

(** ** The chat view *)

Lemma reachable_has_active (m : ProviderManager.t) :
  reachable m -> exists p, getActiveProvider m = Some p.
Proof.
  intros Hm. unfold getActiveProvider.
  destruct (map_get (activeProviderId m) (providers m)); [eauto |].
  rewrite (reachable_registry m Hm), ollama_is_registered. eauto.
Qed.

(** The callbacks of a [chat] call: tokens, then the end. *)
Lemma chat_outcome (p : AIProvider) (h : Host) (msgs : list AIMessage)
                   (model : jsstring) (options : option GenerateOptions)
                   (ac : AbortController) :
  exists toks last,
    chat p h msgs model options ac = toks ++ [last]
    /\ only_tokens toks
    /\ (last = OnComplete (if accumulating p then token_text toks else [])
        \/ exists err, last = OnError err).
Proof.
  destruct (accumulating p) eqn:Hacc.
  - assert (Hp : forall g, p <> Gemini g)
      by (intros g ->; discriminate).
    pose proof (accumulating_call_ended p h (Chat msgs) model options ac Hp)
      as Hended.
    cbn [stream_call] in Hended.
    destruct Hended as [toks Htoks | toks err Htoks];
      exists toks; eexists; (split; [reflexivity |]); split; auto.
    right. eauto.
  - destruct p as [o | o | a | g | g]; try discriminate.
    destruct (gemini_call_shape g h (Chat msgs) model options ac)
      as (toks & last & Heq & Htoks & Hlast).
    cbn [stream_call] in Heq. exists toks, last. auto.
Qed.

Lemma update_last_snoc (f : ChatView.ChatMessage -> ChatView.ChatMessage)
                       (l : list ChatView.ChatMessage)
                       (a : ChatView.ChatMessage) :
  ChatView.update_last f (l ++ [a]) = l ++ [f a].
Proof.
  induction l as [| x l IH]; [reflexivity |].
  cbn [app ChatView.update_last]. rewrite IH.
  destruct l; reflexivity.
Qed.

Lemma tokens_are_appended (v : ChatView.t)
                          (before : list ChatView.ChatMessage)
                          (now : nat -> N) (toks : list event) :
  only_tokens toks ->
  forall c,
    fold_left ChatView.deliver toks (writing v before now c)
    = writing v before now (c ++ token_text toks).
Proof.
  induction 1 as [| e toks He _ IH]; intros c; cbn [fold_left token_text].
  - now rewrite app_nil_r.
  - destruct e as [t | full | err]; try discriminate.
    cbn [ChatView.deliver]. unfold ChatView.onToken, appended.
    destruct (to_string t) as [s |]; [| rewrite IH; reflexivity].
    unfold ChatView.with_messages.
    replace (ChatView.messages (writing v before now c))
      with (before
            ++ [{| ChatView.msg_id := decimal (now 2%nat + 1);
                   ChatView.msg_role := assistant;
                   ChatView.msg_content := c;
                   ChatView.msg_timestamp := now 3%nat;
                   ChatView.attachedNote := None;
                   ChatView.isStreaming := Some true;
                   ChatView.error := None |}]) by reflexivity.
    rewrite update_last_snoc.
    cbn [ChatView.msg_id ChatView.msg_role ChatView.msg_content
         ChatView.msg_timestamp ChatView.attachedNote ChatView.isStreaming
         ChatView.error].
    change (fold_left ChatView.deliver toks
              (writing v before now (c ++ s))
            = writing v before now (c ++ s ++ token_text toks)).
    rewrite IH, app_assoc. reflexivity.
Qed.

Lemma end_is_written (v : ChatView.t) (before : list ChatView.ChatMessage)
                     (now : nat -> N) (c : jsstring) (last : event) :
  is_terminal last = true ->
  ChatView.deliver (writing v before now c) last
  = written v before now
      (match last with OnComplete full => full | _ => c end)
      (match last with OnError e => Some (error_message e) | _ => None end).
Proof.
  destruct last as [t | full | err]; [discriminate | |]; intros _;
    cbn [ChatView.deliver];
    unfold ChatView.onComplete, ChatView.onError, ChatView.finishGeneration,
      ChatView.with_messages, writing, written;
    cbn [ChatView.messages ChatView.settings ChatView.providerManager
         ChatView.model ChatView.view_attachedNote ChatView.isGenerating
         ChatView.saved];
    rewrite update_last_snoc; reflexivity.
Qed.

Lemma sendMessage_sends (v : ChatView.t) (input : jsstring)
                        (now : nat -> N) :
  ChatView.isGenerating v = false ->
  trim input <> [] ->
  ChatView.sendMessage v input now
  = (writing v (ChatView.messages v
                ++ [ChatView.userMessage v (trim input) now]) now [],
     Some (ChatView.history v input now)).
Proof.
  intros Hgen Htext. unfold ChatView.sendMessage.
  apply string_truthy_iff in Htext. rewrite Htext, Hgen. cbn [negb orb].
  rewrite removelast_last. reflexivity.
Qed.

(** What a turn leaves: the callbacks of the call and the state of the
    view after them. *)
Lemma turn_outcome (v : ChatView.t) (h : Host) (input : jsstring)
                   (now : nat -> N) (ac : AbortController)
                   (p : AIProvider) :
  ChatView.isGenerating v = false ->
  trim input <> [] ->
  getActiveProvider (ChatView.providerManager v) = Some p ->
  exists toks last,
    chat p h (ChatView.history v input now) (ChatView.model v)
         (ChatView.chat_options (ChatView.settings v)) ac
    = toks ++ [last]
    /\ only_tokens toks
    /\ (last = OnComplete (if accumulating p then token_text toks else [])
        \/ exists err, last = OnError err)
    /\ ChatView.turn v h input now ac
       = written v
           (ChatView.messages v
            ++ [ChatView.userMessage v (trim input) now])
           now
           (match last with
            | OnComplete full => full
            | _ => token_text toks
            end)
           (match last with
            | OnError e => Some (error_message e)
            | _ => None
            end).
Proof.
  intros Hgen Htext Hp.
  destruct (chat_outcome p h (ChatView.history v input now)
              (ChatView.model v)
              (ChatView.chat_options (ChatView.settings v)) ac)
    as (toks & last & Heq & Htoks & Hlast).
  exists toks, last. repeat (split; [assumption |]).
  unfold ChatView.turn. rewrite (sendMessage_sends v input now Hgen Htext).
  unfold ChatView.answer.
  replace (ChatView.providerManager (writing _ _ _ _))
    with (ChatView.providerManager v) by reflexivity.
  replace (ChatView.model (writing _ _ _ _))
    with (ChatView.model v) by reflexivity.
  replace (ChatView.settings (writing _ _ _ _))
    with (ChatView.settings v) by reflexivity.
  rewrite Hp, Heq, fold_left_app. cbn [fold_left].
  rewrite (tokens_are_appended v _ now toks Htoks), app_nil_l.
  apply end_is_written.
  destruct Hlast as [-> | [err ->]]; reflexivity.
Qed.



Lemma token_text_ended (toks : list event) (last : event) :
  is_terminal last = true -> token_text (toks ++ [last]) = token_text toks.
Proof.
  intros Hlast. rewrite token_text_app.
  destruct last; [discriminate | |]; apply app_nil_r.
Qed.

(** *** The tokens the accumulating adapters deliver *)

Lemma emit_token_converts (token : jsval) (full : jsstring) :
  match emit_token token full with
  | Some (evs, _) => Forall token_converts evs
  | None => True
  end.
Proof.
  unfold emit_token. destruct token as [t |]; [| constructor].
  destruct (truthy (Some t)); [| constructor].
  destruct (to_string t) as [s |] eqn:Hs; [| exact I].
  repeat constructor. cbn [token_converts]. rewrite Hs. discriminate.
Qed.

Lemma on_catch_converts (e : js_error) (full : jsstring) :
  Forall token_converts (on_catch e full).
Proof.
  unfold on_catch. destruct (str_eqb _ _); repeat constructor.
Qed.

Section ConvertibleTokens.

Variable lines_of_chunk : jsstring -> list jsstring.
Variable handle_line : jsstring -> jsstring -> list event * jsstring * bool.

Hypothesis handle_line_converts :
  forall line full,
    Forall token_converts (fst (fst (handle_line line full))).

Lemma for_lines_converts (lines : list jsstring) (full : jsstring) :
  Forall token_converts (fst (fst (for_lines handle_line lines full))).
Proof.
  revert full. induction lines as [| line rest IH]; intros full; simpl.
  - constructor.
  - pose proof (handle_line_converts line full) as Hl.
    destruct (handle_line line full) as [[evs full1] returned].
    destruct returned; [exact Hl |].
    specialize (IH full1).
    destruct (for_lines handle_line rest full1) as [[evs' full2] returned'].
    cbn [fst] in *. apply Forall_app. now split.
Qed.

Lemma read_loop_converts (r : reader) (full : jsstring) :
  Forall token_converts (read_loop lines_of_chunk handle_line r full).
Proof.
  revert full. induction r as [| e | text rest IH]; intros full;
    cbn [read_loop].
  - repeat constructor.
  - apply on_catch_converts.
  - pose proof (for_lines_converts (lines_of_chunk text) full) as Hf.
    destruct (for_lines handle_line (lines_of_chunk text) full)
      as [[evs full1] returned].
    cbn [fst] in Hf. destruct returned; [exact Hf |].
    apply Forall_app. split; [exact Hf | apply IH].
Qed.

Lemma stream_response_converts http_error (response : result Response) :
  Forall token_converts
    (stream_response lines_of_chunk handle_line http_error response).
Proof.
  unfold stream_response. destruct response as [r | e].
  - destruct (negb (resp_ok r)); [apply on_catch_converts |].
    destruct (resp_body r);
      [apply read_loop_converts | apply on_catch_converts].
  - apply on_catch_converts.
Qed.

End ConvertibleTokens.

Lemma ollama_handle_line_converts (isChat : bool) (line full : jsstring) :
  Forall token_converts
    (fst (fst (OllamaProvider.handle_line isChat line full))).
Proof.
  unfold OllamaProvider.handle_line.
  destruct (JSON_parse line) as [json |]; [| constructor].
  destruct (OllamaProvider.token_of isChat json) as [token |];
    [| constructor].
  pose proof (emit_token_converts token full) as He.
  destruct (emit_token token full) as [[evs full'] |]; [| constructor].
  destruct (truthy (get (txt "done") json)); cbn [fst] in *; [| exact He].
  apply Forall_app. split; [exact He | repeat constructor].
Qed.

Lemma openai_handle_line_converts (line full : jsstring) :
  Forall token_converts (fst (fst (OpenAIProvider.handle_line line full))).
Proof.
  unfold OpenAIProvider.handle_line.
  destruct (str_eqb _ _); [repeat constructor |].
  destruct (JSON_parse _) as [json |]; [| constructor].
  destruct (OpenAIProvider.token_of json) as [token |]; [| constructor].
  pose proof (emit_token_converts token full) as He.
  destruct (emit_token token full) as [[evs full'] |];
    [exact He | constructor].
Qed.

Lemma anthropic_handle_line_converts (line full : jsstring) :
  Forall token_converts
    (fst (fst (AnthropicProvider.handle_line line full))).
Proof.
  unfold AnthropicProvider.handle_line.
  destruct (negb (startsWith _ _)); [constructor |].
  destruct (_ || _); [constructor |].
  destruct (JSON_parse _) as [json |]; [| constructor].
  destruct (member (txt "type") json) as [type |]; [| constructor].
  destruct (is_string (txt "content_block_delta") type).
  - pose proof (emit_token_converts
                  (opt_member (txt "text") (get (txt "delta") json)) full)
      as He.
    destruct (emit_token _ full) as [[evs full'] |]; [| constructor].
    destruct (is_string (txt "message_stop") type); cbn [fst] in *;
      [| exact He].
    apply Forall_app. split; [exact He | repeat constructor].
  - destruct (is_string (txt "message_stop") type); repeat constructor.
Qed.

(** Every token the Ollama, OpenAI, Anthropic and Groq adapters deliver is
    one they have appended to their text before, so a callback that appends
    it to a text of its own does not throw. *)
Lemma accumulating_tokens_convert (p : AIProvider) (h : Host) (c : call)
                                  (model : jsstring)
                                  (options : option GenerateOptions)
                                  (ac : AbortController) :
  accumulating p = true ->
  Forall token_converts (stream_call p h c model options ac).
Proof.
  intros Hp.
  destruct p as [o | o | a | g | g]; try discriminate;
    destruct c as [messages | prompt];
    cbn [stream_call chat generateStream];
    unfold OllamaProvider.chat, OllamaProvider.generateStream,
      OllamaProvider.streamRequest,
      OpenAIProvider.generateStream, OpenAIProvider.chat,
      OpenAIProvider.streamChat,
      AnthropicProvider.generateStream, AnthropicProvider.chat,
      AnthropicProvider.streamChat,
      GroqProvider.generateStream, GroqProvider.chat, GroqProvider.streamChat;
    apply stream_response_converts;
    first [ apply ollama_handle_line_converts
          | apply openai_handle_line_converts
          | apply anthropic_handle_line_converts ].
Qed.

(** The text the session keeps for an answer is what the [onToken]
    callbacks have appended, unless [onComplete] has replaced it.  With an
    adapter that accumulates the response every delivered token can be
    appended, and the text kept is the text of the tokens, also when the call
    ended with an error or was cancelled.  With the Gemini adapter a call
    that completes leaves the empty text, whatever tokens were shown, because
    [onComplete] replaces the content by its argument; a call that fails
    keeps the tokens that could be appended (the callback throws on a token
    that cannot, inside the adapter's [try], and appends nothing). *)
Theorem answer_kept_by_the_session
    (v : ChatView.t) (h : Host) (input : jsstring) (now : nat -> N)
    (ac : AbortController) (p : AIProvider) :
  ChatView.isGenerating v = false ->
  trim input <> [] ->
  getActiveProvider (ChatView.providerManager v) = Some p ->
  exists a,
    ChatView.messages (ChatView.turn v h input now ac)
    = ChatView.messages v ++ [ChatView.userMessage v (trim input) now; a]
    /\ (accumulating p = true \/ ChatView.error a <> None ->
        ChatView.msg_content a
        = token_text
            (chat p h (ChatView.history v input now) (ChatView.model v)
                  (ChatView.chat_options (ChatView.settings v)) ac))
    /\ (accumulating p = false -> ChatView.error a = None ->
        ChatView.msg_content a = [])
    /\ (accumulating p = true ->
        Forall token_converts
          (chat p h (ChatView.history v input now) (ChatView.model v)
                (ChatView.chat_options (ChatView.settings v)) ac)).
Proof.
  intros Hgen Htext Hp.
  destruct (turn_outcome v h input now ac p Hgen Htext Hp)
    as (toks & last & Htrace & Htoks & Hlast & ->).
  unfold written. cbn [ChatView.messages].
  eexists. rewrite <- app_assoc. cbn [app].
  split; [reflexivity |].
  cbn [ChatView.msg_content ChatView.error].
  split; [| split].
  - rewrite Htrace.
    destruct Hlast as [-> | [err ->]];
      (rewrite token_text_ended; [| reflexivity]).
    + intros [Hacc | Herr]; [now rewrite Hacc | now destruct Herr].
    + reflexivity.
  - destruct Hlast as [-> | [err ->]]; [| discriminate].
    intros Hacc _. now rewrite Hacc.
  - intros Hacc.
    apply (accumulating_tokens_convert p h
             (Chat (ChatView.history v input now)) (ChatView.model v)
             (ChatView.chat_options (ChatView.settings v)) ac Hacc).
Qed.

(** A Gemini answer that streams [Hi] and completes is kept as the empty
    text; one that streams an object that cannot be appended and then fails
    is kept as the empty text too, with the error. *)
Lemma answer_kept_by_the_session_witness :
  (exists a,
      ChatView.messages
        (ChatView.turn gemini_view (serving [gemini_hi]) (txt "Hi") clock
                       never_aborted)
      = ChatView.messages gemini_view
        ++ [ChatView.userMessage gemini_view (trim (txt "Hi")) clock; a]
      /\ ChatView.msg_content a = []
      /\ token_text
           (chat keyed_gemini (serving [gemini_hi])
                 (ChatView.history gemini_view (txt "Hi") clock)
                 (ChatView.model gemini_view)
                 (ChatView.chat_options (ChatView.settings gemini_view))
                 never_aborted)
         = txt "Hi")
  /\ (exists a,
         ChatView.messages
           (ChatView.turn gemini_view
              (responding (ok_response EndOfBody)
                 (Chunk gemini_unprintable (ReadFails TypeError)) offline)
              (txt "Hi") clock never_aborted)
         = ChatView.messages gemini_view
           ++ [ChatView.userMessage gemini_view (trim (txt "Hi")) clock; a]
         /\ ChatView.error a <> None
         /\ ChatView.msg_content a = []
         /\ chat keyed_gemini
              (responding (ok_response EndOfBody)
                 (Chunk gemini_unprintable (ReadFails TypeError)) offline)
              (ChatView.history gemini_view (txt "Hi") clock)
              (ChatView.model gemini_view)
              (ChatView.chat_options (ChatView.settings gemini_view))
              never_aborted
            = [OnToken (JObject [(txt "toString", JNumber number_1)]);
               OnError (Error (txt "Gemini chat failed: "))]).
Proof.
  split.
  - destruct (answer_kept_by_the_session gemini_view (serving [gemini_hi])
                (txt "Hi") clock never_aborted keyed_gemini)
      as (a & Hmessages & _ & Hgemini & _).
    + reflexivity.
    + discriminate.
    + reflexivity.
    + exists a. split; [exact Hmessages |].
      split; [| vm_compute; reflexivity].
      apply Hgemini; [reflexivity |].
      vm_compute in Hmessages. injection Hmessages as <-. reflexivity.
  - destruct (answer_kept_by_the_session gemini_view
                (responding (ok_response EndOfBody)
                   (Chunk gemini_unprintable (ReadFails TypeError)) offline)
                (txt "Hi") clock never_aborted keyed_gemini)
      as (a & Hmessages & Hkept & _ & _).
    + reflexivity.
    + discriminate.
    + reflexivity.
    + assert (Herror : ChatView.error a <> None).
      { vm_compute in Hmessages. injection Hmessages as <-. discriminate. }
      exists a. split; [exact Hmessages |]. split; [exact Herror |].
      split; [| vm_compute; reflexivity].
      rewrite (Hkept (or_intror Herror)). vm_compute. reflexivity.
Defined.

Lemma rounds_snoc (n : nat) :
  ChatView.rounds n ++ [user; assistant] = ChatView.rounds (S n).
Proof.
  induction n as [| n IH]; [reflexivity |].
  cbn [ChatView.rounds app] in *. now rewrite IH.
Qed.

Lemma sent_roles (l : list ChatView.ChatMessage) :
  map role (map ChatView.sent_message l) = map ChatView.msg_role l.
Proof. rewrite map_map. apply map_ext. reflexivity. Qed.

(** Between generations the view is settled, and every turn leaves it so:
    nothing is being generated, no message is left streaming, and the
    session holds whole rounds of a user message followed by an assistant
    message.  So what a turn sends to the provider is a number of such rounds
    followed by the new user message.  A blank input, or an input while a
    generation runs, changes nothing. *)
Theorem view_stays_settled
    (v : ChatView.t) (h : Host) (input : jsstring) (now : nat -> N)
    (ac : AbortController) :
  reachable (ChatView.providerManager v) ->
  ChatView.settled v ->
  ChatView.settled (ChatView.turn v h input now ac)
  /\ reachable (ChatView.providerManager (ChatView.turn v h input now ac))
  /\ (trim input = [] -> ChatView.turn v h input now ac = v)
  /\ (trim input <> [] ->
      exists n,
        map role (ChatView.history v input now)
        = ChatView.rounds n ++ [user]).
Proof.
  intros Hm (Hgen & [n Hn] & Hstr).
  destruct (trim input) as [| x text] eqn:Htext.
  - assert (Hsame : ChatView.turn v h input now ac = v).
    { unfold ChatView.turn, ChatView.sendMessage. now rewrite Htext. }
    rewrite Hsame. split; [| split; [| split]]; auto.
    + split; [| split]; eauto.
    + intros Hne. now destruct Hne.
  - assert (Hne : trim input <> []) by (rewrite Htext; discriminate).
    destruct (reachable_has_active _ Hm) as [p Hp].
    destruct (turn_outcome v h input now ac p Hgen Hne Hp)
      as (toks & last & _ & _ & _ & ->).
    rewrite Htext. unfold written.
    split; [| split; [| split]].
    + split; [reflexivity | split];
        cbn [ChatView.messages].
      * exists (S n). rewrite !map_app, Hn, <- app_assoc.
        cbn [map app ChatView.msg_role ChatView.userMessage].
        apply rounds_snoc.
      * rewrite !Forall_app. split; [split; [exact Hstr |] |];
          constructor; try constructor; discriminate.
    + exact Hm.
    + discriminate.
    + intros _. exists n. unfold ChatView.history.
      rewrite sent_roles, map_app, Hn. reflexivity.
Qed.

Lemma view_stays_settled_witness :
  ChatView.settled
    (ChatView.turn local_view offline (txt "Hi") clock never_aborted)
  /\ reachable
       (ChatView.providerManager
          (ChatView.turn local_view offline (txt "Hi") clock never_aborted))
  /\ exists n,
       map role (ChatView.history local_view (txt "Hi") clock)
       = ChatView.rounds n ++ [user].
Proof.
  destruct (view_stays_settled local_view offline (txt "Hi") clock
              never_aborted)
    as (Hsettled & Hreachable & _ & Hsent).
  - apply reach_setActiveProvider, reach_new.
  - split; [reflexivity | split]; [exists 0%nat; reflexivity | constructor].
  - split; [exact Hsettled | split; [exact Hreachable |]].
    apply Hsent. discriminate.
Defined.

(** ** The system prompt of the chat settings *)

Lemma rounds_no_system (n : nat) :
  Forall (fun r => r <> system) (ChatView.rounds n ++ [user]).
Proof.
  induction n as [| n IH]; cbn [ChatView.rounds app].
  - constructor; [discriminate | constructor].
  - constructor; [discriminate |]. constructor; [discriminate | exact IH].
Qed.

Lemma no_system_of_roles (l : list AIMessage) :
  Forall (fun r => r <> system) (map role l) ->
  existsb is_system l = false
  /\ filter (fun m => negb (is_system m)) l = l.
Proof.
  induction l as [| m l IH]; cbn [map existsb filter]; [now split |].
  intros H. inversion H as [| r rs Hr Hrs]; subst.
  destruct (IH Hrs) as [He Hf].
  unfold is_system at 1 3. destruct (role m); try (now destruct Hr);
    cbn [negb orb]; now rewrite He, Hf.
Qed.

(** How the system prompt of the chat settings reaches the provider with
    a message sent from the chat view.  The Ollama, OpenAI and Groq adapters
    send it as a [system] message before the messages of the session; the
    Anthropic adapter sends it in the [system] field and the messages as they
    are; the request of the Gemini adapter does not depend on it. *)
Theorem system_prompt_of_the_chat_settings
    (v : ChatView.t) (input : jsstring) (now : nat -> N) (p : AIProvider) :
  ChatView.settled v ->
  trim input <> [] ->
  ChatView.chatSystemPrompt (ChatView.settings v) <> [] ->
  match p with
  | Anthropic _ =>
      get (txt "system")
          (chat_body p (ChatView.history v input now) (ChatView.model v)
                     (ChatView.chat_options (ChatView.settings v)))
      = str (ChatView.chatSystemPrompt (ChatView.settings v))
      /\ get (txt "messages")
             (chat_body p (ChatView.history v input now) (ChatView.model v)
                        (ChatView.chat_options (ChatView.settings v)))
         = Some (JArray (map message_json (ChatView.history v input now)))
  | Gemini _ =>
      forall sp,
        chat_body p (ChatView.history v input now) (ChatView.model v)
                  (ChatView.chat_options (ChatView.settings v))
        = chat_body p (ChatView.history v input now) (ChatView.model v)
            (Some {| temperature :=
                       Some (ChatView.chatTemperature (ChatView.settings v));
                     maxTokens :=
                       Some (ChatView.chatMaxTokens (ChatView.settings v));
                     systemPrompt := sp |})
  | _ =>
      get (txt "system")
          (chat_body p (ChatView.history v input now) (ChatView.model v)
                     (ChatView.chat_options (ChatView.settings v)))
      = undefined
      /\ get (txt "messages")
             (chat_body p (ChatView.history v input now) (ChatView.model v)
                        (ChatView.chat_options (ChatView.settings v)))
         = Some (JArray
                   (message_json
                      {| role := system;
                         content :=
                           ChatView.chatSystemPrompt (ChatView.settings v);
                         timestamp := None |}
                    :: map message_json (ChatView.history v input now)))
  end.
Proof.
  intros (_ & [n Hn] & _) _ Hsp.
  assert (Hroles : Forall (fun r => r <> system)
                     (map role (ChatView.history v input now))).
  { unfold ChatView.history. rewrite sent_roles, map_app, Hn.
    apply rounds_no_system. }
  destruct (no_system_of_roles _ Hroles) as [Hnone Hall].
  assert (Htruthy :
            truthy_string
              (Some (ChatView.chatSystemPrompt (ChatView.settings v)))
            = Some (ChatView.chatSystemPrompt (ChatView.settings v))).
  { destruct (ChatView.chatSystemPrompt (ChatView.settings v));
      [now destruct Hsp | reflexivity]. }
  destruct p as [o | o | a | g | g]; cbn [chat_body].
  - unfold OllamaProvider.chat_body, OllamaProvider.ollamaMessages,
      ChatView.chat_options.
    cbn [opt_systemPrompt systemPrompt]. rewrite Htruthy.
    split; reflexivity.
  - unfold OpenAIProvider.chat_body, OpenAIProvider.chatMessages,
      ChatView.chat_options.
    cbn [opt_systemPrompt systemPrompt]. rewrite Htruthy, Hnone.
    split; reflexivity.
  - unfold AnthropicProvider.chat_body, AnthropicProvider.systemPrompt_of,
      AnthropicProvider.anthropicMessages, ChatView.chat_options.
    cbn [opt_systemPrompt systemPrompt]. rewrite Htruthy, Hall.
    split; reflexivity.
  - unfold GroqProvider.chat_body, OpenAIProvider.chatMessages,
      ChatView.chat_options.
    cbn [opt_systemPrompt systemPrompt]. rewrite Htruthy, Hnone.
    split; reflexivity.
  - intros sp. reflexivity.
Qed.

Lemma system_prompt_of_the_chat_settings_witness :
  get (txt "system")
      (chat_body keyed_anthropic (ChatView.history local_view (txt "Hi") clock)
                 (ChatView.model local_view)
                 (ChatView.chat_options (ChatView.settings local_view)))
  = str (ChatView.chatSystemPrompt (ChatView.settings local_view))
  /\ get (txt "messages")
         (chat_body keyed_anthropic
                    (ChatView.history local_view (txt "Hi") clock)
                    (ChatView.model local_view)
                    (ChatView.chat_options (ChatView.settings local_view)))
     = Some (JArray (map message_json
                         (ChatView.history local_view (txt "Hi") clock))).
Proof.
  apply (system_prompt_of_the_chat_settings local_view (txt "Hi") clock
           keyed_anthropic).
  - split; [reflexivity | split]; [exists 0%nat; reflexivity | constructor].
  - discriminate.
  - discriminate.
Defined.
